(** * A file-backed JSON record store (Go): shallow embedding and properties

    The development follows [main.go]: a [Driver] that maps collections to
    directories and resources to [<resource>.json] files, with a lazily
    filled registry of per-collection mutexes.

    Layout of the file:
    - [filepath]: the parts of Go's [path/filepath] the driver calls;
    - [os]: an in-memory model of the file system calls the driver makes;
    - [json]: the [json.Number] encoder, a concrete serializer;
    - the driver itself ([New], [Write], [Read], [ReadAll], [Delete],
      [getOrCreateMutex], [stat]);
    - [main]: the employees of [main] and what it does to the store;
    - the properties. *)

From Stdlib Require Import String Ascii List Bool Arith Lia.
From Stdlib Require Import DecimalString DecimalNat.
From stdpp Require Import base option gmap strings list fin_maps.

Open Scope string_scope.

(** ** Go's [(T, error)] results *)

Inductive result (E A : Type) : Type :=
| Ok (a : A)
| Err (e : E).
Arguments Ok {E A} a.
Arguments Err {E A} e.

(** ** path/filepath (Unix) *)

Module filepath.

Definition Separator : ascii := "/"%char.

Definition IsPathSeparator (c : ascii) : bool := Ascii.eqb c Separator.

(** [strings.Split(s, "/")]: the elements between separators, empty
    elements included. *)
Fixpoint split (s : string) : list string :=
  match s with
  | EmptyString => [EmptyString]
  | String c s' =>
      if IsPathSeparator c then EmptyString :: split s'
      else match split s' with
           | [] => [String c EmptyString]
           | x :: xs => String c x :: xs
           end
  end.

(** [strings.Join(elems, "/")] *)
Fixpoint join_sep (elems : list string) : string :=
  match elems with
  | [] => ""
  | [x] => x
  | x :: xs => x +:+ "/" +:+ join_sep xs
  end.

Definition rooted (path : string) : bool :=
  match path with
  | String c _ => IsPathSeparator c
  | EmptyString => false
  end.

(** Whether the output buffer of [Clean] ends in a real element that a
    [..] may remove ([out.w > dotdot] in the Go source). The buffer is kept
    as a stack of elements, last element first. *)
Definition can_backtrack (out : list string) : bool :=
  match out with
  | top :: _ => negb (String.eqb top "..")
  | [] => false
  end.

(** One iteration of the loop of [Clean], on one path element. *)
Definition clean_step (rt : bool) (out : list string) (elem : string)
  : list string :=
  if String.eqb elem "" then out
  else if String.eqb elem "." then out
  else if String.eqb elem ".." then
    if can_backtrack out then tail out
    else if negb rt then ".." :: out
    else out
  else elem :: out.

(** [filepath.Clean] *)
Definition Clean (path : string) : string :=
  if String.eqb path "" then "."
  else
    let rt := rooted path in
    let out := fold_left (clean_step rt) (split path) [] in
    let s := (if rt then "/" else "") +:+ join_sep (rev out) in
    if String.eqb s "" then "." else s.

Fixpoint drop_empty (elem : list string) : list string :=
  match elem with
  | [] => []
  | e :: rest => if String.eqb e "" then drop_empty rest else elem
  end.

(** [filepath.Join]: leading empty elements are ignored, the rest is
    joined with the separator and cleaned; all empty gives the empty
    string. *)
Definition Join (elem : list string) : string :=
  match drop_empty elem with
  | [] => ""
  | es => Clean (join_sep es)
  end.

End filepath.

(** ** Go [error] values the driver can return *)

Inductive Errno : Set :=
| ENOENT | ENOTDIR | EISDIR | EEXIST | ENOTEMPTY | EINVAL | EBUSY
| ENAMETOOLONG.

Inductive error : Type :=
| Errorf (msg : string)                       (* fmt.Errorf *)
| PathError (op path : string) (e : Errno)    (* *fs.PathError *)
| LinkError (op old new : string) (e : Errno) (* *os.LinkError *)
| JSONError (msg : string).                   (* errors of encoding/json *)

(** [os.IsNotExist] *)
Definition IsNotExist (err : error) : bool :=
  match err with
  | PathError _ _ ENOENT => true
  | LinkError _ _ _ ENOENT => true
  | _ => false
  end.

(** The error kinds of the specification, and the kind of each error value
    by the place it comes from: the two [Missing ...] messages are argument
    errors; the failure of an existence check ([stat]) and the message of
    [Delete] are not-found errors; every other failed system call is an I/O
    error; errors of the JSON encoder and decoder are serialization
    errors. *)
Inductive ErrorKind : Set :=
| InvalidArgument | NotFound | IOError | SerializationError.

Definition msgMissingCollection : string :=
  "Missing collection- no place to save record".
Definition msgMissingResource : string :=
  "Missing resource- no name for the record".
Definition msgUnableToFind (path : string) : string :=
  "Unable to find file or directory named " +:+ path +:+ String "010"%char "".

Definition kind_of (err : error) : option ErrorKind :=
  match err with
  | Errorf msg =>
      if String.eqb msg msgMissingCollection then Some InvalidArgument
      else if String.eqb msg msgMissingResource then Some InvalidArgument
      else if String.prefix "Unable to find file or directory named " msg
           then Some NotFound
      else None
  | PathError op _ _ =>
      if String.eqb op "stat" then Some NotFound else Some IOError
  | LinkError _ _ _ _ => Some IOError
  | JSONError _ => Some SerializationError
  end.


(** ** The file system behind package os

    A tree of directories and regular files. A location is the list of names
    that leads to a node from the root, innermost name first, so that the
    parent of [x :: loc] is [loc] and the root is [[]]. The root is always a
    directory and is not stored. Permissions, links and devices are not
    modelled: a call fails only for the structural reasons of POSIX (a
    missing name, a file where a directory is needed, a directory where a
    file is needed) and, where it makes an entry, for a name that the system
    does not take. A path is resolved element by element from the root or
    from the working directory; [..] is the parent of the location reached
    so far, and a separator at the end of a path is ignored (the driver
    passes cleaned paths, and cleaned paths with an extension appended). *)

Module os.

Inductive node : Type :=
| File (data : string)
| Dir.

Record FS : Type := mkFS {
  cwd : list string;
  nodes : gmap (list string) node
}.

Inductive FileMode : Set := ModeDir | ModeRegular | ModeIrregular.

Definition IsDir (m : FileMode) : bool :=
  match m with ModeDir => true | _ => false end.

Definition IsRegular (m : FileMode) : bool :=
  match m with ModeRegular => true | _ => false end.

Record FileInfo : Type := mkFileInfo { Name : string; Mode : FileMode }.

Definition mode_of (n : node) : FileMode :=
  match n with
  | File _ => ModeRegular
  | Dir => ModeDir
  end.

(** The names the system does not take (Linux): an entry has a name of at
    most [NAME_MAX] bytes, a path has fewer than [PATH_MAX] bytes, and Go
    passes no path with a NUL byte on to the system. The calls that make an
    entry check this: [WriteFile] and [Rename] their paths and the name of
    the new entry, [Mkdir] the name of the directory it makes. The calls
    that look a name up do not check it: in a tree that these calls made,
    no such name is found. *)
Definition NAME_MAX : nat := 255%nat.
Definition PATH_MAX : nat := 4096%nat.

Fixpoint has_NUL (s : string) : bool :=
  match s with
  | EmptyString => false
  | String c s' => Ascii.eqb c "000"%char || has_NUL s'
  end.

(** A path that is refused whatever the tree holds. *)
Definition refused (name : string) : option Errno :=
  if has_NUL name then Some EINVAL
  else if (PATH_MAX <=? String.length name)%nat then Some ENAMETOOLONG
  else None.

(** A path element that cannot be the name of an entry. *)
Definition bad_elem (x : string) : option Errno :=
  if has_NUL x then Some EINVAL
  else if (NAME_MAX <? String.length x)%nat then Some ENAMETOOLONG
  else None.

(** Path resolution, one element at a time: empty elements and [.] stay,
    [..] goes to the parent (the root is its own parent). *)
Definition resolve_step (loc : list string) (elem : string) : list string :=
  if String.eqb elem "" then loc
  else if String.eqb elem "." then loc
  else if String.eqb elem ".." then tail loc
  else elem :: loc.

Definition resolve (fs : FS) (name : string) : list string :=
  fold_left resolve_step (filepath.split name)
    (if filepath.rooted name then [] else cwd fs).

(** The node at a location: every proper ancestor has to be a directory. *)
Fixpoint walk (m : gmap (list string) node) (loc : list string)
  : result Errno node :=
  match loc with
  | [] => Ok Dir
  | x :: parent =>
      match walk m parent with
      | Ok Dir =>
          match m !! (x :: parent) with
          | Some n => Ok n
          | None => Err ENOENT
          end
      | Ok (File _) => Err ENOTDIR
      | Err e => Err e
      end
  end.

(** The node a path names; the empty path names nothing. *)
Definition path_node (fs : FS) (name : string) : result Errno node :=
  if String.eqb name "" then Err ENOENT
  else walk (nodes fs) (resolve fs name).

Definition base (loc : list string) : string :=
  match loc with
  | x :: _ => x
  | [] => "/"
  end.

(** [os.Stat] *)
Definition Stat (fs : FS) (name : string) : result error FileInfo :=
  match path_node fs name with
  | Ok n => Ok {| Name := base (resolve fs name); Mode := mode_of n |}
  | Err e => Err (PathError "stat" name e)
  end.

(** [os.Mkdir] on locations *)
Definition mkdir (m : gmap (list string) node) (loc : list string)
  : result Errno (gmap (list string) node) :=
  match loc with
  | [] => Err EEXIST
  | x :: parent =>
      match walk m parent with
      | Ok Dir =>
          match m !! (x :: parent) with
          | None =>
              match bad_elem x with
              | None => Ok (<[x :: parent := Dir]> m)
              | Some e => Err e
              end
          | Some _ => Err EEXIST
          end
      | Ok (File _) => Err ENOTDIR
      | Err e => Err e
      end
  end.

(** [os.MkdirAll] on locations: done if the location is a directory, an
    error if it is a file; otherwise the parent first, then the
    directory itself. *)
Fixpoint mkdir_all (m : gmap (list string) node) (loc : list string)
  : gmap (list string) node * option Errno :=
  match walk m loc with
  | Ok Dir => (m, None)
  | Ok (File _) => (m, Some ENOTDIR)
  | Err _ =>
      match loc with
      | [] => (m, None)
      | x :: parent =>
          match mkdir_all m parent with
          | (m', Some e) => (m', Some e)
          | (m', None) =>
              match mkdir m' (x :: parent) with
              | Ok m'' => (m'', None)
              | Err e =>
                  match walk m' (x :: parent) with
                  | Ok Dir => (m', None)
                  | _ => (m', Some e)
                  end
              end
          end
      end
  end.

Definition MkdirAll (fs : FS) (path : string) : option error * FS :=
  if String.eqb path "" then (Some (PathError "mkdir" path ENOENT), fs)
  else
    match mkdir_all (nodes fs) (resolve fs path) with
    | (m, None) => (None, mkFS (cwd fs) m)
    | (m, Some e) => (Some (PathError "mkdir" path e), mkFS (cwd fs) m)
    end.

(** [ioutil.ReadFile] *)
Definition ReadFile (fs : FS) (name : string) : result error string :=
  match path_node fs name with
  | Ok (File data) => Ok data
  | Ok Dir => Err (PathError "read" name EISDIR)
  | Err e => Err (PathError "open" name e)
  end.

(** [ioutil.WriteFile]: create or truncate, then write. *)
Definition WriteFile (fs : FS) (name : string) (data : string)
  : option error * FS :=
  let fail e := (Some (PathError "open" name e), fs) in
  if String.eqb name "" then fail ENOENT
  else
    match refused name with
    | Some e => fail e
    | None =>
        let loc := resolve fs name in
        let written := mkFS (cwd fs) (<[loc := File data]> (nodes fs)) in
        match walk (nodes fs) loc with
        | Ok (File _) => (None, written)
        | Ok Dir => fail EISDIR
        | Err e =>
            match loc with
            | x :: parent =>
                match walk (nodes fs) parent with
                | Ok Dir =>
                    match bad_elem x with
                    | None => (None, written)
                    | Some e' => fail e'
                    end
                | _ => fail e
                end
            | [] => fail e
            end
        end
    end.

(** The entries of the directory at a location. *)
Definition entry_of (loc : list string) (kv : list string * node)
  : option (string * node) :=
  match kv.1 with
  | x :: parent => if decide (parent = loc) then Some (x, kv.2) else None
  | [] => None
  end.

Definition entries (m : gmap (list string) node) (loc : list string)
  : list (string * node) :=
  omap (entry_of loc) (map_to_list m).

Fixpoint insert_by_name (e : string * node) (l : list (string * node))
  : list (string * node) :=
  match l with
  | [] => [e]
  | e' :: l' =>
      if String.leb e.1 e'.1 then e :: l else e' :: insert_by_name e l'
  end.

Definition sort_by_name (l : list (string * node)) : list (string * node) :=
  foldr insert_by_name [] l.

(** [ioutil.ReadDir]: the entries of a directory, sorted by file name. *)
Definition ReadDir (fs : FS) (dirname : string)
  : list FileInfo * option error :=
  match path_node fs dirname with
  | Ok Dir =>
      (map (fun e => {| Name := e.1; Mode := mode_of e.2 |})
           (sort_by_name (entries (nodes fs) (resolve fs dirname))), None)
  | Ok (File _) => ([], Some (PathError "readdirent" dirname ENOTDIR))
  | Err e => ([], Some (PathError "open" dirname e))
  end.

(** [os.Remove]: a file, or an empty directory. *)
Definition Remove (fs : FS) (name : string) : option error * FS :=
  if String.eqb name "" then (Some (PathError "remove" name ENOENT), fs)
  else
    let loc := resolve fs name in
    let removed := mkFS (cwd fs) (delete loc (nodes fs)) in
    match walk (nodes fs) loc with
    | Ok (File _) => (None, removed)
    | Ok Dir =>
        match loc with
        | [] => (Some (PathError "remove" name EBUSY), fs)
        | _ :: _ =>
            match entries (nodes fs) loc with
            | [] => (None, removed)
            | _ :: _ => (Some (PathError "remove" name ENOTEMPTY), fs)
            end
        end
    | Err e => (Some (PathError "remove" name e), fs)
    end.

(** The tree without a location and everything below it. *)
Definition prune (m : gmap (list string) node) (loc : list string)
  : gmap (list string) node :=
  filter (fun kv => ¬ (loc `suffix_of` kv.1)) m.

(** [endsWithDot] of os/removeall: the last element of the path is [.]. *)
Definition endsWithDot (path : string) : bool :=
  match rev (filepath.split path) with
  | last :: _ => String.eqb last "."
  | [] => false
  end.

(** [os.RemoveAll]: nothing to do for the empty path or a missing path; the
    path [.] is refused; a directory goes with everything below it. The
    root directory is emptied and stays. *)
Definition RemoveAll (fs : FS) (path : string) : option error * FS :=
  if String.eqb path "" then (None, fs)
  else if endsWithDot path then (Some (PathError "RemoveAll" path EINVAL), fs)
  else
    let loc := resolve fs path in
    let removed := mkFS (cwd fs) (prune (nodes fs) loc) in
    match walk (nodes fs) loc with
    | Ok (File _) => (None, removed)
    | Ok Dir =>
        match loc with
        | [] => (Some (PathError "unlinkat" path EBUSY), removed)
        | _ :: _ => (None, removed)
        end
    | Err ENOENT => (None, fs)
    | Err e => (Some (PathError "open" path e), fs)
    end.

(** A location below [old] moved below [new]. *)
Definition rebase (old new : list string) (kv : list string * node)
  : list string * node :=
  if decide (old `suffix_of` kv.1)
  then ((take (length kv.1 - length old) kv.1 ++ new)%list, kv.2)
  else kv.

Definition move (m : gmap (list string) node) (old new : list string)
  : gmap (list string) node :=
  list_to_map (map (rebase old new) (map_to_list (prune m new))).

(** [os.Rename]: an existing directory is never replaced; a file replaces
    a file; otherwise the parent of the new name has to be a directory, and
    the new name one that an entry can have. *)
Definition Rename (fs : FS) (oldname newname : string) : option error * FS :=
  let fail e := (Some (LinkError "rename" oldname newname e), fs) in
  let old := resolve fs oldname in
  let new := resolve fs newname in
  let moved := mkFS (cwd fs) (move (nodes fs) old new) in
  match refused oldname, refused newname with
  | Some e, _ => fail e
  | None, Some e => fail e
  | None, None =>
      match path_node fs newname, path_node fs oldname with
      | Ok Dir, Err e => fail e
      | Ok Dir, Ok _ =>
          if String.eqb newname oldname then fail EEXIST
          else if decide (old = new) then (None, fs)
          else fail EEXIST
      | _, Err e => fail e
      | Ok (File _), Ok Dir => fail ENOTDIR
      | Ok (File _), Ok (File _) =>
          if decide (old = new) then (None, fs) else (None, moved)
      | Err e, Ok n =>
          if String.eqb newname "" then fail ENOENT
          else
            match new with
            | x :: parent =>
                match walk (nodes fs) parent with
                | Ok Dir =>
                    if decide (old `suffix_of` new) then fail EINVAL
                    else
                      match bad_elem x with
                      | None => (None, moved)
                      | Some e' => fail e'
                      end
                | Ok (File _) => fail ENOTDIR
                | Err e' => fail e'
                end
            | [] => fail e
            end
      end
  end.

End os.

(** ** encoding/json on [json.Number]

    The record type of the driver is arbitrary; [User] in [main.go] has two
    fields of type [json.Number], the type whose encoding can fail. This is
    the encoder and decoder of that type, used as a concrete serializer. *)

Module json.

Definition Number : Type := string.

Definition is_digit (c : ascii) : bool :=
  (48 <=? nat_of_ascii c)%nat && (nat_of_ascii c <=? 57)%nat.

Fixpoint skip_digits (s : string) : string :=
  match s with
  | String c s' => if is_digit c then skip_digits s' else s
  | EmptyString => s
  end.

Definition skip_fraction (s : string) : string :=
  match s with
  | String "." (String d s') => if is_digit d then skip_digits s' else s
  | _ => s
  end.

(** [None] stands for the early [return false] of the exponent part. *)
Definition skip_exponent (s : string) : option string :=
  match s with
  | String c (String d s' as s1) =>
      if Ascii.eqb c "e" || Ascii.eqb c "E" then
        if Ascii.eqb d "+" || Ascii.eqb d "-" then
          if String.eqb s' "" then None else Some (skip_digits s')
        else Some (skip_digits s1)
      else Some s
  | _ => Some s
  end.

(** [isValidNumber]: the grammar of JSON numbers. *)
Definition isValidNumber (s : string) : bool :=
  match s with
  | EmptyString => false
  | String c0 s0 =>
      let s := if Ascii.eqb c0 "-" then s0 else s in
      match s with
      | EmptyString => false
      | String c s' =>
          let after_int :=
            if Ascii.eqb c "0" then Some s'
            else if is_digit c then Some (skip_digits s')
            else None in
          match after_int with
          | None => false
          | Some s =>
              match skip_exponent (skip_fraction s) with
              | None => false
              | Some s => String.eqb s ""
              end
          end
      end
  end.

Definition quote (s : string) : string :=
  String "034"%char (s +:+ String "034"%char "").

(** [json.MarshalIndent(n, "", "\t")] for a [json.Number]: the literal
    itself, [0] for the empty one; an invalid literal is an error. *)
Definition MarshalIndent (n : Number) : result error string :=
  let numStr := if String.eqb n "" then "0" else n in
  if isValidNumber numStr then Ok numStr
  else Err (JSONError ("json: invalid number literal " +:+ quote numStr)).

Definition is_space (c : ascii) : bool :=
  Ascii.eqb c " " || Ascii.eqb c "009" || Ascii.eqb c "010"
  || Ascii.eqb c "013".

Fixpoint trim_left (s : string) : string :=
  match s with
  | String c s' => if is_space c then trim_left s' else s
  | EmptyString => s
  end.

Fixpoint trim_right (s : string) : string :=
  match s with
  | String c s' =>
      match trim_right s' with
      | EmptyString => if is_space c then "" else String c ""
      | t => String c t
      end
  | EmptyString => s
  end.

(** [json.Unmarshal] into a fresh [json.Number]: one number literal with
    white space around it; [null] leaves the zero value. *)
Definition Unmarshal (data : string) : result error Number :=
  let lit := trim_right (trim_left data) in
  if String.eqb lit "null" then Ok ""
  else if isValidNumber lit then Ok lit
  else Err (JSONError "json: cannot unmarshal into Go value of type json.Number").

End json.

(** ** The driver *)

(** The calls into package os that a run makes, in order. *)
Inductive Syscall : Type :=
| SysStat (name : string)
| SysMkdirAll (path : string)
| SysWriteFile (name data : string)
| SysRename (oldname newname : string)
| SysReadFile (name : string)
| SysReadDir (dirname : string)
| SysRemove (name : string)
| SysRemoveAll (path : string).

(** What a call of the driver can change besides the driver itself: the file
    system, the record of system calls made so far, and the number of
    [sync.Mutex] values allocated so far (the next one gets this number as
    its address). *)
Record State : Type := mkState {
  fs : os.FS;
  trace : list Syscall;
  allocated : nat
}.

(** [Driver]: the registry of mutexes and the root directory. The registry
    lock [mutex] and the logger are left out: every call is modelled as
    running alone, where acquiring and releasing a free mutex changes
    nothing, and logging is console output. *)
Record Driver : Type := mkDriver {
  mutexes : gmap string nat;
  dir : string
}.

Definition sys (call : Syscall) (fs' : os.FS) (σ : State) : State :=
  mkState fs' (trace σ ++ [call]) (allocated σ).

Definition os_Stat (σ : State) (name : string)
  : result error os.FileInfo * State :=
  (os.Stat (fs σ) name, sys (SysStat name) (fs σ) σ).

Definition os_MkdirAll (σ : State) (path : string) : option error * State :=
  let '(err, fs') := os.MkdirAll (fs σ) path in
  (err, sys (SysMkdirAll path) fs' σ).

Definition ioutil_WriteFile (σ : State) (name data : string)
  : option error * State :=
  let '(err, fs') := os.WriteFile (fs σ) name data in
  (err, sys (SysWriteFile name data) fs' σ).

Definition os_Rename (σ : State) (oldname newname : string)
  : option error * State :=
  let '(err, fs') := os.Rename (fs σ) oldname newname in
  (err, sys (SysRename oldname newname) fs' σ).

Definition ioutil_ReadFile (σ : State) (name : string)
  : result error string * State :=
  (os.ReadFile (fs σ) name, sys (SysReadFile name) (fs σ) σ).

Definition ioutil_ReadDir (σ : State) (dirname : string)
  : list os.FileInfo * option error * State :=
  (os.ReadDir (fs σ) dirname, sys (SysReadDir dirname) (fs σ) σ).

Definition os_Remove (σ : State) (name : string) : option error * State :=
  let '(err, fs') := os.Remove (fs σ) name in
  (err, sys (SysRemove name) fs' σ).

Definition os_RemoveAll (σ : State) (path : string) : option error * State :=
  let '(err, fs') := os.RemoveAll (fs σ) path in
  (err, sys (SysRemoveAll path) fs' σ).

(** [New] *)
Definition New (σ : State) (dir : string) : Driver * option error * State :=
  let dir := filepath.Clean dir in
  let driver := {| mutexes := ∅; dir := dir |} in
  match os_Stat σ dir with
  | (Ok _, σ) => (driver, None, σ)
  | (Err _, σ) =>
      let '(err, σ) := os_MkdirAll σ dir in
      (driver, err, σ)
  end.

(** [getOrCreateMutex] *)
Definition getOrCreateMutex (d : Driver) (σ : State) (collection : string)
  : nat * Driver * State :=
  match mutexes d !! collection with
  | Some m => (m, d, σ)
  | None =>
      let m := allocated σ in
      (m, {| mutexes := <[collection := m]> (mutexes d); dir := dir d |},
       mkState (fs σ) (trace σ) (S m))
  end.

(** [stat] *)
Definition stat (σ : State) (path : string)
  : result error os.FileInfo * State :=
  match os_Stat σ path with
  | (Err err, σ') =>
      if IsNotExist err then os_Stat σ' (path +:+ ".json")
      else (Err err, σ')
  | (Ok fi, σ') => (Ok fi, σ')
  end.

Section Records.

(** The type of the records and its serializer, [json.MarshalIndent] with
    prefix [""] and indent ["\t"], and [json.Unmarshal]. *)
Variable V : Type.
Variable MarshalIndent : V -> result error string.
Variable Unmarshal : string -> result error V.

(** [Write] *)
Definition Write (d : Driver) (σ : State) (collection resource : string)
  (v : V) : option error * Driver * State :=
  if String.eqb collection "" then
    (Some (Errorf "Missing collection- no place to save record"), d, σ)
  else if String.eqb resource "" then
    (Some (Errorf "Missing resource- no name for the record"), d, σ)
  else
    let '(mutex, d, σ) := getOrCreateMutex d σ collection in
    let dir := filepath.Join [dir d; collection] in
    let fnlPath := filepath.Join [dir; resource +:+ ".json"] in
    let tempPath := fnlPath +:+ ".tmp" in
    match os_MkdirAll σ dir with
    | (Some err, σ) => (Some err, d, σ)
    | (None, σ) =>
        match MarshalIndent v with
        | Err err => (Some err, d, σ)
        | Ok b =>
            let b := b +:+ String "010"%char "" in
            match ioutil_WriteFile σ tempPath b with
            | (Some err, σ) => (Some err, d, σ)
            | (None, σ) =>
                let '(err, σ) := os_Rename σ tempPath fnlPath in
                (err, d, σ)
            end
        end
    end.

(** [Read]; the decoded record stands for what is stored through [v]. *)
Definition Read (d : Driver) (σ : State) (collection resource : string)
  : result error V * State :=
  if String.eqb collection "" then
    (Err (Errorf "Missing collection- no place to save record"), σ)
  else if String.eqb resource "" then
    (Err (Errorf "Missing resource- no name for the record"), σ)
  else
    let record := filepath.Join [dir d; collection; resource +:+ ".json"] in
    match stat σ record with
    | (Err err, σ) => (Err err, σ)
    | (Ok _, σ) =>
        match ioutil_ReadFile σ (record +:+ ".json") with
        | (Err err, σ) => (Err err, σ)
        | (Ok b, σ) => (Unmarshal b, σ)
        end
    end.

End Records.

(** The loop of [ReadAll] over the directory entries. *)
Fixpoint ReadAll_loop (σ : State) (dir : string) (files : list os.FileInfo)
  (records : list string) : list string * option error * State :=
  match files with
  | [] => (records, None, σ)
  | file :: files =>
      match ioutil_ReadFile σ (filepath.Join [dir; os.Name file]) with
      | (Err err, σ) => ([], Some err, σ)
      | (Ok b, σ) => ReadAll_loop σ dir files (records ++ [b])%list
      end
  end.

(** [ReadAll] *)
Definition ReadAll (d : Driver) (σ : State) (collection : string)
  : list string * option error * State :=
  if String.eqb collection "" then
    ([], Some (Errorf "Missing collection- no place to save record"), σ)
  else
    let dir := filepath.Join [dir d; collection] in
    match stat σ dir with
    | (Err err, σ) => ([], Some err, σ)
    | (Ok _, σ) =>
        let '(files, _, σ) := ioutil_ReadDir σ dir in
        ReadAll_loop σ dir files []
    end.

(** [Delete] *)
Definition Delete (d : Driver) (σ : State) (collection resource : string)
  : option error * Driver * State :=
  let path := filepath.Join [collection; resource] in
  let '(mutex, d, σ) := getOrCreateMutex d σ collection in
  let dir := filepath.Join [dir d; path] in
  match stat σ dir with
  | (Err _, σ) =>
      (Some (Errorf ("Unable to find file or directory named " +:+ path
                     +:+ String "010"%char "")), d, σ)
  | (Ok fi, σ) =>
      if os.IsDir (os.Mode fi) then
        let '(err, σ) := os_RemoveAll σ dir in (err, d, σ)
      else if os.IsRegular (os.Mode fi) then
        let '(err, σ) := os_Remove σ (dir +:+ ".json") in (err, d, σ)
      else (None, d, σ)
  end.

(** ** Notions used to state the properties *)

(** [data] is what reading the entry [file] of the directory [dirp] gives,
    the way the loop of [ReadAll] reads it. *)
Definition reads (dirp : string) (fs0 : os.FS) (file : os.FileInfo)
  (data : string) : Prop :=
  os.ReadFile fs0 (filepath.Join [dirp; os.Name file]) = Ok data.

Fixpoint no_separator (s : string) : bool :=
  match s with
  | EmptyString => true
  | String c s' => negb (filepath.IsPathSeparator c) && no_separator s'
  end.

(** A name: one path element, not empty, not [.] and not [..]. *)
Definition is_name (s : string) : bool :=
  negb (String.eqb s "") && negb (String.eqb s ".")
  && negb (String.eqb s "..") && no_separator s.

(** A relative path of names: one or more names with one separator between
    them, as in [users] or [archive/2024]. *)
Definition is_names (path : string) : bool :=
  forallb is_name (filepath.split path).

(** What [Clean] keeps in its buffer: elements without separator that are
    not empty and not [.], and no [..] in a rooted path. *)
Definition kept (rt : bool) (e : string) : Prop :=
  no_separator e = true /\ e <> "" /\ e <> "."
  /\ (rt = true -> e <> "..").



(** ** Runs of several operations *)

Section Operations.

Variable V : Type.
Variable MarshalIndent : V -> result error string.
Variable Unmarshal : string -> result error V.

Inductive Op : Type :=
| OpWrite (collection resource : string) (v : V)
| OpRead (collection resource : string)
| OpReadAll (collection : string)
| OpDelete (collection resource : string).

(** One operation; what remains is the driver and the state. *)
Definition run (ds : Driver * State) (op : Op) : Driver * State :=
  let '(d, σ) := ds in
  match op with
  | OpWrite c r v => let '(_, d, σ) := Write V MarshalIndent d σ c r v in (d, σ)
  | OpRead c r => let '(_, σ) := Read V Unmarshal d σ c r in (d, σ)
  | OpReadAll c => let '(_, _, σ) := ReadAll d σ c in (d, σ)
  | OpDelete c r => let '(_, d, σ) := Delete d σ c r in (d, σ)
  end.

Definition run_all (ops : list Op) (ds : Driver * State) : Driver * State :=
  fold_left run ops ds.

End Operations.

(** ** Concrete stores used in the examples *)

Module Example.

(** An empty file system, nothing allocated, no call made. *)
Definition empty (cwd : list string) : State :=
  mkState (os.mkFS cwd ∅) [] 0.

Definition Write := Write json.Number json.MarshalIndent.
Definition Read := Read json.Number json.Unmarshal.

(** [New("/db", nil)] on the empty file system. *)
Definition db : Driver := (New (empty []) "/db").1.1.
Definition st_db : State := (New (empty []) "/db").2.

(** Then [Write("users", "1_john", "25")]. *)
Definition st_john : State := (Write db st_db "users" "1_john" "25").2.
Definition d_john : Driver := (Write db st_db "users" "1_john" "25").1.2.

(** Instead, a write to the collection [users/a.json.tmp], which makes
    the directory [/db/users/a.json.tmp]. *)
Definition st_tmpdir : State :=
  (Write db st_db "users/a.json.tmp" "x" "1").2.
Definition d_tmpdir : Driver :=
  (Write db st_db "users/a.json.tmp" "x" "1").1.2.

(** Instead, a write to the collection [users/x.json], which makes the
    directory [/db/users/x.json] with the file [y.json] in it. *)
Definition st_subdir : State := (Write db st_db "users/x.json" "y" "1").2.
Definition d_subdir : Driver := (Write db st_db "users/x.json" "y" "1").1.2.


End Example.

(** ** Further notions and stores, for the further properties *)

(** A suffix appended to the last element of a list of path elements. *)
Fixpoint append_last (elems : list string) (s : string) : list string :=
  match elems with
  | [] => [s]
  | [x] => [x +:+ s]
  | x :: rest => x :: append_last rest s
  end.

(** No mutex is registered twice, and every registered mutex was allocated
    before. *)
Definition registry_ok (d : Driver) (σ : State) : Prop :=
  (forall c m, mutexes d !! c = Some m -> m < allocated σ)
  /\ (forall c1 c2 m,
        mutexes d !! c1 = Some m -> mutexes d !! c2 = Some m -> c1 = c2).

(** The calls that only look at the file system. *)
Definition reads_only (call : Syscall) : bool :=
  match call with
  | SysStat _ | SysReadFile _ | SysReadDir _ => true
  | _ => false
  end.

(** ** The resource names of [main]

    [main] writes its employees to the collection [users], the one at index
    [i] under the name [fmt.Sprintf("%d_%s", i+1, value.Name)]. *)

(** [%d] of a number that is not negative: its decimal digits. *)
Definition Itoa (n : nat) : string :=
  DecimalString.NilEmpty.string_of_uint (Nat.to_uint n).

Definition uniqueID (i : nat) (name : string) : string :=
  Itoa (i + 1) +:+ "_" +:+ name.

Fixpoint no_underscore (s : string) : bool :=
  match s with
  | EmptyString => true
  | String c s' => negb (Ascii.eqb c "_") && no_underscore s'
  end.

(** ** main

    The data model of [main], its employees, and what [main] does to the
    store: [New], one [Write] for each employee (errors are not looked at),
    then [ReadAll]. The decoding of the records that follows only feeds the
    output, which is left out, as is the output itself. *)

Module main.

(** The fields [State] and [Address] of the source are [State_] and
    [Address_] here. *)

Record Address : Type := mkAddress {
  City : string;
  State_ : string;
  Country : string;
  PinCode : json.Number
}.

Record User : Type := mkUser {
  Name : string;
  Age : json.Number;
  Contact : string;
  Company : string;
  Address_ : Address
}.

Definition employees : list User := [
  mkUser "john" "25" "1234567890" "ABC Inc"
    (mkAddress "New York" "NY" "USA" "10001");
  mkUser "jane" "30" "0987654321" "XYZ Corp"
    (mkAddress "Los Angeles" "CA" "USA" "90001");
  mkUser "jim" "35" "1111111111" "DEF Inc"
    (mkAddress "Chicago" "IL" "USA" "60601");
  mkUser "jill" "40" "2222222222" "GHI Corp"
    (mkAddress "Houston" "TX" "USA" "77001");
  mkUser "jack" "45" "3333333333" "JKL Inc"
    (mkAddress "Miami" "FL" "USA" "33101");
  mkUser "jane" "50" "4444444444" "MNO Corp"
    (mkAddress "Seattle" "WA" "USA" "98101");
  mkUser "jim" "55" "5555555555" "PQR Inc"
    (mkAddress "San Francisco" "CA" "USA" "94101")
].

Section Main.

(** [json.MarshalIndent] on a [User]. *)
Variable MarshalIndent : User -> result error string.

(** The loop [for i, value := range employees], from index [i] on. *)
Fixpoint write_employees (db : Driver) (σ : State) (i : nat)
  (employees : list User) : Driver * State :=
  match employees with
  | [] => (db, σ)
  | value :: rest =>
      let uniqueID := uniqueID i (Name value) in
      let '(_, db, σ) :=
        Write User MarshalIndent db σ "users" uniqueID
          {| Name := Name value;
             Age := Age value;
             Contact := Contact value;
             Company := Company value;
             Address_ := Address_ value |} in
      write_employees db σ (S i) rest
  end.

Definition main (σ : State) : list string * State :=
  let dir := "./" in
  let '(db, err, σ) := New σ dir in
  let '(db, σ) := write_employees db σ 0 employees in
  let '(records, err, σ) := ReadAll db σ "users" in
  (records, σ).

End Main.

End main.

Module Example2.

(** A serializer of users for the examples: the age alone. *)
Definition encode_age (u : main.User) : result error string :=
  json.MarshalIndent (main.Age u).

(** After [Write("users", "1_john", "25")], a second record. *)
Definition st_jane : State :=
  (Example.Write Example.d_john Example.st_john "users" "2_jane" "30").2.
Definition d_jane : Driver :=
  (Example.Write Example.d_john Example.st_john "users" "2_jane" "30").1.2.

(** [Write("users", "1_john.json", "25")] on the new store. *)
Definition st_ext : State :=
  (Example.Write Example.db Example.st_db "users" "1_john.json" "25").2.
Definition d_ext : Driver :=
  (Example.Write Example.db Example.st_db "users" "1_john.json" "25").1.2.

(** The store of [main], started in the empty directory [/home]; then
    after the loop over the employees. *)
Definition d_home : Driver := (New (Example.empty ["home"]) "./").1.1.
Definition st_home : State := (New (Example.empty ["home"]) "./").2.
Definition d_main : Driver :=
  (main.write_employees encode_age d_home st_home 0 main.employees).1.
Definition st_main : State :=
  (main.write_employees encode_age d_home st_home 0 main.employees).2.

(** The second employee of the name [jane]. *)
Definition jane : main.User :=
  main.mkUser "jane" "50" "4444444444" "MNO Corp"
    (main.mkAddress "Seattle" "WA" "USA" "98101").

End Example2.

(** * Properties *)

Import filepath.

(** ** Error values of the system calls *)

Lemma Stat_Err fs name err :
  os.Stat fs name = Err err -> exists e, err = PathError "stat" name e.
Proof.
  unfold os.Stat. destruct (os.path_node fs name); [discriminate|].
  intros [= <-]. eauto.
Qed.

Lemma Stat_Err_NotFound fs name err :
  os.Stat fs name = Err err -> kind_of err = Some NotFound.
Proof. intros [e ->]%Stat_Err. reflexivity. Qed.

Lemma ReadFile_Err_IOError fs name err :
  os.ReadFile fs name = Err err -> kind_of err = Some IOError.
Proof.
  unfold os.ReadFile. destruct (os.path_node fs name) as [[data|]|e].
  - discriminate.
  - intros [= <-]. reflexivity.
  - intros [= <-]. reflexivity.
Qed.

Lemma WriteFile_Err fs name data err fs' :
  os.WriteFile fs name data = (Some err, fs') ->
  kind_of err = Some IOError /\ fs' = fs.
Proof.
  unfold os.WriteFile. intros H.
  repeat (case_match; simplify_eq); auto.
Qed.

(** The existence check of the driver fails when both forms of the path
    fail, with the error of the form tried last. *)
Lemma stat_Err σ path e1 e2 :
  os.Stat (fs σ) path = Err e1 ->
  os.Stat (fs σ) (path +:+ ".json") = Err e2 ->
  exists err σ', stat σ path = (Err err, σ')
    /\ kind_of err = Some NotFound /\ fs σ' = fs σ.
Proof.
  intros H1 H2. unfold stat, os_Stat. rewrite H1.
  destruct (IsNotExist e1).
  - cbn. rewrite H2. eexists _, _. split; [reflexivity|].
    split; [by eapply Stat_Err_NotFound|reflexivity].
  - eexists _, _. split; [reflexivity|].
    split; [by eapply Stat_Err_NotFound|reflexivity].
Qed.

(** ** Write: argument checks *)

(** C3. [Write] with an empty collection, and [Write] with an empty
    resource, return an argument error; the driver and the state, the record
    of system calls included, are returned as they were: no call into the
    file system is made. *)
Theorem Write_empty_identifier (V : Type) (MarshalIndent : V -> result error string)
    (d : Driver) (σ : State) (c r : string) (v : V) :
  (exists err, Write V MarshalIndent d σ "" r v = (Some err, d, σ)
     /\ kind_of err = Some InvalidArgument)
  /\ (exists err, Write V MarshalIndent d σ c "" v = (Some err, d, σ)
     /\ kind_of err = Some InvalidArgument).
Proof.
  split.
  - eexists. split; reflexivity.
  - unfold Write. destruct (String.eqb c ""); eexists; split; reflexivity.
Qed.

(** ** Read *)

(** C8. For non-empty [c] and [r]: when neither [root/c/r.json] nor that
    path with [.json] appended once more exists, [Read c r] fails with a
    not-found error (and leaves the file system as it was). *)
Theorem Read_never_written (V : Type) (Unmarshal : string -> result error V)
    (d : Driver) (σ : State) (c r : string) (e1 e2 : error) :
  c <> "" -> r <> "" ->
  os.Stat (fs σ) (Join [dir d; c; r +:+ ".json"]) = Err e1 ->
  os.Stat (fs σ) (Join [dir d; c; r +:+ ".json"] +:+ ".json") = Err e2 ->
  exists err σ',
    Read V Unmarshal d σ c r = (Err err, σ')
    /\ kind_of err = Some NotFound /\ fs σ' = fs σ.
Proof.
  intros Hc Hr H1 H2. unfold Read.
  apply String.eqb_neq in Hc, Hr. rewrite Hc, Hr.
  destruct (stat_Err _ _ _ _ H1 H2) as (err & σ' & -> & Hk & Hfs).
  eauto.
Qed.

Lemma Read_never_written_witness :
  exists err σ',
    Example.Read Example.db Example.st_db "users" "nobody" = (Err err, σ')
    /\ kind_of err = Some NotFound /\ fs σ' = fs Example.st_db.
Proof.
  eapply (Read_never_written json.Number json.Unmarshal Example.db
            Example.st_db "users" "nobody"
            (PathError "stat" "/db/users/nobody.json" ENOENT)
            (PathError "stat" "/db/users/nobody.json.json" ENOENT)).
  - discriminate.
  - discriminate.
  - vm_compute. reflexivity.
  - vm_compute. reflexivity.
Defined.

(** [Read] opens the path it checked with [.json] appended once more: when
    that file cannot be read, [Read] fails, whatever [root/c/r.json]
    holds. *)
Lemma Read_opens_double_extension (V : Type)
    (Unmarshal : string -> result error V) (d : Driver) (σ : State)
    (c r : string) (fi : os.FileInfo) (err : error) :
  c <> "" -> r <> "" ->
  os.Stat (fs σ) (Join [dir d; c; r +:+ ".json"]) = Ok fi ->
  os.ReadFile (fs σ) (Join [dir d; c; r +:+ ".json"] +:+ ".json") = Err err ->
  (Read V Unmarshal d σ c r).1 = Err err.
Proof.
  intros Hc Hr Hst Hrd. unfold Read.
  apply String.eqb_neq in Hc, Hr. rewrite Hc, Hr.
  unfold stat, os_Stat. rewrite Hst.
  unfold ioutil_ReadFile. cbn [fs sys]. by rewrite Hrd.
Qed.

(** C1, on the code as it is: after a successful
    [Write("users", "1_john", "25")] the record is in
    [/db/users/1_john.json], and [Read("users", "1_john")] fails: it checks
    that [1_john.json] exists and then opens [1_john.json.json]. *)
Theorem Write_then_Read_fails :
  (Example.Write Example.db Example.st_db "users" "1_john" "25").1.1 = None
  /\ os.ReadFile (fs Example.st_john) "/db/users/1_john.json"
     = Ok ("25" +:+ String "010"%char "")
  /\ (Example.Read Example.d_john Example.st_john "users" "1_john").1
     = Err (PathError "open" "/db/users/1_john.json.json" ENOENT).
Proof. repeat split; vm_compute; reflexivity. Qed.

(** ** ReadAll *)

(** C7, on the code as it is: after [Write("users", "1_john", "25")] there
    is no directory [/db/users/1_john], and [ReadAll("users/1_john")]
    returns no error and no record. The existence check of [ReadAll] goes
    through [stat], which finds [/db/users/1_john.json] instead; [ReadDir]
    then fails on the missing directory, and its error is dropped. *)
Theorem ReadAll_missing_collection_no_error :
  Join [dir Example.d_john; "users/1_john"] = "/db/users/1_john"
  /\ os.Stat (fs Example.st_john) "/db/users/1_john"
     = Err (PathError "stat" "/db/users/1_john" ENOENT)
  /\ (os.ReadDir (fs Example.st_john) "/db/users/1_john").2
     = Some (PathError "open" "/db/users/1_john" ENOENT)
  /\ (ReadAll Example.d_john Example.st_john "users/1_john").1 = ([], None)
  /\ trace (ReadAll Example.d_john Example.st_john "users/1_john").2
     = (trace Example.st_john
        ++ [SysStat "/db/users/1_john"; SysStat "/db/users/1_john.json";
            SysReadDir "/db/users/1_john"])%list.
Proof. repeat split; vm_compute; reflexivity. Qed.

(** X22. For non-empty [c]: when neither [root/c] nor [root/c.json]
    exists, [ReadAll c] fails with a not-found error and returns no
    record. *)
Theorem ReadAll_missing_collection (d : Driver) (σ : State) (c : string)
    (e1 e2 : error) :
  c <> "" ->
  os.Stat (fs σ) (Join [dir d; c]) = Err e1 ->
  os.Stat (fs σ) (Join [dir d; c] +:+ ".json") = Err e2 ->
  exists err σ',
    ReadAll d σ c = ([], Some err, σ') /\ kind_of err = Some NotFound.
Proof.
  intros Hc H1 H2. unfold ReadAll.
  apply String.eqb_neq in Hc. rewrite Hc.
  destruct (stat_Err _ _ _ _ H1 H2) as (err & σ' & -> & Hk & Hfs).
  eauto.
Qed.

Lemma ReadAll_missing_collection_witness :
  exists err σ',
    ReadAll Example.db Example.st_db "users" = ([], Some err, σ')
    /\ kind_of err = Some NotFound.
Proof.
  eapply (ReadAll_missing_collection Example.db Example.st_db "users"
            (PathError "stat" "/db/users" ENOENT)
            (PathError "stat" "/db/users.json" ENOENT)).
  - discriminate.
  - vm_compute. reflexivity.
  - vm_compute. reflexivity.
Defined.

(** ** What MkdirAll changes *)

Lemma mkdir_Ok m loc m' :
  os.mkdir m loc = Ok m' -> m !! loc = None /\ m' = <[loc := os.Dir]> m.
Proof.
  destruct loc as [|x parent]; cbn; [discriminate|].
  destruct (os.walk m parent) as [[?|]|?]; try discriminate.
  destruct (m !! (x :: parent)) eqn:E; [discriminate|].
  destruct (os.bad_elem x); [discriminate|].
  intros [= <-]. auto.
Qed.

(** [MkdirAll] only adds directories, at locations that were free. *)
Lemma mkdir_all_nodes loc : forall m m' e,
  os.mkdir_all m loc = (m', e) ->
  forall q, m' !! q = m !! q \/ (m !! q = None /\ m' !! q = Some os.Dir).
Proof.
  induction loc as [|x parent IH]; intros m m' e H q.
  - cbn in H. injection H as <- _. auto.
  - cbn [os.mkdir_all] in H.
    destruct (os.walk m (x :: parent)) as [[?|]|?].
    + injection H as <- _. auto.
    + injection H as <- _. auto.
    + destruct (os.mkdir_all m parent) as [m1 [e1|]] eqn:E1.
      * injection H as <- _. eapply IH, E1.
      * assert (Hm1 := IH _ _ _ E1 q).
        destruct (os.mkdir m1 (x :: parent)) as [m2|e2] eqn:E2.
        -- injection H as <- _.
           apply mkdir_Ok in E2 as [Hfree ->].
           destruct (decide (q = x :: parent)) as [->|Hne].
           ++ rewrite lookup_insert_eq. right. split; [|done].
              destruct Hm1 as [Hm1|[Hm1 _]]; congruence.
           ++ rewrite lookup_insert_ne by done. exact Hm1.
        -- destruct (os.walk m1 (x :: parent)) as [[?|]|?];
             injection H as <- _; exact Hm1.
Qed.

Lemma walk_mono (m m' : gmap (list string) os.node) :
  (forall q n, m !! q = Some n -> m' !! q = Some n) ->
  forall loc n, os.walk m loc = Ok n -> os.walk m' loc = Ok n.
Proof.
  intros Hsub. induction loc as [|x parent IH]; intros n; cbn; [done|].
  destruct (os.walk m parent) as [[?|]|?]; try discriminate.
  rewrite (IH _ eq_refl).
  destruct (m !! (x :: parent)) eqn:E; [|discriminate].
  intros [= <-]. by rewrite (Hsub _ _ E).
Qed.

Lemma MkdirAll_cwd fs path err fs' :
  os.MkdirAll fs path = (err, fs') -> os.cwd fs' = os.cwd fs.
Proof.
  unfold os.MkdirAll. destruct (String.eqb path "").
  - by intros [= _ <-].
  - destruct (os.mkdir_all _ _) as [m [e|]]; by intros [= _ <-].
Qed.

Lemma MkdirAll_nodes fs path err fs' :
  os.MkdirAll fs path = (err, fs') ->
  forall q, os.nodes fs' !! q = os.nodes fs !! q
            \/ (os.nodes fs !! q = None /\ os.nodes fs' !! q = Some os.Dir).
Proof.
  unfold os.MkdirAll. destruct (String.eqb path "").
  - intros [= _ <-]. auto.
  - destruct (os.mkdir_all _ _) as [m [e|]] eqn:E; intros [= _ <-]; cbn;
      eapply mkdir_all_nodes, E.
Qed.

(** The regular files before and after [MkdirAll] are the same. *)
Lemma MkdirAll_files fs path err fs' :
  os.MkdirAll fs path = (err, fs') ->
  forall loc data,
    os.nodes fs' !! loc = Some (os.File data)
    <-> os.nodes fs !! loc = Some (os.File data).
Proof.
  intros H loc data.
  destruct (MkdirAll_nodes _ _ _ _ H loc) as [->|[H1 H2]]; [done|].
  rewrite H1, H2. split; discriminate.
Qed.

(** A file that could be read before [MkdirAll] reads the same after. *)
Lemma MkdirAll_ReadFile fs path err fs' :
  os.MkdirAll fs path = (err, fs') ->
  forall name data,
    os.ReadFile fs name = Ok data -> os.ReadFile fs' name = Ok data.
Proof.
  intros H name data. unfold os.ReadFile, os.path_node, os.resolve.
  rewrite (MkdirAll_cwd _ _ _ _ H).
  destruct (String.eqb name ""); [discriminate|].
  destruct (os.walk (os.nodes fs) _) as [[data'|]|e] eqn:E; try discriminate.
  intros [= ->].
  rewrite (walk_mono (os.nodes fs) (os.nodes fs')) with (n := os.File data);
    [reflexivity| |exact E].
  intros q n Hq. destruct (MkdirAll_nodes _ _ _ _ H q) as [->|[H1 _]]; congruence.
Qed.

Lemma getOrCreateMutex_frame d σ c m d' σ' :
  getOrCreateMutex d σ c = (m, d', σ') ->
  dir d' = dir d /\ fs σ' = fs σ /\ trace σ' = trace σ.
Proof.
  unfold getOrCreateMutex. destruct (mutexes d !! c); intros [= <- <- <-]; auto.
Qed.

(** ** Write: failures after the argument checks *)

(** C4. For non-empty [c] and [r]: when the collection directory is there
    (or was made) and the record is encoded, and writing
    [root/c/r.json.tmp] fails, then [Write c r v] returns that error, an I/O
    error; the calls made are [MkdirAll] and [WriteFile], no [Rename]; and
    every file that could be read before, [root/c/r.json] among them, reads
    the same after. *)
Theorem Write_temp_failure (V : Type) (MarshalIndent : V -> result error string)
    (d : Driver) (σ : State) (c r : string) (v : V) (b : string)
    (fs1 fs2 : os.FS) (err : error) :
  c <> "" -> r <> "" ->
  os.MkdirAll (fs σ) (Join [dir d; c]) = (None, fs1) ->
  MarshalIndent v = Ok b ->
  os.WriteFile fs1 (Join [Join [dir d; c]; r +:+ ".json"] +:+ ".tmp")
    (b +:+ String "010"%char "") = (Some err, fs2) ->
  exists d' σ' calls,
    Write V MarshalIndent d σ c r v = (Some err, d', σ')
    /\ kind_of err = Some IOError
    /\ trace σ' = (trace σ ++ calls)%list
    /\ (forall oldname newname, SysRename oldname newname ∉ calls)
    /\ (forall name data,
          os.ReadFile (fs σ) name = Ok data ->
          os.ReadFile (fs σ') name = Ok data).
Proof.
  intros Hc Hr Hmk Hb Hwr. unfold Write.
  apply String.eqb_neq in Hc, Hr. rewrite Hc, Hr.
  destruct (getOrCreateMutex d σ c) as [[m d1] σ1] eqn:Hg.
  apply getOrCreateMutex_frame in Hg as (Hdir & Hfs & Htr).
  unfold os_MkdirAll, ioutil_WriteFile. rewrite Hdir, Hfs, Hmk, Hb. cbn.
  rewrite Hwr.
  destruct (WriteFile_Err _ _ _ _ _ Hwr) as [Hk ->].
  eexists _, _, [_; _]. split; [reflexivity|]. split; [exact Hk|].
  split; [cbn; rewrite Htr, <- app_assoc; reflexivity|].
  split.
  - intros o n Hin. apply elem_of_cons in Hin as [?|Hin]; [discriminate|].
    apply elem_of_cons in Hin as [?|Hin]; [discriminate|].
    by apply elem_of_nil in Hin.
  - cbn. intros name data. eapply MkdirAll_ReadFile, Hmk.
Qed.

(** C2 as stated fails: on a store without the collection [users], a
    [Write] whose record cannot be encoded (the number literal [abc]) returns
    the error of the encoder after the directory [/db/users] was made. *)
Lemma Write_marshal_failure_counterexample :
  let r := Example.Write Example.db Example.st_db "users" "1_john" "abc" in
  exists e,
    json.MarshalIndent "abc" = Err e
    /\ r.1.1 = Some e
    /\ kind_of e = Some SerializationError
    /\ os.Stat (fs Example.st_db) "/db/users"
       = Err (PathError "stat" "/db/users" ENOENT)
    /\ os.Stat (fs r.2) "/db/users"
       = Ok {| os.Name := "users"; os.Mode := os.ModeDir |}.
Proof. eexists. repeat split; vm_compute; reflexivity. Qed.

(** C2, amended. For non-empty [c] and [r]: when the collection directory
    is there or can be made and the encoder fails, [Write c r v] returns the
    error of the encoder; the one call made is [MkdirAll] of the collection
    directory, which may have made that directory and its missing parents:
    the regular files of the tree are the same before and after, and every
    file that could be read before reads the same after. *)
Theorem Write_marshal_failure (V : Type) (MarshalIndent : V -> result error string)
    (d : Driver) (σ : State) (c r : string) (v : V) (fs1 : os.FS) (e : error) :
  (forall v' e', MarshalIndent v' = Err e' ->
                 kind_of e' = Some SerializationError) ->
  c <> "" -> r <> "" ->
  os.MkdirAll (fs σ) (Join [dir d; c]) = (None, fs1) ->
  MarshalIndent v = Err e ->
  exists d' σ',
    Write V MarshalIndent d σ c r v = (Some e, d', σ')
    /\ kind_of e = Some SerializationError
    /\ trace σ' = (trace σ ++ [SysMkdirAll (Join [dir d; c])])%list
    /\ fs σ' = fs1
    /\ (forall loc data,
          os.nodes (fs σ') !! loc = Some (os.File data)
          <-> os.nodes (fs σ) !! loc = Some (os.File data))
    /\ (forall name data,
          os.ReadFile (fs σ) name = Ok data ->
          os.ReadFile (fs σ') name = Ok data).
Proof.
  intros HM Hc Hr Hmk He. unfold Write.
  apply String.eqb_neq in Hc, Hr. rewrite Hc, Hr.
  destruct (getOrCreateMutex d σ c) as [[m d1] σ1] eqn:Hg.
  apply getOrCreateMutex_frame in Hg as (Hdir & Hfs & Htr).
  unfold os_MkdirAll. rewrite Hdir, Hfs, Hmk, He.
  eexists _, _. split; [reflexivity|]. split; [by eapply HM|].
  cbn. rewrite Htr. split; [reflexivity|]. split; [reflexivity|]. split.
  - eapply MkdirAll_files, Hmk.
  - eapply MkdirAll_ReadFile, Hmk.
Qed.

Lemma Write_temp_failure_witness :
  exists d' σ' calls,
    Example.Write Example.d_tmpdir Example.st_tmpdir "users" "a" "25"
    = (Some (PathError "open" "/db/users/a.json.tmp" EISDIR), d', σ')
    /\ kind_of (PathError "open" "/db/users/a.json.tmp" EISDIR) = Some IOError
    /\ trace σ' = (trace Example.st_tmpdir ++ calls)%list
    /\ (forall oldname newname, SysRename oldname newname ∉ calls)
    /\ (forall name data,
          os.ReadFile (fs Example.st_tmpdir) name = Ok data ->
          os.ReadFile (fs σ') name = Ok data).
Proof.
  apply (Write_temp_failure json.Number json.MarshalIndent Example.d_tmpdir
           Example.st_tmpdir "users" "a" "25" "25"
           (fs Example.st_tmpdir) (fs Example.st_tmpdir)).
  - discriminate.
  - discriminate.
  - vm_compute. reflexivity.
  - vm_compute. reflexivity.
  - vm_compute. reflexivity.
Defined.

Lemma MarshalIndent_Err_kind (n : json.Number) (e : error) :
  json.MarshalIndent n = Err e -> kind_of e = Some SerializationError.
Proof.
  unfold json.MarshalIndent. destruct (json.isValidNumber _); [discriminate|].
  intros [= <-]. reflexivity.
Qed.

Lemma Write_marshal_failure_witness :
  exists e d' σ',
    json.MarshalIndent "abc" = Err e
    /\ Example.Write Example.db Example.st_db "users" "1_john" "abc"
       = (Some e, d', σ')
    /\ kind_of e = Some SerializationError
    /\ trace σ' = (trace Example.st_db ++ [SysMkdirAll "/db/users"])%list
    /\ (forall loc data,
          os.nodes (fs σ') !! loc = Some (os.File data)
          <-> os.nodes (fs Example.st_db) !! loc = Some (os.File data)).
Proof.
  destruct (json.MarshalIndent "abc") as [b|e] eqn:He; [discriminate He|].
  destruct (Write_marshal_failure json.Number json.MarshalIndent Example.db
              Example.st_db "users" "1_john" "abc"
              (os.MkdirAll (fs Example.st_db) "/db/users").2 e)
    as (d' & σ' & HW & Hk & Htr & _ & Hfiles & _).
  - exact MarshalIndent_Err_kind.
  - discriminate.
  - discriminate.
  - vm_compute. reflexivity.
  - exact He.
  - exists e, d', σ'. auto.
Defined.

(** ** ReadAll: the loop *)

Section ReadAll_loop.

Variable dirp : string.

Lemma ReadAll_loop_ok (files : list os.FileInfo) :
  forall (σ : State) (records contents : list string),
    Forall2 (reads dirp (fs σ)) files contents ->
    exists σ',
      ReadAll_loop σ dirp files records = ((records ++ contents)%list, None, σ')
      /\ fs σ' = fs σ.
Proof.
  induction files as [|file files IH]; intros σ records contents Hall.
  - inversion Hall; subst. cbn. rewrite app_nil_r. eauto.
  - inversion Hall as [|? data ? contents' Hrd Hrest]; subst.
    cbn [ReadAll_loop]. unfold ioutil_ReadFile. unfold reads in Hrd.
    rewrite Hrd.
    destruct (IH (sys (SysReadFile (Join [dirp; os.Name file])) (fs σ) σ)
                (records ++ [data])%list contents' Hrest) as (σ' & -> & Hfs).
    exists σ'. split; [|exact Hfs].
    by rewrite <- app_assoc.
Qed.

Lemma ReadAll_loop_fail (files : list os.FileInfo) :
  forall (σ : State) (records : list string),
    Exists (fun file => exists e,
              os.ReadFile (fs σ) (Join [dirp; os.Name file]) = Err e) files ->
    exists err σ',
      ReadAll_loop σ dirp files records = ([], Some err, σ')
      /\ kind_of err = Some IOError.
Proof.
  induction files as [|file files IH]; intros σ records Hex.
  - inversion Hex.
  - cbn [ReadAll_loop]. unfold ioutil_ReadFile.
    destruct (os.ReadFile (fs σ) (Join [dirp; os.Name file])) as [b|e] eqn:E.
    + apply IH. inversion Hex as [? ? [e He]|? ? Hrest]; subst.
      * congruence.
      * exact Hrest.
    + eexists _, _. split; [reflexivity|]. eapply ReadFile_Err_IOError, E.
Qed.

Lemma reads_total (fs0 : os.FS) (files : list os.FileInfo) :
  (forall file, file ∈ files ->
     exists data, os.ReadFile fs0 (Join [dirp; os.Name file]) = Ok data) ->
  exists contents, Forall2 (reads dirp fs0) files contents.
Proof.
  induction files as [|file files IH]; intros H.
  - exists []. constructor.
  - destruct (H file) as [data Hd]; [by left|].
    destruct IH as [contents Hc]; [intros f Hf; apply H; by right|].
    exists (data :: contents). by constructor.
Qed.

End ReadAll_loop.

(** C6. For a non-empty [c] whose directory exists, with [files] the
    entries that [ReadDir] lists: if reading one of them fails, [ReadAll c]
    returns an I/O error and no record; if every one can be read, it returns
    their contents, one per entry, in the order of [files]. *)
Theorem ReadAll_all_or_nothing (d : Driver) (σ : State) (c : string)
    (fi : os.FileInfo) :
  c <> "" ->
  os.Stat (fs σ) (Join [dir d; c]) = Ok fi ->
  os.IsDir (os.Mode fi) = true ->
  let dirp := Join [dir d; c] in
  let files := (os.ReadDir (fs σ) dirp).1 in
  ((exists file e, file ∈ files
      /\ os.ReadFile (fs σ) (Join [dirp; os.Name file]) = Err e) ->
   exists err σ',
     ReadAll d σ c = ([], Some err, σ') /\ kind_of err = Some IOError)
  /\ ((forall file, file ∈ files ->
         exists data, os.ReadFile (fs σ) (Join [dirp; os.Name file]) = Ok data) ->
      exists contents σ',
        ReadAll d σ c = (contents, None, σ')
        /\ Forall2 (reads dirp (fs σ)) files contents).
Proof.
  intros Hc Hst _ dirp files. unfold ReadAll.
  apply String.eqb_neq in Hc. rewrite Hc.
  change (Join [dir d; c]) with dirp in Hst |- *.
  unfold stat, os_Stat. rewrite Hst.
  unfold ioutil_ReadDir. cbn [fs sys].
  destruct (os.ReadDir (fs σ) dirp) as [files' rderr] eqn:Hrd.
  subst files. cbn [fst].
  split.
  - intros (file & e & Hin & He).
    apply ReadAll_loop_fail. cbn [fs].
    apply Exists_exists. exists file. split; [exact Hin|eauto].
  - intros Hall.
    destruct (reads_total dirp (fs σ) files' Hall) as [contents Hcs].
    destruct (ReadAll_loop_ok dirp files'
                (sys (SysReadDir dirp) (fs σ) (sys (SysStat dirp) (fs σ) σ))
                [] contents Hcs) as (σ' & Hloop & _).
    exists contents, σ'. split; [exact Hloop|exact Hcs].
Qed.

Lemma ReadAll_all_or_nothing_witness :
  exists contents σ',
    ReadAll Example.d_john Example.st_john "users" = (contents, None, σ')
    /\ Forall2 (reads "/db/users" (fs Example.st_john))
         [{| os.Name := "1_john.json"; os.Mode := os.ModeRegular |}] contents.
Proof.
  apply (ReadAll_all_or_nothing Example.d_john Example.st_john "users"
           {| os.Name := "users"; os.Mode := os.ModeDir |}).
  - discriminate.
  - vm_compute. reflexivity.
  - reflexivity.
  - intros file Hin.
    exists ("25" +:+ String "010"%char "").
    vm_compute in Hin. apply list_elem_of_singleton in Hin. subst file.
    vm_compute. reflexivity.
Defined.

(** ** The registry of mutexes *)

Lemma getOrCreateMutex_lookup d σ c :
  mutexes (getOrCreateMutex d σ c).1.2 !! c = Some (getOrCreateMutex d σ c).1.1.
Proof.
  unfold getOrCreateMutex. destruct (mutexes d !! c) eqn:E; cbn.
  - exact E.
  - apply lookup_insert_eq.
Qed.

Lemma getOrCreateMutex_subseteq d σ c :
  mutexes d ⊆ mutexes (getOrCreateMutex d σ c).1.2.
Proof.
  unfold getOrCreateMutex. destruct (mutexes d !! c) eqn:E; cbn.
  - reflexivity.
  - by apply insert_subseteq.
Qed.

Lemma getOrCreateMutex_registered d σ c m :
  mutexes d !! c = Some m -> getOrCreateMutex d σ c = (m, d, σ).
Proof. unfold getOrCreateMutex. by intros ->. Qed.

Section Registry.

Variable V : Type.
Variable MarshalIndent : V -> result error string.
Variable Unmarshal : string -> result error V.

Lemma Write_subseteq d σ c r v :
  mutexes d ⊆ mutexes (Write V MarshalIndent d σ c r v).1.2.
Proof.
  unfold Write.
  destruct (String.eqb c ""); [reflexivity|].
  destruct (String.eqb r ""); [reflexivity|].
  pose proof (getOrCreateMutex_subseteq d σ c) as Hsub.
  destruct (getOrCreateMutex d σ c) as [[m d1] σ1]. cbn in Hsub.
  repeat (case_match; cbn [fst snd]); exact Hsub.
Qed.

Lemma Delete_subseteq d σ c r :
  mutexes d ⊆ mutexes (Delete d σ c r).1.2.
Proof.
  unfold Delete.
  pose proof (getOrCreateMutex_subseteq d σ c) as Hsub.
  destruct (getOrCreateMutex d σ c) as [[m d1] σ1]. cbn in Hsub.
  repeat (case_match; cbn [fst snd]); exact Hsub.
Qed.

Lemma run_subseteq (op : Op V) (ds : Driver * State) :
  mutexes ds.1 ⊆ mutexes (run V MarshalIndent Unmarshal ds op).1.
Proof.
  destruct ds as [d σ]. destruct op as [c r v|c r|c|c r]; cbn [run fst].
  - pose proof (Write_subseteq d σ c r v) as H.
    destruct (Write V MarshalIndent d σ c r v) as [[? ?] ?]. exact H.
  - destruct (Read V Unmarshal d σ c r). reflexivity.
  - destruct (ReadAll d σ c) as [[? ?] ?]. reflexivity.
  - pose proof (Delete_subseteq d σ c r) as H.
    destruct (Delete d σ c r) as [[? ?] ?]. exact H.
Qed.

Lemma run_all_subseteq (ops : list (Op V)) :
  forall ds : Driver * State,
    mutexes ds.1 ⊆ mutexes (run_all V MarshalIndent Unmarshal ops ds).1.
Proof.
  induction ops as [|op ops IH]; intros ds; cbn.
  - reflexivity.
  - etrans; [apply (run_subseteq op)|apply IH].
Qed.

(** C9. The mutex that [getOrCreateMutex] returns for [c] is the one
    registered under [c]; the registry it leaves contains the registry it
    found; whatever operations run afterwards, the registry they leave
    contains the one they found (every entry is still there with the same
    mutex), and a later [getOrCreateMutex] for [c] returns the same mutex
    and changes nothing. *)
Theorem registry_only_grows (ops : list (Op V)) (d : Driver) (σ : State)
    (c : string) :
  let m := (getOrCreateMutex d σ c).1.1 in
  let d1 := (getOrCreateMutex d σ c).1.2 in
  let σ1 := (getOrCreateMutex d σ c).2 in
  let d2 := (run_all V MarshalIndent Unmarshal ops (d1, σ1)).1 in
  let σ2 := (run_all V MarshalIndent Unmarshal ops (d1, σ1)).2 in
  mutexes d1 !! c = Some m
  /\ mutexes d ⊆ mutexes d1
  /\ mutexes d1 ⊆ mutexes d2
  /\ getOrCreateMutex d2 σ2 c = (m, d2, σ2).
Proof.
  intros m d1 σ1 d2 σ2.
  assert (H1 : mutexes d1 !! c = Some m) by apply getOrCreateMutex_lookup.
  assert (H2 : mutexes d1 ⊆ mutexes d2)
    by apply (run_all_subseteq ops (d1, σ1)).
  split; [exact H1|]. split; [apply getOrCreateMutex_subseteq|].
  split; [exact H2|].
  apply getOrCreateMutex_registered.
  eapply lookup_weaken; [exact H1|exact H2].
Qed.

End Registry.

(** ** Delete *)

(** C5, on the code as it is: [/db/users/x] does not exist and
    [/db/users/x.json] is a directory (with a file in it). [Delete("users",
    "x")] finds the directory through the existence check, calls [RemoveAll]
    on [/db/users/x], and returns no error; the file system is as before. *)
Theorem Delete_directory_found_by_extension :
  let r := Delete Example.d_subdir Example.st_subdir "users" "x" in
  os.Stat (fs Example.st_subdir) "/db/users/x"
  = Err (PathError "stat" "/db/users/x" ENOENT)
  /\ os.Stat (fs Example.st_subdir) "/db/users/x.json"
     = Ok {| os.Name := "x.json"; os.Mode := os.ModeDir |}
  /\ r.1.1 = None
  /\ trace r.2
     = (trace Example.st_subdir
        ++ [SysStat "/db/users/x"; SysStat "/db/users/x.json";
            SysRemoveAll "/db/users/x"])%list
  /\ fs r.2 = fs Example.st_subdir
  /\ os.ReadFile (fs r.2) "/db/users/x.json/y.json"
     = Ok ("1" +:+ String "010"%char "").
Proof. repeat split; vm_compute; reflexivity. Qed.

(** ** Paths: elements, [Clean] and resolution *)

Lemma split_nonempty (s : string) : split s <> [].
Proof.
  destruct s as [|c s]; cbn; [done|].
  destruct (IsPathSeparator c); [done|]. by destruct (split s).
Qed.

Lemma split_no_separator (s : string) :
  no_separator s = true -> split s = [s].
Proof.
  induction s as [|c s IH]; cbn; [done|].
  destruct (IsPathSeparator c); cbn; [discriminate|].
  intros H. by rewrite (IH H).
Qed.

Lemma append_String (c : ascii) (a b : string) :
  String c a +:+ b = String c (a +:+ b).
Proof. reflexivity. Qed.

Lemma append_empty (b : string) : "" +:+ b = b.
Proof. reflexivity. Qed.

Lemma split_app (a b : string) :
  split (a +:+ String "/"%char b) = (split a ++ split b)%list.
Proof.
  induction a as [|c a IH]; rewrite ?append_String, ?append_empty; cbn.
  - reflexivity.
  - rewrite IH. destruct (IsPathSeparator c); [reflexivity|].
    pose proof (split_nonempty a). by destruct (split a).
Qed.

Lemma split_elements (s : string) :
  Forall (fun e => no_separator e = true) (split s).
Proof.
  induction s as [|c s IH]; cbn.
  - by constructor.
  - destruct (IsPathSeparator c) eqn:E.
    + by constructor.
    + destruct (split s) as [|x xs]; inversion IH; subst;
        constructor; cbn; rewrite ?E; auto.
Qed.

Lemma split_join_sep (elems : list string) :
  elems <> [] ->
  Forall (fun e => no_separator e = true) elems ->
  split (join_sep elems) = elems.
Proof.
  induction elems as [|x [|y elems] IH]; intros Hne Hall; [done| |].
  - cbn. apply split_no_separator. by inversion Hall.
  - change (join_sep (x :: y :: elems))
      with (x +:+ String "/"%char (join_sep (y :: elems))).
    inversion Hall; subst.
    rewrite split_app, split_no_separator, IH by done. reflexivity.
Qed.

Lemma clean_step_kept rt out elem :
  Forall (kept rt) out -> no_separator elem = true ->
  Forall (kept rt) (clean_step rt out elem).
Proof.
  intros Hout Hel. unfold clean_step.
  destruct (String.eqb_spec elem ""); [done|].
  destruct (String.eqb_spec elem "."); [done|].
  destruct (String.eqb_spec elem "..") as [->|].
  - destruct (can_backtrack out).
    + destruct out; [done|]. by inversion Hout.
    + destruct rt; cbn; [done|]. constructor; [|done].
      repeat split; done.
  - constructor; [|done]. repeat split; try done.
Qed.

Lemma clean_fold_kept rt elems : forall out,
  Forall (kept rt) out ->
  Forall (fun e => no_separator e = true) elems ->
  Forall (kept rt) (fold_left (clean_step rt) elems out).
Proof.
  induction elems as [|e elems IH]; intros out Hout Hall; cbn; [done|].
  inversion Hall; subst. apply IH; [|done]. by apply clean_step_kept.
Qed.

Lemma resolve_step_kept rt loc e :
  kept rt e -> e <> ".." -> os.resolve_step loc e = e :: loc.
Proof.
  intros (_ & H1 & H2 & _) H3. unfold os.resolve_step.
  apply String.eqb_neq in H1, H2, H3. by rewrite H1, H2, H3.
Qed.

Lemma fold_left_snoc {A B} (f : A -> B -> A) (l : list B) (x : B) (a : A) :
  fold_left f (l ++ [x])%list a = f (fold_left f l a) x.
Proof. by rewrite fold_left_app. Qed.

(** Resolving the buffer after one step of [Clean] is one step of
    resolution after resolving the buffer. *)
Lemma resolve_clean_step rt base out elem :
  Forall (kept rt) out ->
  (rt = true -> base = []) ->
  fold_left os.resolve_step (rev (clean_step rt out elem)) base
  = os.resolve_step (fold_left os.resolve_step (rev out) base) elem.
Proof.
  intros Hout Hbase. unfold clean_step, os.resolve_step at 2.
  destruct (String.eqb_spec elem ""); [done|].
  destruct (String.eqb_spec elem "."); [done|].
  destruct (String.eqb_spec elem "..") as [->|Hdd].
  - destruct out as [|top out]; cbn [can_backtrack].
    + destruct rt; cbn; [by rewrite Hbase|reflexivity].
    + inversion Hout as [|? ? Htop Hrest]; subst.
      destruct (String.eqb_spec top "..") as [->|Htd]; cbn [negb].
      * destruct rt; [by destruct Htop as (_ & _ & _ & []) |].
        cbn [negb rev]. rewrite !fold_left_snoc. reflexivity.
      * cbn [tail rev]. rewrite fold_left_snoc.
        by rewrite (resolve_step_kept rt _ top).
  - cbn [rev]. rewrite fold_left_snoc.
    unfold os.resolve_step.
    apply String.eqb_neq in n, n0, Hdd. by rewrite n, n0, Hdd.
Qed.

Lemma resolve_clean_fold rt base elems : forall out,
  Forall (kept rt) out ->
  Forall (fun e => no_separator e = true) elems ->
  (rt = true -> base = []) ->
  fold_left os.resolve_step (rev (fold_left (clean_step rt) elems out)) base
  = fold_left os.resolve_step elems
      (fold_left os.resolve_step (rev out) base).
Proof.
  induction elems as [|e elems IH]; intros out Hout Hall Hbase; cbn; [done|].
  inversion Hall; subst.
  rewrite IH by (try apply clean_step_kept; done).
  by rewrite resolve_clean_step.
Qed.

Lemma append_nil_r (s : string) : s +:+ "" = s.
Proof. induction s as [|c s IH]; [done|]. by rewrite append_String, IH. Qed.

Lemma join_sep_cons (e : string) (elems : list string) :
  exists rest, join_sep (e :: elems) = e +:+ rest.
Proof.
  destruct elems as [|y elems].
  - exists "". cbn. by rewrite append_nil_r.
  - by exists ("/" +:+ join_sep (y :: elems)).
Qed.

Lemma Clean_not_empty (path : string) : String.eqb (Clean path) "" = false.
Proof.
  unfold Clean. destruct (String.eqb path ""); [reflexivity|].
  set (s := _ +:+ join_sep _).
  destruct (String.eqb s "") eqn:E; [reflexivity|exact E].
Qed.

(** [Clean] with an empty buffer at the end. *)
Lemma Clean_buffer_empty (path : string) :
  path <> "" ->
  fold_left (clean_step (rooted path)) (split path) [] = [] ->
  Clean path = if rooted path then "/" else ".".
Proof.
  intros Hne Hout. unfold Clean.
  apply String.eqb_neq in Hne. rewrite Hne, Hout.
  by destruct (rooted path).
Qed.

(** [Clean] with elements in its buffer: these are the elements of the
    result, after an empty one if the path is rooted. *)
Lemma Clean_buffer (path : string) (e : string) (out : list string) :
  path <> "" ->
  fold_left (clean_step (rooted path)) (split path) [] = e :: out ->
  split (Clean path)
  = (if rooted path then "" :: rev (e :: out) else rev (e :: out))
  /\ rooted (Clean path) = rooted path.
Proof.
  intros Hne Hout.
  assert (Hk : Forall (kept (rooted path)) (rev (e :: out))).
  { apply Forall_rev. rewrite <- Hout.
    apply clean_fold_kept; [constructor|apply split_elements]. }
  unfold Clean. apply String.eqb_neq in Hne. rewrite Hne, Hout.
  assert (Hl : rev (e :: out) <> []).
  { cbn. by destruct (rev out). }
  destruct (rev (e :: out)) as [|e0 l] eqn:El; [done|].
  assert (Hsep : Forall (fun e => no_separator e = true) (e0 :: l)).
  { eapply Forall_impl; [exact Hk|]. by intros ? [? _]. }
  destruct (rooted path) eqn:Ert.
  - change ("/" +:+ join_sep (e0 :: l)) with (String "/"%char (join_sep (e0 :: l))).
    cbn [String.eqb]. split; [|reflexivity].
    cbn [split]. change (IsPathSeparator "/") with true. cbv iota.
    by rewrite split_join_sep.
  - rewrite append_empty.
    inversion Hk as [|? ? (Hs0 & Hne0 & _) _]; subst.
    destruct (join_sep_cons e0 l) as [rest Hrest].
    destruct e0 as [|c0 e0]; [done|].
    assert (Hc0 : IsPathSeparator c0 = false).
    { cbn in Hs0. by destruct (IsPathSeparator c0). }
    rewrite Hrest, append_String. cbn [String.eqb].
    rewrite <- append_String, <- Hrest.
    split; [by rewrite split_join_sep|].
    rewrite Hrest, append_String. exact Hc0.
Qed.

(** A cleaned path resolves to the same location as the path. *)
Lemma resolve_Clean (fs0 : os.FS) (path : string) :
  path <> "" -> os.resolve fs0 (Clean path) = os.resolve fs0 path.
Proof.
  intros Hne. unfold os.resolve.
  set (rt := rooted path).
  assert (Hfold : forall base, (rt = true -> base = []) ->
    fold_left os.resolve_step
      (rev (fold_left (clean_step rt) (split path) [])) base
    = fold_left os.resolve_step (split path) base).
  { intros base Hbase.
    by rewrite resolve_clean_fold by (try apply split_elements; done). }
  destruct (fold_left (clean_step rt) (split path) []) as [|e out] eqn:Eout.
  - rewrite (Clean_buffer_empty path Hne Eout). fold rt.
    rewrite <- (Hfold (if rt then [] else os.cwd fs0)) by (by destruct rt).
    by destruct rt.
  - destruct (Clean_buffer path e out Hne Eout) as [-> ->]. fold rt.
    rewrite <- (Hfold (if rt then [] else os.cwd fs0)) by (by destruct rt).
    by destruct rt.
Qed.

(** ** Joining a directory and a path of names *)

Lemma is_name_kept (c : string) :
  is_name c = true -> kept true c /\ c <> "..".
Proof.
  unfold is_name, kept. rewrite !andb_true_iff, !negb_true_iff.
  intros [[[H1 H2] H3] H4].
  apply String.eqb_neq in H1, H2, H3. auto.
Qed.

Lemma clean_step_name rt out c :
  is_name c = true -> clean_step rt out c = c :: out.
Proof.
  intros [(_ & H1 & H2 & _) H3]%is_name_kept. unfold clean_step.
  apply String.eqb_neq in H1, H2, H3. by rewrite H1, H2, H3.
Qed.

Lemma resolve_step_name loc c :
  is_name c = true -> os.resolve_step loc c = c :: loc.
Proof.
  intros [Hk Hdd]%is_name_kept. by apply (resolve_step_kept true).
Qed.

(** Names are pushed one after the other, by [Clean] and by resolution. *)
Lemma clean_fold_names rt (elems : list string) :
  Forall (fun e => is_name e = true) elems ->
  forall out, fold_left (clean_step rt) elems out = (rev elems ++ out)%list.
Proof.
  induction 1 as [|e elems He _ IH]; intros out; cbn; [done|].
  by rewrite clean_step_name, IH, <- app_assoc.
Qed.

Lemma resolve_fold_names (elems : list string) :
  Forall (fun e => is_name e = true) elems ->
  forall base, fold_left os.resolve_step elems base = (rev elems ++ base)%list.
Proof.
  induction 1 as [|e elems He _ IH]; intros base; cbn; [done|].
  by rewrite resolve_step_name, IH, <- app_assoc.
Qed.

Lemma join_sep_split (s : string) : join_sep (split s) = s.
Proof.
  induction s as [|c s IH]; [done|]. cbn [split].
  pose proof (split_nonempty s) as Hne.
  destruct (IsPathSeparator c) eqn:E.
  - apply Ascii.eqb_eq in E. subst c.
    destruct (split s) as [|x xs]; [done|].
    change (join_sep ("" :: x :: xs)) with (String "/"%char (join_sep (x :: xs))).
    by rewrite IH.
  - destruct (split s) as [|x [|y ys]]; [done| |].
    + cbn in IH |- *. by rewrite IH.
    + change (join_sep (String c x :: y :: ys))
        with (String c (join_sep (x :: y :: ys))).
      by rewrite IH.
Qed.

Lemma is_names_split (c : string) :
  is_names c = true -> Forall (fun e => is_name e = true) (split c).
Proof.
  unfold is_names. intros H. apply Forall_forall. intros e He.
  rewrite forallb_forall in H. apply H. by apply list_elem_of_In.
Qed.

Lemma is_names_not_empty (c : string) : is_names c = true -> c <> "".
Proof. by intros H ->. Qed.

Lemma is_names_rooted (c : string) : is_names c = true -> rooted c = false.
Proof.
  destruct c as [|c0 c]; [done|]. unfold is_names. cbn.
  by destruct (IsPathSeparator c0).
Qed.

(** The last name of a path of names. *)
Lemma is_names_last (c : string) :
  is_names c = true ->
  exists e rest, rev (split c) = e :: rest /\ is_name e = true.
Proof.
  intros Hc. pose proof (is_names_split c Hc) as Hall.
  apply Forall_rev in Hall.
  pose proof (split_nonempty c) as Hne.
  destruct (rev (split c)) as [|e rest] eqn:E.
  - apply (f_equal (@rev string)) in E. rewrite rev_involutive in E. done.
  - exists e, rest. split; [done|]. by inversion Hall.
Qed.

Lemma rooted_append (a b : string) : a <> "" -> rooted (a +:+ b) = rooted a.
Proof. by destruct a. Qed.

Lemma append_not_empty (a b : string) : a <> "" -> a +:+ b <> "".
Proof. by destruct a. Qed.

(** [Join [c; ""]] is [c] for a path of names [c]. *)
Lemma Join_names_empty (c : string) : is_names c = true -> Join [c; ""] = c.
Proof.
  intros Hc.
  pose proof (is_names_not_empty c Hc) as Hne.
  apply String.eqb_neq in Hne as Hne'.
  unfold Join. cbn [drop_empty]. rewrite Hne'. unfold Clean.
  change (join_sep [c; ""]) with (c +:+ String "/"%char "").
  pose proof (append_not_empty c (String "/"%char "") Hne) as Hx.
  apply String.eqb_neq in Hx. rewrite Hx.
  rewrite split_app, (rooted_append c _ Hne), (is_names_rooted c Hc).
  rewrite fold_left_app, (clean_fold_names false _ (is_names_split c Hc)).
  cbn [split fold_left].
  change (clean_step false (rev (split c) ++ []) "")
    with (rev (split c) ++ [])%list.
  rewrite app_nil_r, rev_involutive, join_sep_split, append_empty.
  by rewrite Hne'.
Qed.

(** [Join [d; c]] for a path of names [c] is the cleaned form of a path
    that ends in the elements of [c] and whose other elements resolve like
    [d]. *)
Lemma Join_names (d c : string) :
  is_names c = true ->
  exists path pre,
    Join [d; c] = Clean path /\ path <> ""
    /\ split path = (pre ++ split c)%list
    /\ rooted path = rooted d
    /\ forall base, fold_left os.resolve_step pre base
                    = fold_left os.resolve_step (split d) base.
Proof.
  intros Hc.
  pose proof (is_names_not_empty c Hc) as Hne.
  apply String.eqb_neq in Hne as Hne'.
  unfold Join. cbn [drop_empty]. destruct (String.eqb_spec d "") as [->|Hd].
  - rewrite Hne'. exists c, []. repeat split; try done.
    by apply is_names_rooted.
  - exists (d +:+ String "/"%char c), (split d). repeat split.
    + by apply append_not_empty.
    + by rewrite split_app.
    + by apply rooted_append.
Qed.

(** The directory of a collection lies below the root of the store, one
    level for each name. *)
Lemma resolve_Join_names (fs0 : os.FS) (d c : string) :
  is_names c = true ->
  os.resolve fs0 (Join [d; c]) = (rev (split c) ++ os.resolve fs0 d)%list.
Proof.
  intros Hc.
  destruct (Join_names d c Hc) as (path & pre & -> & Hne & Hsplit & Hrt & Hpre).
  rewrite resolve_Clean by done. unfold os.resolve.
  rewrite Hsplit, Hrt, fold_left_app, Hpre.
  by apply resolve_fold_names, is_names_split.
Qed.

Lemma endsWithDot_Join_names (d c : string) :
  is_names c = true -> os.endsWithDot (Join [d; c]) = false.
Proof.
  intros Hc.
  destruct (Join_names d c Hc) as (path & pre & -> & Hne & Hsplit & Hrt & _).
  destruct (is_names_last c Hc) as (e & rest & Hrev & He).
  destruct (is_name_kept e He) as [(_ & _ & Hdot & _) _].
  apply String.eqb_neq in Hdot.
  assert (Hout : fold_left (clean_step (rooted path)) (split path) []
                 = e :: (rest ++ fold_left (clean_step (rooted path)) pre [])%list).
  { rewrite Hsplit, fold_left_app.
    rewrite (clean_fold_names _ _ (is_names_split c Hc)). by rewrite Hrev. }
  destruct (Clean_buffer path _ _ Hne Hout) as [Hs _].
  unfold os.endsWithDot. rewrite Hs.
  destruct (rooted path).
  - cbn [rev]. rewrite rev_app_distr, rev_involutive. cbn. exact Hdot.
  - rewrite rev_involutive. exact Hdot.
Qed.

(** ** What RemoveAll removes *)

Lemma prune_below (m : gmap (list string) os.node) (loc q : list string) :
  loc `suffix_of` q -> os.prune m loc !! q = None.
Proof.
  intros Hq. unfold os.prune. apply map_lookup_filter_None. right.
  intros n _ Hn. by apply Hn.
Qed.

Lemma prune_outside (m : gmap (list string) os.node) (loc q : list string) :
  ¬ loc `suffix_of` q -> os.prune m loc !! q = m !! q.
Proof.
  intros Hq. unfold os.prune.
  destruct (m !! q) as [n|] eqn:E.
  - by apply map_lookup_filter_Some.
  - apply map_lookup_filter_None. by left.
Qed.

Lemma walk_prune_outside (m : gmap (list string) os.node) (loc : list string) :
  forall q, ¬ loc `suffix_of` q -> os.walk (os.prune m loc) q = os.walk m q.
Proof.
  induction q as [|x parent IH]; intros Hq; cbn; [done|].
  rewrite IH, prune_outside; [done|done|].
  intros Hp. apply Hq. by apply suffix_cons_r.
Qed.

Lemma walk_prune_root (m : gmap (list string) os.node) (x : string)
    (parent : list string) (n : os.node) :
  os.walk m (x :: parent) = Ok n ->
  os.walk (os.prune m (x :: parent)) (x :: parent) = Err ENOENT.
Proof.
  cbn. intros H.
  rewrite walk_prune_outside.
  - destruct (os.walk m parent) as [[?|]|?]; try discriminate.
    by rewrite prune_below.
  - intros Hs. apply suffix_length in Hs. cbn in Hs. lia.
Qed.

Lemma Stat_IsDir fs0 name fi :
  os.Stat fs0 name = Ok fi -> os.IsDir (os.Mode fi) = true ->
  String.eqb name "" = false
  /\ os.walk (os.nodes fs0) (os.resolve fs0 name) = Ok os.Dir.
Proof.
  unfold os.Stat, os.path_node.
  destruct (String.eqb name ""); [discriminate|].
  destruct (os.walk _ _) as [[data|]|e]; try discriminate.
  - intros [= <-]. discriminate.
  - auto.
Qed.

(** ** Delete with an empty resource *)













(** * Further properties of the driver *)

(** ** Walking a changed tree *)

Lemma walk_agree (m m' : gmap (list string) os.node) :
  forall q,
    (forall q', q' `suffix_of` q -> m' !! q' = m !! q') ->
    os.walk m' q = os.walk m q.
Proof.
  induction q as [|x parent IH]; intros H; cbn; [done|].
  rewrite IH, (H (x :: parent)); [done|done|].
  intros q' Hq'. apply H. by apply suffix_cons_r.
Qed.

(** Below a location that is reached, every ancestor is a directory. *)
Lemma walk_app_Dir (m : gmap (list string) os.node) (l p : list string)
    (n : os.node) :
  os.walk m (l ++ p)%list = Ok n -> l <> [] -> os.walk m p = Ok os.Dir.
Proof.
  revert n. induction l as [|x l IH]; intros n H Hl; [done|].
  cbn in H. destruct (os.walk m (l ++ p)%list) as [[?|]|?] eqn:E;
    try discriminate.
  destruct l as [|y l]; [exact E|]. by eapply IH.
Qed.

Lemma walk_lookup (m : gmap (list string) os.node) (x : string)
    (parent : list string) (n : os.node) :
  os.walk m (x :: parent) = Ok n ->
  os.walk m parent = Ok os.Dir /\ m !! (x :: parent) = Some n.
Proof.
  cbn. destruct (os.walk m parent) as [[?|]|?]; try discriminate.
  destruct (m !! (x :: parent)); [|discriminate]. by intros [= ->].
Qed.

Lemma walk_File_cons (m : gmap (list string) os.node) (loc : list string)
    (data : string) :
  os.walk m loc = Ok (os.File data) ->
  exists x parent, loc = x :: parent.
Proof. destruct loc; [discriminate|eauto]. Qed.

(** A location that is reached does not lie below a regular file. *)
Lemma walk_not_below_File (m : gmap (list string) os.node)
    (f loc : list string) (data : string) (n : os.node) :
  os.walk m f = Ok (os.File data) -> os.walk m loc = Ok n ->
  f `suffix_of` loc -> loc = f.
Proof.
  intros Hf Hloc [l ->]. destruct l as [|x l]; [done|].
  assert (os.walk m f = Ok os.Dir) by (by eapply walk_app_Dir).
  congruence.
Qed.

Lemma walk_insert_outside (m : gmap (list string) os.node)
    (loc q : list string) (n : os.node) :
  ¬ loc `suffix_of` q -> os.walk (<[loc := n]> m) q = os.walk m q.
Proof.
  intros Hq. apply walk_agree. intros q' Hq'.
  apply lookup_insert_ne. intros ->. by apply Hq.
Qed.

Lemma walk_insert_here (m : gmap (list string) os.node) (x : string)
    (parent : list string) (n : os.node) :
  os.walk m parent = Ok os.Dir ->
  os.walk (<[x :: parent := n]> m) (x :: parent) = Ok n.
Proof.
  intros Hp. cbn. rewrite walk_insert_outside, Hp, lookup_insert_eq; [done|].
  intros Hs%suffix_length. cbn in Hs. lia.
Qed.

Lemma walk_delete_outside (m : gmap (list string) os.node)
    (loc q : list string) :
  ¬ loc `suffix_of` q -> os.walk (delete loc m) q = os.walk m q.
Proof.
  intros Hq. apply walk_agree. intros q' Hq'.
  apply lookup_delete_ne. intros ->. by apply Hq.
Qed.

(** ** What Rename moves *)

Lemma rebase_outside old new k n :
  ¬ old `suffix_of` k -> os.rebase old new (k, n) = (k, n).
Proof. intros H. unfold os.rebase. cbn. by destruct (decide _). Qed.

Lemma rebase_below old new l n :
  os.rebase old new ((l ++ old)%list, n) = ((l ++ new)%list, n).
Proof.
  unfold os.rebase. cbn. destruct (decide _) as [_|H].
  - rewrite length_app, Nat.add_sub, take_app_length. done.
  - destruct H. by exists l.
Qed.

(** The entries of the tree after a move, by where they come from. *)
Lemma elem_of_move_list (m : gmap (list string) os.node)
    (old new : list string) (q : list string) (n : os.node) :
  (q, n) ∈ map (os.rebase old new) (map_to_list (os.prune m new)) <->
  (¬ old `suffix_of` q /\ ¬ new `suffix_of` q /\ m !! q = Some n)
  \/ (exists l, q = (l ++ new)%list /\ ¬ new `suffix_of` (l ++ old)%list
                /\ m !! (l ++ old)%list = Some n).
Proof.
  rewrite list_elem_of_In, in_map_iff. split.
  - intros ([k n'] & Hre & Hin).
    apply list_elem_of_In, elem_of_map_to_list in Hin.
    destruct (decide (new `suffix_of` k)) as [Hnk|Hnk].
    { by rewrite prune_below in Hin. }
    rewrite prune_outside in Hin by done.
    destruct (decide (old `suffix_of` k)) as [[l ->]|Hok].
    + rewrite rebase_below in Hre. injection Hre as <- <-. right. eauto.
    + rewrite rebase_outside in Hre by done. injection Hre as <- <-. auto.
  - intros [(Ho & Hn & Hq)|(l & -> & Hn & Hq)].
    + exists (q, n). split; [by apply rebase_outside|].
      apply list_elem_of_In, elem_of_map_to_list. by rewrite prune_outside.
    + exists ((l ++ old)%list, n). split; [apply rebase_below|].
      apply list_elem_of_In, elem_of_map_to_list. by rewrite prune_outside.
Qed.

Lemma lookup_move_outside (m : gmap (list string) os.node)
    (old new q : list string) :
  ¬ old `suffix_of` q -> ¬ new `suffix_of` q ->
  os.move m old new !! q = m !! q.
Proof.
  intros Ho Hn. unfold os.move. destruct (m !! q) as [n|] eqn:E.
  - apply elem_of_list_to_map_1'.
    + intros y [(_ & _ & Hy)|(l & -> & _)]%elem_of_move_list; [congruence|].
      destruct Hn. by exists l.
    + apply elem_of_move_list. auto.
  - apply not_elem_of_list_to_map_1. intros Hin.
    apply list_elem_of_fmap in Hin as ([k y] & -> & Hin). cbn in *.
    apply elem_of_move_list in Hin as [(_ & _ & Hy)|(l & -> & _)];
      [congruence|].
    destruct Hn. by exists l.
Qed.

Lemma lookup_move_new (m : gmap (list string) os.node)
    (old new : list string) (n : os.node) :
  m !! old = Some n -> ¬ new `suffix_of` old ->
  os.move m old new !! new = Some n.
Proof.
  intros Hold Hn. unfold os.move. apply elem_of_list_to_map_1'.
  - intros y [(_ & Hnn & _)|(l & Hl & _ & Hy)]%elem_of_move_list.
    + by destruct Hnn.
    + assert (l = []) as ->.
      { apply (f_equal length) in Hl. rewrite length_app in Hl.
        destruct l; [done|]. cbn in Hl. lia. }
      cbn in Hy. congruence.
  - apply elem_of_move_list. right. exists []. auto.
Qed.

Lemma lookup_move_old (m : gmap (list string) os.node)
    (old new : list string) :
  ¬ new `suffix_of` old -> os.move m old new !! old = None.
Proof.
  intros Hn. unfold os.move. apply not_elem_of_list_to_map_1. intros Hin.
  apply list_elem_of_fmap in Hin as ([k y] & Hk & Hin). cbn in Hk. subst k.
  apply elem_of_move_list in Hin as [(Ho & _)|(l & -> & _)].
  - by destruct Ho.
  - destruct Hn. by exists l.
Qed.

Lemma walk_move_outside (m : gmap (list string) os.node)
    (old new q : list string) :
  ¬ old `suffix_of` q -> ¬ new `suffix_of` q ->
  os.walk (os.move m old new) q = os.walk m q.
Proof.
  intros Ho Hn. apply walk_agree. intros q' Hq'.
  apply lookup_move_outside; intros H; [apply Ho|apply Hn]; by etrans.
Qed.

(** ** The steps of Write *)

Lemma resolve_cwd (fs0 fs1 : os.FS) (name : string) :
  os.cwd fs1 = os.cwd fs0 -> os.resolve fs1 name = os.resolve fs0 name.
Proof. unfold os.resolve. by intros ->. Qed.

Lemma ReadFile_walk (fs0 : os.FS) (name data : string) :
  os.ReadFile fs0 name = Ok data <->
  String.eqb name "" = false
  /\ os.walk (os.nodes fs0) (os.resolve fs0 name) = Ok (os.File data).
Proof.
  unfold os.ReadFile, os.path_node. destruct (String.eqb name "").
  - split; [discriminate|]. by intros [? _].
  - destruct (os.walk _ _) as [[data'|]|e]; split;
      try discriminate; try (by intros [_ ?]).
    + intros [= ->]. done.
    + intros [_ [= ->]]. done.
Qed.

(** A successful [WriteFile]: the location has a directory as parent and is
    not a directory itself; it holds the data afterwards. *)
Lemma WriteFile_Ok (fs0 : os.FS) (name data : string) (fs1 : os.FS) :
  os.WriteFile fs0 name data = (None, fs1) ->
  String.eqb name "" = false
  /\ fs1 = os.mkFS (os.cwd fs0)
             (<[os.resolve fs0 name := os.File data]> (os.nodes fs0))
  /\ (exists x parent,
        os.resolve fs0 name = x :: parent
        /\ os.walk (os.nodes fs0) parent = Ok os.Dir)
  /\ os.walk (os.nodes fs0) (os.resolve fs0 name) <> Ok os.Dir.
Proof.
  unfold os.WriteFile. destruct (String.eqb name ""); [discriminate|].
  destruct (os.refused name); [discriminate|].
  destruct (os.walk (os.nodes fs0) (os.resolve fs0 name)) as [[data'|]|e] eqn:E.
  - intros [= <-]. repeat split; try done.
    destruct (os.resolve fs0 name) as [|x parent]; [discriminate|].
    apply walk_lookup in E as [E _]. eauto.
  - discriminate.
  - destruct (os.resolve fs0 name) as [|x parent]; [discriminate|].
    destruct (os.walk (os.nodes fs0) parent) as [[?|]|?] eqn:Ep;
      try discriminate.
    destruct (os.bad_elem x); [discriminate|].
    intros [= <-]. repeat split; try done. eauto.
Qed.

Lemma WriteFile_Ok_walk (fs0 : os.FS) (name data : string) (fs1 : os.FS) :
  os.WriteFile fs0 name data = (None, fs1) ->
  os.cwd fs1 = os.cwd fs0
  /\ os.walk (os.nodes fs1) (os.resolve fs0 name) = Ok (os.File data)
  /\ forall loc n, loc <> os.resolve fs0 name ->
       os.walk (os.nodes fs0) loc = Ok n -> os.walk (os.nodes fs1) loc = Ok n.
Proof.
  intros (Hne & -> & (x & parent & Hloc & Hp) & Hnd)%WriteFile_Ok.
  cbn [os.cwd os.nodes]. split; [done|]. split.
  - rewrite Hloc. by apply walk_insert_here.
  - intros loc n Hne' Hw. rewrite walk_insert_outside; [done|].
    intros [l ->]. destruct l as [|y l]; [done|].
    by apply walk_app_Dir in Hw.
Qed.

(** A successful [Rename] of a regular file: nothing happens when both
    names are the same location; otherwise the file is moved to the new
    location, whose parent is a directory and which is not a directory. *)
Lemma Rename_File_Ok (fs0 : os.FS) (oldname newname data : string)
    (fs1 : os.FS) :
  os.path_node fs0 oldname = Ok (os.File data) ->
  os.Rename fs0 oldname newname = (None, fs1) ->
  String.eqb newname "" = false
  /\ ((os.resolve fs0 newname = os.resolve fs0 oldname /\ fs1 = fs0)
      \/ (os.resolve fs0 newname <> os.resolve fs0 oldname
          /\ fs1 = os.mkFS (os.cwd fs0)
                     (os.move (os.nodes fs0) (os.resolve fs0 oldname)
                        (os.resolve fs0 newname))
          /\ (exists y parent,
                os.resolve fs0 newname = y :: parent
                /\ os.walk (os.nodes fs0) parent = Ok os.Dir)
          /\ os.walk (os.nodes fs0) (os.resolve fs0 newname) <> Ok os.Dir)).
Proof.
  intros Hold. unfold os.Rename. rewrite Hold.
  assert (Hwo : os.walk (os.nodes fs0) (os.resolve fs0 oldname)
                = Ok (os.File data)).
  { unfold os.path_node in Hold. by destruct (String.eqb oldname ""). }
  destruct (os.refused oldname); [discriminate|].
  destruct (os.refused newname); [discriminate|].
  unfold os.path_node at 1.
  destruct (String.eqb newname "") eqn:Hnn; [discriminate|].
  destruct (os.walk (os.nodes fs0) (os.resolve fs0 newname))
    as [[data'|]|e] eqn:Hwn.
  - destruct (decide _) as [Heq|Hne]; intros [= <-]; split; try done.
    + left. auto.
    + right. repeat split; try done.
      destruct (os.resolve fs0 newname) as [|y parent]; [discriminate|].
      apply walk_lookup in Hwn as [Hp _]. eauto.
  - destruct (String.eqb newname oldname); [discriminate|].
    destruct (decide _) as [Heq|Hne]; [|discriminate].
    rewrite Heq in Hwo. congruence.
  - destruct (os.resolve fs0 newname) as [|y parent] eqn:Hloc;
      [discriminate|].
    destruct (os.walk (os.nodes fs0) parent) as [[?|]|?] eqn:Hp;
      try discriminate.
    destruct (decide _); [discriminate|].
    destruct (os.bad_elem y); [discriminate|]. intros [= <-].
    split; [done|]. right. repeat split; try done; try eauto.
    intros Heq. rewrite <- Heq, Hwn in Hwo. discriminate.
Qed.

(** After a successful [Rename] of a regular file: the new location holds
    the file; every other location that was reached, the old one apart, is
    as before. *)
Lemma Rename_File_Ok_walk (fs0 : os.FS) (oldname newname data : string)
    (fs1 : os.FS) :
  os.path_node fs0 oldname = Ok (os.File data) ->
  os.Rename fs0 oldname newname = (None, fs1) ->
  String.eqb newname "" = false
  /\ os.cwd fs1 = os.cwd fs0
  /\ os.walk (os.nodes fs1) (os.resolve fs0 newname) = Ok (os.File data)
  /\ (forall loc n,
        loc <> os.resolve fs0 oldname -> loc <> os.resolve fs0 newname ->
        os.walk (os.nodes fs0) loc = Ok n ->
        os.walk (os.nodes fs1) loc = Ok n)
  /\ (os.resolve fs0 newname <> os.resolve fs0 oldname ->
      os.walk (os.nodes fs1) (os.resolve fs0 oldname) = Err ENOENT).
Proof.
  intros Hold Hre.
  assert (Hwo : os.walk (os.nodes fs0) (os.resolve fs0 oldname)
                = Ok (os.File data)).
  { unfold os.path_node in Hold. by destruct (String.eqb oldname ""). }
  destruct (Rename_File_Ok _ _ _ _ _ Hold Hre)
    as (Hnn & [[Heq ->]|(Hne & -> & (y & parent & Hloc & Hp) & Hnd)]).
  { rewrite Heq. repeat split; try done. }
  set (T := os.resolve fs0 oldname) in *.
  set (F := os.resolve fs0 newname) in *.
  set (m := os.nodes fs0) in *.
  cbn [os.cwd os.nodes].
  assert (HTF : ¬ F `suffix_of` T).
  { intros [l HT]. destruct l as [|z l]; [by destruct Hne|].
    rewrite HT in Hwo. by apply walk_app_Dir in Hwo. }
  assert (HTp : ¬ T `suffix_of` parent).
  { intros Hs. apply Hne.
    pose proof (walk_not_below_File m T parent data os.Dir Hwo Hp Hs) as ->.
    congruence. }
  assert (HFT : ¬ T `suffix_of` F).
  { rewrite Hloc. intros [l Hl]. destruct l as [|z l].
    - cbn in Hl. apply Hne. by rewrite Hloc.
    - injection Hl as _ ->. apply HTp. by exists l. }
  destruct (walk_File_cons _ _ _ Hwo) as (x & Tp & HT).
  destruct (walk_lookup m x Tp (os.File data)) as [HTpw HTl];
    [by rewrite <- HT|].
  assert (Hlk : os.move m T F !! F = Some (os.File data)).
  { apply lookup_move_new; [by rewrite HT|done]. }
  repeat split; try done.
  - rewrite Hloc in Hlk |- *. cbn. rewrite walk_move_outside, Hp; [|done|].
    + by rewrite Hlk.
    + intros Hs%suffix_length. cbn in Hs. lia.
  - intros loc n HlT HlF Hw. rewrite walk_move_outside; [done| |].
    + intros Hs. apply HlT. by eapply walk_not_below_File.
    + intros [l ->]. destruct l as [|z l]; [done|].
      by apply walk_app_Dir in Hw.
  - intros _.
    assert (Hgone : os.move m T F !! T = None) by (by apply lookup_move_old).
    rewrite HT in Hgone |- *. cbn. rewrite walk_move_outside, HTpw.
    + by rewrite Hgone.
    + intros Hs%suffix_length. cbn in Hs. lia.
    + intros Hs. apply HTF. etrans; [exact Hs|]. by exists [x].
Qed.

Section Write_steps.

Variable V : Type.
Variable MarshalIndent : V -> result error string.

(** The ways through [Write], after the argument checks. *)
Lemma Write_inv (d : Driver) (σ : State) (c r : string) (v : V)
    (err : option error) (d' : Driver) (σ' : State) :
  c <> "" -> r <> "" ->
  Write V MarshalIndent d σ c r v = (err, d', σ') ->
  let dirp := Join [dir d; c] in
  let fnlPath := Join [dirp; r +:+ ".json"] in
  let tempPath := fnlPath +:+ ".tmp" in
  exists emk fs1,
    os.MkdirAll (fs σ) dirp = (emk, fs1)
    /\ ((exists e, emk = Some e /\ err = Some e /\ fs σ' = fs1)
        \/ (emk = None /\ exists e,
              MarshalIndent v = Err e /\ err = Some e /\ fs σ' = fs1)
        \/ (emk = None /\ exists b ewr fs2,
              MarshalIndent v = Ok b
              /\ os.WriteFile fs1 tempPath (b +:+ String "010"%char "")
                 = (ewr, fs2)
              /\ ((exists e, ewr = Some e /\ err = Some e /\ fs σ' = fs2)
                  \/ (ewr = None
                      /\ os.Rename fs2 tempPath fnlPath = (err, fs σ'))))).
Proof.
  intros Hc Hr H dirp fnlPath tempPath. unfold Write in H.
  apply String.eqb_neq in Hc, Hr. rewrite Hc, Hr in H.
  destruct (getOrCreateMutex d σ c) as [[m d1] σ1] eqn:Hg.
  apply getOrCreateMutex_frame in Hg as (Hdir & Hfs & Htr).
  unfold os_MkdirAll, ioutil_WriteFile, os_Rename in H.
  rewrite Hdir, Hfs in H. fold dirp fnlPath tempPath in H.
  destruct (os.MkdirAll (fs σ) dirp) as [emk fs1]. exists emk, fs1.
  split; [done|]. destruct emk as [e|].
  { injection H as <- <- <-. left. eauto. }
  right. destruct (MarshalIndent v) as [b|e].
  2:{ injection H as <- <- <-. left. eauto. }
  right. split; [done|]. cbn [fs sys] in H.
  destruct (os.WriteFile fs1 tempPath _) as [ewr fs2] eqn:Hwr.
  exists b, ewr, fs2. split; [done|]. split; [done|].
  destruct ewr as [e|].
  { injection H as <- <- <-. left. eauto. }
  right. split; [done|]. cbn [fs sys] in H.
  destruct (os.Rename fs2 tempPath fnlPath) as [ere fs3].
  by injection H as <- <- <-.
Qed.

(** What a [Write] without error leaves in the final path. *)
Lemma Write_Ok_ReadFile (d : Driver) (σ : State) (c r : string) (v : V)
    (d' : Driver) (σ' : State) :
  Write V MarshalIndent d σ c r v = (None, d', σ') ->
  exists b,
    MarshalIndent v = Ok b
    /\ os.ReadFile (fs σ') (Join [Join [dir d; c]; r +:+ ".json"])
       = Ok (b +:+ String "010"%char "").
Proof.
  intros HW.
  assert (Hc : c <> "").
  { intros ->. discriminate HW. }
  assert (Hr : r <> "").
  { intros ->. unfold Write in HW. apply String.eqb_neq in Hc.
    rewrite Hc in HW. discriminate HW. }
  destruct (Write_inv _ _ _ _ _ _ _ _ Hc Hr HW)
    as (emk & fs1 & Hmk & [(e & _ & [=] & _)|[(_ & e & _ & [=] & _)|
         (-> & b & ewr & fs2 & Hb & Hwr & [(e & _ & [=] & _)|[-> Hre]])]]).
  exists b. split; [done|].
  destruct (WriteFile_Ok_walk _ _ _ _ Hwr) as (Hcwd2 & Hw2 & _).
  pose proof (proj1 (WriteFile_Ok _ _ _ _ Hwr)) as Hne.
  assert (Hold : os.path_node fs2 (Join [Join [dir d; c]; r +:+ ".json"]
                                   +:+ ".tmp")
                 = Ok (os.File (b +:+ String "010"%char ""))).
  { unfold os.path_node. rewrite Hne.
    by rewrite (resolve_cwd fs1 fs2) by done. }
  destruct (Rename_File_Ok_walk _ _ _ _ _ Hold Hre) as (Hnn & Hcwd3 & Hw3 & _).
  apply ReadFile_walk. split; [done|].
  by rewrite (resolve_cwd fs2 (fs σ')) by done.
Qed.

(** What [Write] leaves alone. *)
Lemma Write_frame_ReadFile (d : Driver) (σ : State) (c r : string) (v : V)
    (err : option error) (d' : Driver) (σ' : State) (name data : string) :
  Write V MarshalIndent d σ c r v = (err, d', σ') ->
  os.ReadFile (fs σ) name = Ok data ->
  os.resolve (fs σ) name
    <> os.resolve (fs σ) (Join [Join [dir d; c]; r +:+ ".json"]) ->
  os.resolve (fs σ) name
    <> os.resolve (fs σ) (Join [Join [dir d; c]; r +:+ ".json"] +:+ ".tmp") ->
  os.ReadFile (fs σ') name = Ok data.
Proof.
  intros HW Hrd HF HT.
  destruct (String.eqb_spec c "") as [->|Hc].
  { injection HW as _ _ <-. done. }
  destruct (String.eqb_spec r "") as [->|Hr].
  { unfold Write in HW. apply String.eqb_neq in Hc. rewrite Hc in HW.
    injection HW as _ _ <-. done. }
  destruct (Write_inv _ _ _ _ _ _ _ _ Hc Hr HW) as (emk & fs1 & Hmk & Hrest).
  pose proof (MkdirAll_ReadFile _ _ _ _ Hmk _ _ Hrd) as Hrd1.
  pose proof (MkdirAll_cwd _ _ _ _ Hmk) as Hcwd1.
  destruct Hrest as [(e & _ & _ & ->)|[(_ & e & _ & _ & ->)|
    (-> & b & ewr & fs2 & Hb & Hwr & Hrest)]]; [done|done|].
  destruct Hrest as [(e & -> & _ & ->)|[-> Hre]].
  { apply WriteFile_Err in Hwr as [_ ->]. done. }
  destruct (WriteFile_Ok_walk _ _ _ _ Hwr) as (Hcwd2 & Hw2 & Hfr2).
  pose proof (proj1 (WriteFile_Ok _ _ _ _ Hwr)) as Hne.
  apply ReadFile_walk in Hrd1 as [Hnm Hw1].
  rewrite (resolve_cwd (fs σ) fs1) in Hw1 by done.
  assert (Hw2' : os.walk (os.nodes fs2) (os.resolve (fs σ) name)
                 = Ok (os.File data)).
  { apply Hfr2; [|done]. by rewrite (resolve_cwd (fs σ) fs1). }
  destruct err as [e|].
  - assert (fs σ' = fs2) as ->.
    { unfold os.Rename in Hre.
      repeat (case_match; simplify_eq); done. }
    apply ReadFile_walk. split; [done|].
    rewrite (resolve_cwd (fs σ) fs2) by congruence. done.
  - assert (Hold : os.path_node fs2
                     (Join [Join [dir d; c]; r +:+ ".json"] +:+ ".tmp")
                   = Ok (os.File (b +:+ String "010"%char ""))).
    { unfold os.path_node. rewrite Hne.
      by rewrite (resolve_cwd fs1 fs2) by done. }
    destruct (Rename_File_Ok_walk _ _ _ _ _ Hold Hre)
      as (Hnn & Hcwd3 & _ & Hfr3 & _).
    apply ReadFile_walk. split; [done|].
    rewrite (resolve_cwd (fs σ) (fs σ')) by congruence.
    apply Hfr3; [| |done];
      rewrite (resolve_cwd (fs σ) fs2) by congruence; done.
Qed.

(** X1. When [Write] returns no error, the record was encoded and the file
    [root/c/r.json] holds the encoding followed by a line feed. *)
Theorem Write_stores_record (d : Driver) (σ : State) (c r : string) (v : V)
    (d' : Driver) (σ' : State) :
  Write V MarshalIndent d σ c r v = (None, d', σ') ->
  exists b,
    MarshalIndent v = Ok b
    /\ os.ReadFile (fs σ') (Join [Join [dir d; c]; r +:+ ".json"])
       = Ok (b +:+ String "010"%char "").
Proof. apply Write_Ok_ReadFile. Qed.

(** X2. Whatever [Write c r v] returns, a file that could be read before
    reads the same after, unless it is at the location of [root/c/r.json]
    or of [root/c/r.json.tmp]. *)
Theorem Write_frame (d : Driver) (σ : State) (c r : string) (v : V)
    (err : option error) (d' : Driver) (σ' : State) (name data : string) :
  Write V MarshalIndent d σ c r v = (err, d', σ') ->
  os.ReadFile (fs σ) name = Ok data ->
  os.resolve (fs σ) name
    <> os.resolve (fs σ) (Join [Join [dir d; c]; r +:+ ".json"]) ->
  os.resolve (fs σ) name
    <> os.resolve (fs σ) (Join [Join [dir d; c]; r +:+ ".json"] +:+ ".tmp") ->
  os.ReadFile (fs σ') name = Ok data.
Proof. apply Write_frame_ReadFile. Qed.

End Write_steps.

Lemma Write_stores_record_witness :
  exists b,
    json.MarshalIndent "25" = Ok b
    /\ os.ReadFile (fs Example.st_john)
         (Join [Join [dir Example.db; "users"]; "1_john" +:+ ".json"])
       = Ok (b +:+ String "010"%char "").
Proof.
  apply (Write_stores_record json.Number json.MarshalIndent Example.db
           Example.st_db "users" "1_john" "25" Example.d_john Example.st_john).
  vm_compute. reflexivity.
Defined.

Lemma Write_frame_witness :
  os.ReadFile (fs Example2.st_jane) "/db/users/1_john.json"
  = Ok ("25" +:+ String "010"%char "").
Proof.
  apply (Write_frame json.Number json.MarshalIndent Example.d_john
           Example.st_john "users" "2_jane" "30" None Example2.d_jane
           Example2.st_jane).
  - vm_compute. reflexivity.
  - vm_compute. reflexivity.
  - vm_compute. discriminate.
  - vm_compute. discriminate.
Defined.

(** ** Paths of names with an extension *)

Lemma append_last_snoc (elems : list string) (x s : string) :
  append_last (elems ++ [x])%list s = (elems ++ [x +:+ s])%list.
Proof.
  induction elems as [|y elems IH]; [done|].
  cbn [app append_last]. rewrite IH.
  by destruct elems.
Qed.

Lemma no_separator_append (a b : string) :
  no_separator a = true -> no_separator b = true ->
  no_separator (a +:+ b) = true.
Proof.
  induction a as [|c a IH]; [done|]. rewrite append_String. cbn.
  destruct (IsPathSeparator c); [done|]. cbn. auto.
Qed.

(** Appending a suffix without separator extends the last element. *)
Lemma split_append (a s : string) :
  no_separator s = true -> split (a +:+ s) = append_last (split a) s.
Proof.
  intros Hs. induction a as [|c a IH].
  - cbn. by apply split_no_separator.
  - rewrite append_String. cbn [split]. rewrite IH.
    pose proof (split_nonempty a) as Hne.
    destruct (IsPathSeparator c).
    + by destruct (split a).
    + destruct (split a) as [|x [|y l]]; [done|done|]. cbn.
      by destruct (append_last l s) eqn:E; destruct l.
Qed.

Lemma append_eq_empty (a b : string) : a +:+ b = "" -> a = "".
Proof. by destruct a. Qed.

Lemma is_name_append (r s : string) :
  is_name r = true -> no_separator s = true -> is_name (r +:+ s) = true.
Proof.
  intros [(Hsep & Hne & Hd & _) Hdd]%is_name_kept Hs.
  unfold is_name. rewrite (no_separator_append _ _ Hsep Hs).
  assert (H1 : r +:+ s <> "").
  { intros H. by apply append_eq_empty in H. }
  assert (H2 : r +:+ s <> ".").
  { intros H. destruct r as [|c r]; [done|]. rewrite append_String in H.
    injection H as -> H. by apply append_eq_empty in H as ->. }
  assert (H3 : r +:+ s <> "..").
  { intros H. destruct r as [|c r]; [done|]. rewrite append_String in H.
    injection H as -> H. destruct r as [|c r]; [done|].
    rewrite append_String in H.
    injection H as -> H. by apply append_eq_empty in H as ->. }
  apply String.eqb_neq in H1, H2, H3. by rewrite H1, H2, H3.
Qed.

Lemma is_name_names (y : string) : is_name y = true -> is_names y = true.
Proof.
  intros Hy. unfold is_names.
  destruct (is_name_kept y Hy) as [(Hs & _) _].
  rewrite (split_no_separator y Hs). cbn. by rewrite Hy.
Qed.

Lemma is_name_split (y : string) : is_name y = true -> split y = [y].
Proof.
  intros Hy. destruct (is_name_kept y Hy) as [(Hs & _) _].
  by apply split_no_separator.
Qed.

(** The elements of a cleaned path that ends in names: the names are the
    last elements, and what is before them resolves as before. *)
Lemma Clean_ends_names (path : string) (pre ns : list string) :
  path <> "" ->
  split path = (pre ++ ns)%list ->
  Forall (fun e => is_name e = true) ns -> ns <> [] ->
  exists L,
    split (Clean path) = (L ++ ns)%list
    /\ rooted (Clean path) = rooted path
    /\ forall base, (rooted path = true -> base = []) ->
         fold_left os.resolve_step L base = fold_left os.resolve_step pre base.
Proof.
  intros Hne Hsplit Hns Hnn.
  set (rt := rooted path).
  set (out := fold_left (clean_step rt) pre []).
  assert (Hout : fold_left (clean_step rt) (split path) []
                 = (rev ns ++ out)%list).
  { by rewrite Hsplit, fold_left_app, clean_fold_names. }
  destruct (rev ns) as [|e rest] eqn:Erev.
  { apply (f_equal (@rev string)) in Erev. rewrite rev_involutive in Erev.
    done. }
  destruct (Clean_buffer path e (rest ++ out)%list Hne Hout) as [Hs Hrt].
  assert (Hrev : rev (e :: rest ++ out) = (rev out ++ ns)%list).
  { change (e :: rest ++ out)%list with ((e :: rest) ++ out)%list.
    by rewrite <- Erev, rev_app_distr, rev_involutive. }
  rewrite Hrev in Hs. fold rt in Hs, Hrt.
  assert (Hfold : forall base, (rt = true -> base = []) ->
    fold_left os.resolve_step (rev out) base
    = fold_left os.resolve_step pre base).
  { intros base Hbase. unfold out.
    assert (Hpre : Forall (fun e => no_separator e = true) pre).
    { pose proof (split_elements path) as Hall. rewrite Hsplit in Hall.
      by apply Forall_app in Hall as [? _]. }
    by rewrite resolve_clean_fold. }
  destruct rt.
  - exists ("" :: rev out). split; [done|]. split; [done|].
    intros base Hbase. cbn. by apply Hfold.
  - exists (rev out). split; [done|]. split; [done|]. exact Hfold.
Qed.

(** Resolution of a cleaned path that ends in names, with a suffix appended
    to the text of the path. *)
Lemma resolve_Clean_suffix (fs0 : os.FS) (path : string)
    (pre ns : list string) (x s : string) :
  path <> "" ->
  split path = (pre ++ ns ++ [x])%list ->
  Forall (fun e => is_name e = true) (ns ++ [x]) ->
  no_separator s = true ->
  os.resolve fs0 (Clean path +:+ s)
  = (x +:+ s) :: (rev ns ++ fold_left os.resolve_step pre
                              (if rooted path then [] else os.cwd fs0))%list.
Proof.
  intros Hne Hsplit Hall Hs.
  destruct (Clean_ends_names path pre (ns ++ [x]) Hne Hsplit Hall)
    as (L & HL & Hrt & Hfold); [by destruct ns|].
  assert (Hx : is_name (x +:+ s) = true).
  { apply is_name_append; [|done].
    apply Forall_app in Hall as [_ Hx]. by inversion Hx. }
  assert (Hcne : Clean path <> "").
  { apply String.eqb_neq, Clean_not_empty. }
  unfold os.resolve.
  rewrite (rooted_append _ _ Hcne), Hrt, split_append, HL by done.
  rewrite !app_assoc, append_last_snoc, <- app_assoc.
  rewrite !fold_left_app. cbn [fold_left].
  rewrite resolve_step_name by done.
  rewrite Hfold by (by destruct (rooted path)).
  rewrite resolve_fold_names; [done|].
  by apply Forall_app in Hall as [? _].
Qed.

Lemma is_names_snoc (c : string) :
  is_names c = true ->
  exists ns x, split c = (ns ++ [x])%list /\ is_name x = true
               /\ rev (split c) = x :: rev ns.
Proof.
  intros Hc. destruct (is_names_last c Hc) as (x & rest & Hrev & Hx).
  exists (rev rest), x.
  assert (split c = (rev rest ++ [x])%list) as ->.
  { rewrite <- (rev_involutive (split c)), Hrev. done. }
  split; [done|]. split; [done|].
  by rewrite rev_app_distr, rev_involutive.
Qed.

(** [Join [d; c]] with a suffix, for a path of names [c]. *)
Lemma resolve_Join_suffix (fs0 : os.FS) (d c s : string)
    (ns : list string) (x : string) :
  is_names c = true -> split c = (ns ++ [x])%list ->
  no_separator s = true ->
  os.resolve fs0 (Join [d; c] +:+ s)
  = (x +:+ s) :: (rev ns ++ os.resolve fs0 d)%list.
Proof.
  intros Hc Hsplit Hs.
  destruct (Join_names d c Hc) as (path & pre & -> & Hne & Hsp & Hrt & Hpre).
  rewrite (resolve_Clean_suffix fs0 path pre ns x s); try done.
  - unfold os.resolve. by rewrite Hrt, Hpre.
  - by rewrite Hsp, Hsplit.
  - rewrite <- Hsplit. by apply is_names_split.
Qed.

(** The paths of [Write] for a path of names [c] and a name [r]. *)
Lemma resolve_fnlPath (fs0 : os.FS) (d c r : string) :
  is_names c = true -> is_name r = true ->
  os.resolve fs0 (Join [Join [d; c]; r +:+ ".json"])
  = (r +:+ ".json") :: os.resolve fs0 (Join [d; c]).
Proof.
  intros Hc Hr.
  assert (Hrj : is_name (r +:+ ".json") = true) by (by apply is_name_append).
  by rewrite (resolve_Join_names _ _ _ (is_name_names _ Hrj)), is_name_split.
Qed.

Lemma resolve_tempPath (fs0 : os.FS) (d c r : string) :
  is_names c = true -> is_name r = true ->
  os.resolve fs0 (Join [Join [d; c]; r +:+ ".json"] +:+ ".tmp")
  = ((r +:+ ".json") +:+ ".tmp") :: os.resolve fs0 (Join [d; c]).
Proof.
  intros Hc Hr.
  assert (Hrj : is_name (r +:+ ".json") = true) by (by apply is_name_append).
  by rewrite (resolve_Join_suffix fs0 _ (r +:+ ".json") ".tmp" [] (r +:+ ".json")
                (is_name_names _ Hrj) (is_name_split _ Hrj)).
Qed.

(** [Join [d; c; y]] for a path of names [c] and a name [y]. *)
Lemma Join3_names (d c y : string) :
  is_names c = true -> is_name y = true ->
  exists path pre,
    Join [d; c; y] = Clean path /\ path <> ""
    /\ split path = (pre ++ split c ++ [y])%list
    /\ rooted path = rooted d
    /\ forall base, fold_left os.resolve_step pre base
                    = fold_left os.resolve_step (split d) base.
Proof.
  intros Hc Hy.
  pose proof (is_names_not_empty c Hc) as Hne.
  apply String.eqb_neq in Hne as Hne'.
  unfold Join. cbn [drop_empty]. destruct (String.eqb_spec d "") as [->|Hd].
  - rewrite Hne'. exists (c +:+ String "/"%char y), []. repeat split.
    + by apply append_not_empty.
    + by rewrite split_app, (is_name_split y).
    + rewrite rooted_append by done. by apply is_names_rooted.
  - exists (d +:+ String "/"%char (c +:+ String "/"%char y)), (split d).
    repeat split.
    + by apply append_not_empty.
    + by rewrite !split_app, (is_name_split y).
    + by apply rooted_append.
Qed.

Lemma resolve_Join3 (fs0 : os.FS) (d c y : string) :
  is_names c = true -> is_name y = true ->
  os.resolve fs0 (Join [d; c; y]) = y :: os.resolve fs0 (Join [d; c]).
Proof.
  intros Hc Hy.
  destruct (Join3_names d c y Hc Hy)
    as (path & pre & -> & Hne & Hsp & Hrt & Hpre).
  rewrite resolve_Clean, (resolve_Join_names _ _ _ Hc) by done.
  unfold os.resolve.
  rewrite Hsp, Hrt, !fold_left_app, Hpre. cbn [fold_left].
  rewrite resolve_step_name by done.
  by rewrite resolve_fold_names by (by apply is_names_split).
Qed.

Lemma resolve_Join3_suffix (fs0 : os.FS) (d c y s : string) :
  is_names c = true -> is_name y = true -> no_separator s = true ->
  os.resolve fs0 (Join [d; c; y] +:+ s)
  = (y +:+ s) :: os.resolve fs0 (Join [d; c]).
Proof.
  intros Hc Hy Hs.
  destruct (Join3_names d c y Hc Hy)
    as (path & pre & -> & Hne & Hsp & Hrt & Hpre).
  rewrite (resolve_Clean_suffix fs0 path pre (split c) y s); try done.
  - rewrite (resolve_Join_names _ _ _ Hc). unfold os.resolve.
    rewrite Hrt, Hpre. done.
  - apply Forall_app. split; [by apply is_names_split|]. by constructor.
Qed.

(** ** Reading back what Write stored *)

Lemma Join_names_not_empty (d c : string) :
  is_names c = true -> String.eqb (Join [d; c]) "" = false.
Proof.
  intros Hc. destruct (Join_names d c Hc) as (path & pre & -> & _).
  apply Clean_not_empty.
Qed.

Lemma Join3_names_not_empty (d c y : string) :
  is_names c = true -> is_name y = true ->
  String.eqb (Join [d; c; y]) "" = false.
Proof.
  intros Hc Hy. destruct (Join3_names d c y Hc Hy) as (path & pre & -> & _).
  apply Clean_not_empty.
Qed.

Lemma append_eqb_empty (a b : string) :
  String.eqb a "" = false -> String.eqb (a +:+ b) "" = false.
Proof. by destruct a. Qed.

Lemma elem_of_insert_by_name (e x : string * os.node)
    (l : list (string * os.node)) :
  x ∈ os.insert_by_name e l <-> x = e \/ x ∈ l.
Proof.
  induction l as [|e' l IH]; cbn.
  - rewrite list_elem_of_singleton, elem_of_nil. tauto.
  - destruct (String.leb e.1 e'.1).
    + rewrite !elem_of_cons. tauto.
    + rewrite !elem_of_cons, IH. tauto.
Qed.

Lemma elem_of_sort_by_name (x : string * os.node)
    (l : list (string * os.node)) :
  x ∈ os.sort_by_name l <-> x ∈ l.
Proof.
  induction l as [|e l IH]; cbn; [done|].
  by rewrite elem_of_insert_by_name, IH, elem_of_cons.
Qed.

(** The entries of a directory are the nodes stored one level below it. *)
Lemma elem_of_entries (m : gmap (list string) os.node) (loc : list string)
    (x : string) (n : os.node) :
  (x, n) ∈ os.entries m loc <-> m !! (x :: loc) = Some n.
Proof.
  unfold os.entries. rewrite list_elem_of_omap. split.
  - intros ([k n'] & Hin & He). apply elem_of_map_to_list in Hin.
    unfold os.entry_of in He. cbn in He.
    destruct k as [|y parent]; [discriminate|].
    destruct (decide (parent = loc)) as [->|]; [|discriminate].
    by injection He as -> ->.
  - intros H. exists (x :: loc, n). split; [by apply elem_of_map_to_list|].
    unfold os.entry_of. cbn. by destruct (decide (loc = loc)).
Qed.

(** What [ReadDir] lists for a directory. *)
Lemma elem_of_ReadDir (fs0 : os.FS) (dirname : string) (x : string)
    (n : os.node) :
  os.path_node fs0 dirname = Ok os.Dir ->
  os.nodes fs0 !! (x :: os.resolve fs0 dirname) = Some n ->
  {| os.Name := x; os.Mode := os.mode_of n |} ∈ (os.ReadDir fs0 dirname).1.
Proof.
  intros Hd Hx. unfold os.ReadDir. rewrite Hd. cbn [fst].
  apply list_elem_of_In, in_map_iff. exists (x, n). split; [done|].
  by apply list_elem_of_In, elem_of_sort_by_name, elem_of_entries.
Qed.

(** A run of the loop of [ReadAll] without error read every entry. *)
Lemma ReadAll_loop_None (dirp : string) (files : list os.FileInfo) :
  forall (σ : State) (acc records : list string) (σ' : State),
    ReadAll_loop σ dirp files acc = (records, None, σ') ->
    exists contents,
      records = (acc ++ contents)%list
      /\ Forall2 (reads dirp (fs σ)) files contents.
Proof.
  induction files as [|file files IH]; intros σ acc records σ' H.
  - injection H as <- _. exists []. by rewrite app_nil_r.
  - cbn [ReadAll_loop] in H. unfold ioutil_ReadFile in H.
    destruct (os.ReadFile (fs σ) (Join [dirp; os.Name file])) as [b|e] eqn:E;
      [|discriminate].
    apply IH in H as (contents & -> & Hall).
    exists (b :: contents). split; [by rewrite <- app_assoc|].
    by constructor.
Qed.

Lemma Forall2_elem_of {A B} (P : A -> B -> Prop) (l : list A) (k : list B)
    (x : A) :
  Forall2 P l k -> x ∈ l -> exists y, y ∈ k /\ P x y.
Proof.
  induction 1 as [|a b l k Hab _ IH]; intros Hin.
  - by apply elem_of_nil in Hin.
  - apply elem_of_cons in Hin as [->|Hin].
    + exists b. split; [by left|done].
    + destruct (IH Hin) as (y & Hy & HP). exists y. split; [by right|done].
Qed.

Section Round_trips.

Variable V : Type.
Variable MarshalIndent : V -> result error string.
Variable Unmarshal : string -> result error V.

Lemma Write_dir (d : Driver) (σ : State) (c r : string) (v : V)
    (err : option error) (d' : Driver) (σ' : State) :
  Write V MarshalIndent d σ c r v = (err, d', σ') -> dir d' = dir d.
Proof.
  unfold Write. intros H.
  destruct (String.eqb c ""); [by injection H as _ <- _|].
  destruct (String.eqb r ""); [by injection H as _ <- _|].
  destruct (getOrCreateMutex d σ c) as [[m d1] σ1] eqn:Hg.
  apply getOrCreateMutex_frame in Hg as (Hdir & _).
  repeat (case_match; simplify_eq); done.
Qed.

(** X3. After [Write c r v] without error, for a path of names [c] and a
    name [r]: when [ReadAll c] returns no error, the encoding of [v],
    followed by a line feed, is among the records it returns. *)
Theorem Write_then_ReadAll (d : Driver) (σ : State) (c r : string) (v : V)
    (d' : Driver) (σ' σ'' : State) (records : list string) :
  is_names c = true -> is_name r = true ->
  Write V MarshalIndent d σ c r v = (None, d', σ') ->
  ReadAll d' σ' c = (records, None, σ'') ->
  exists b,
    MarshalIndent v = Ok b /\ (b +:+ String "010"%char "") ∈ records.
Proof.
  intros Hc Hr HW HRA.
  destruct (Write_Ok_ReadFile _ _ _ _ _ _ _ _ _ HW) as (b & Hb & Hrd).
  exists b. split; [done|].
  pose proof (Write_dir _ _ _ _ _ _ _ _ HW) as Hdir.
  set (dirp := Join [dir d; c]) in *.
  apply ReadFile_walk in Hrd as Hw. destruct Hw as [_ Hw].
  unfold dirp in Hw. rewrite (resolve_fnlPath _ _ _ _ Hc Hr) in Hw.
  fold dirp in Hw. apply walk_lookup in Hw as [HwD Hlk].
  assert (HpD : os.path_node (fs σ') dirp = Ok os.Dir).
  { unfold os.path_node. unfold dirp at 1.
    by rewrite (Join_names_not_empty _ _ Hc). }
  unfold ReadAll in HRA.
  pose proof (is_names_not_empty c Hc) as Hne.
  apply String.eqb_neq in Hne. rewrite Hne, Hdir in HRA. fold dirp in HRA.
  unfold stat, os_Stat, os.Stat in HRA. rewrite HpD in HRA.
  unfold ioutil_ReadDir in HRA. cbn [fs sys] in HRA.
  destruct (os.ReadDir (fs σ') dirp) as [files rderr] eqn:Hfiles.
  apply ReadAll_loop_None in HRA as (contents & -> & Hall).
  cbn [fs sys app] in Hall.
  pose proof (elem_of_ReadDir _ _ _ _ HpD Hlk) as Hin.
  rewrite Hfiles in Hin. cbn [fst] in Hin.
  destruct (Forall2_elem_of _ _ _ _ Hall Hin) as (data & Hdata & Hreads).
  unfold reads in Hreads. cbn [os.Name] in Hreads.
  rewrite Hrd in Hreads. by injection Hreads as <-.
Qed.

(** X4. [Read c r] opens [root/c/r.json.json]: after
    [Write c (r ++ ".json") v] without error, for a path of names [c] and a
    name [r], [Read c r] decodes what that write stored. *)
Theorem Write_json_then_Read (d : Driver) (σ : State) (c r : string) (v : V)
    (d' : Driver) (σ' : State) :
  is_names c = true -> is_name r = true ->
  Write V MarshalIndent d σ c (r +:+ ".json") v = (None, d', σ') ->
  exists b,
    MarshalIndent v = Ok b
    /\ (Read V Unmarshal d' σ' c r).1 = Unmarshal (b +:+ String "010"%char "").
Proof.
  intros Hc Hr HW.
  assert (Hrj : is_name (r +:+ ".json") = true) by (by apply is_name_append).
  destruct (Write_Ok_ReadFile _ _ _ _ _ _ _ _ _ HW) as (b & Hb & Hrd).
  exists b. split; [done|].
  pose proof (Write_dir _ _ _ _ _ _ _ _ HW) as Hdir.
  apply ReadFile_walk in Hrd as [_ Hw].
  rewrite (resolve_fnlPath _ _ _ _ Hc Hrj) in Hw.
  pose proof (walk_lookup _ _ _ _ Hw) as [HwD _].
  set (record := Join [dir d; c; r +:+ ".json"]).
  assert (Hrne : String.eqb record "" = false)
    by (by apply Join3_names_not_empty).
  assert (Hopen : os.ReadFile (fs σ') (record +:+ ".json")
                  = Ok (b +:+ String "010"%char "")).
  { apply ReadFile_walk. split; [by apply append_eqb_empty|].
    unfold record. by rewrite resolve_Join3_suffix. }
  unfold Read.
  pose proof (is_names_not_empty c Hc) as Hne.
  destruct (is_name_kept r Hr) as [(_ & Hrne' & _) _].
  apply String.eqb_neq in Hne, Hrne'. rewrite Hne, Hrne', Hdir.
  fold record.
  assert (Hst : exists fi σ1, stat σ' record = (Ok fi, σ1) /\ fs σ1 = fs σ').
  { unfold stat, os_Stat, os.Stat, os.path_node at 1. rewrite Hrne.
    unfold record at 1. rewrite (resolve_Join3 _ _ _ _ Hc Hrj).
    cbn [os.walk]. rewrite HwD.
    destruct (os.nodes (fs σ') !! _) as [n|]; [eauto|].
    cbn [IsNotExist fs sys]. unfold os.path_node.
    rewrite (append_eqb_empty _ _ Hrne). unfold record.
    rewrite resolve_Join3_suffix, Hw by done. eauto. }
  destruct Hst as (fi & σ1 & -> & Hfs1).
  unfold ioutil_ReadFile. rewrite Hfs1, Hopen. done.
Qed.

End Round_trips.

Lemma Write_then_ReadAll_witness :
  exists b,
    json.MarshalIndent "30" = Ok b
    /\ (b +:+ String "010"%char "")
       ∈ (ReadAll Example2.d_jane Example2.st_jane "users").1.1.
Proof.
  apply (Write_then_ReadAll json.Number json.MarshalIndent Example.d_john
           Example.st_john "users" "2_jane" "30" Example2.d_jane
           Example2.st_jane
           (ReadAll Example2.d_jane Example2.st_jane "users").2).
  - reflexivity.
  - reflexivity.
  - vm_compute. reflexivity.
  - vm_compute. reflexivity.
Defined.

Lemma Write_json_then_Read_witness :
  exists b,
    json.MarshalIndent "25" = Ok b
    /\ (Example.Read Example2.d_ext Example2.st_ext "users" "1_john").1
       = json.Unmarshal (b +:+ String "010"%char "").
Proof.
  apply (Write_json_then_Read json.Number json.MarshalIndent json.Unmarshal
           Example.db Example.st_db "users" "1_john" "25").
  - reflexivity.
  - reflexivity.
  - vm_compute. reflexivity.
Defined.

(** ** Delete *)

Lemma prefix_append (a b : string) : String.prefix a (a +:+ b) = true.
Proof.
  induction a as [|c a IH]; [by destruct b|].
  rewrite append_String. cbn. by destruct (ascii_dec c c).
Qed.

Lemma kind_of_UnableToFind (path : string) :
  kind_of (Errorf ("Unable to find file or directory named " +:+ path
                   +:+ String "010"%char "")) = Some NotFound.
Proof. unfold kind_of. rewrite prefix_append. reflexivity. Qed.

(** X5. When neither [root/path] nor [root/path.json] passes the existence
    check, for [path] the joined collection and resource, [Delete] returns
    its not-found error and leaves the file system as it was. *)
Theorem Delete_not_found (d : Driver) (σ : State) (c r : string)
    (e1 e2 : error) :
  os.Stat (fs σ) (Join [dir d; Join [c; r]]) = Err e1 ->
  os.Stat (fs σ) (Join [dir d; Join [c; r]] +:+ ".json") = Err e2 ->
  exists d' σ',
    Delete d σ c r
    = (Some (Errorf ("Unable to find file or directory named "
                     +:+ Join [c; r] +:+ String "010"%char "")), d', σ')
    /\ kind_of (Errorf ("Unable to find file or directory named "
                        +:+ Join [c; r] +:+ String "010"%char ""))
       = Some NotFound
    /\ fs σ' = fs σ.
Proof.
  intros H1 H2. unfold Delete.
  destruct (getOrCreateMutex d σ c) as [[m d1] σ1] eqn:Hg.
  apply getOrCreateMutex_frame in Hg as (Hdir & Hfs & Htr).
  rewrite Hdir. rewrite <- Hfs in H1, H2.
  destruct (stat_Err _ _ _ _ H1 H2) as (err & σ' & -> & _ & Hfs').
  eexists _, _. split; [reflexivity|].
  split; [apply kind_of_UnableToFind|]. congruence.
Qed.

Lemma Delete_not_found_witness :
  exists d' σ',
    Delete Example.d_john Example.st_john "users" "nobody"
    = (Some (Errorf ("Unable to find file or directory named "
                     +:+ Join ["users"; "nobody"] +:+ String "010"%char "")),
       d', σ')
    /\ kind_of (Errorf ("Unable to find file or directory named "
                        +:+ Join ["users"; "nobody"]
                        +:+ String "010"%char ""))
       = Some NotFound
    /\ fs σ' = fs Example.st_john.
Proof.
  apply (Delete_not_found Example.d_john Example.st_john "users" "nobody"
           (PathError "stat" "/db/users/nobody" ENOENT)
           (PathError "stat" "/db/users/nobody.json" ENOENT)).
  - vm_compute. reflexivity.
  - vm_compute. reflexivity.
Defined.

Lemma resolve_mkFS (fs0 : os.FS) (m : gmap (list string) os.node)
    (name : string) :
  os.resolve (os.mkFS (os.cwd fs0) m) name = os.resolve fs0 name.
Proof. reflexivity. Qed.

Lemma Remove_File (fs0 : os.FS) (name data : string) :
  os.ReadFile fs0 name = Ok data ->
  os.Remove fs0 name
  = (None, os.mkFS (os.cwd fs0)
             (delete (os.resolve fs0 name) (os.nodes fs0))).
Proof.
  intros [Hne Hw]%ReadFile_walk. unfold os.Remove. by rewrite Hne, Hw.
Qed.

(** The steps of [Delete] for a record file. *)
Lemma Delete_file_steps (d : Driver) (σ : State) (c r : string)
    (data : string) :
  let target := Join [dir d; Join [c; r]] in
  os.Stat (fs σ) target = Err (PathError "stat" target ENOENT) ->
  os.ReadFile (fs σ) (target +:+ ".json") = Ok data ->
  exists d' σ',
    Delete d σ c r = (None, d', σ')
    /\ trace σ'
       = (trace σ ++ [SysStat target; SysStat (target +:+ ".json");
                      SysRemove (target +:+ ".json")])%list
    /\ os.Stat (fs σ') (target +:+ ".json")
       = Err (PathError "stat" (target +:+ ".json") ENOENT)
    /\ (forall q, q <> os.resolve (fs σ) (target +:+ ".json") ->
                  os.nodes (fs σ') !! q = os.nodes (fs σ) !! q).
Proof.
  intros target Hst Hrd. unfold Delete.
  destruct (getOrCreateMutex d σ c) as [[m d1] σ1] eqn:Hg.
  apply getOrCreateMutex_frame in Hg as (Hdir & Hfs & Htr).
  rewrite Hdir. fold target.
  apply ReadFile_walk in Hrd as Hw. destruct Hw as [Hne Hw].
  unfold stat, os_Stat. rewrite Hfs, Hst. cbn [IsNotExist fs sys].
  unfold os.Stat at 1, os.path_node. rewrite Hne, Hw.
  cbn [os.mode_of os.Mode os.IsDir os.IsRegular].
  unfold os_Remove. cbn [fs sys]. rewrite (Remove_File _ _ _ Hrd).
  eexists _, _. split; [reflexivity|]. cbn [fs trace sys].
  split; [by rewrite Htr, <- !app_assoc|].
  split.
  - unfold os.Stat, os.path_node. rewrite Hne.
    rewrite resolve_mkFS. cbn [os.nodes].
    destruct (walk_File_cons _ _ _ Hw) as (x & parent & Hloc).
    rewrite Hloc in Hw |- *. apply walk_lookup in Hw as [Hp _].
    cbn [os.walk]. rewrite walk_delete_outside, Hp, lookup_delete_eq; [done|].
    intros Hs%suffix_length. cbn in Hs. lia.
  - intros q Hq. cbn [os.nodes]. by apply lookup_delete_ne.
Qed.

(** X6. When [root/path] does not exist and [root/path.json] is a regular
    file, for [path] the joined collection and resource, [Delete] returns
    no error; it made three calls, the last one [Remove] of
    [root/path.json]; that file does not exist afterwards and every other
    location of the tree is as before. *)
Theorem Delete_resource (d : Driver) (σ : State) (c r : string)
    (data : string) :
  let target := Join [dir d; Join [c; r]] in
  os.Stat (fs σ) target = Err (PathError "stat" target ENOENT) ->
  os.ReadFile (fs σ) (target +:+ ".json") = Ok data ->
  exists d' σ',
    Delete d σ c r = (None, d', σ')
    /\ trace σ'
       = (trace σ ++ [SysStat target; SysStat (target +:+ ".json");
                      SysRemove (target +:+ ".json")])%list
    /\ os.Stat (fs σ') (target +:+ ".json")
       = Err (PathError "stat" (target +:+ ".json") ENOENT)
    /\ (forall q, q <> os.resolve (fs σ) (target +:+ ".json") ->
                  os.nodes (fs σ') !! q = os.nodes (fs σ) !! q).
Proof. apply Delete_file_steps. Qed.

Lemma Delete_resource_witness :
  exists d' σ',
    Delete Example.d_john Example.st_john "users" "1_john" = (None, d', σ')
    /\ trace σ'
       = (trace Example.st_john
          ++ [SysStat "/db/users/1_john"; SysStat "/db/users/1_john.json";
              SysRemove "/db/users/1_john.json"])%list
    /\ os.Stat (fs σ') "/db/users/1_john.json"
       = Err (PathError "stat" "/db/users/1_john.json" ENOENT).
Proof.
  destruct (Delete_resource Example.d_john Example.st_john "users" "1_john"
              ("25" +:+ String "010"%char ""))
    as (d' & σ' & HD & Htr & Hst & _).
  - vm_compute. reflexivity.
  - vm_compute. reflexivity.
  - exists d', σ'. split; [exact HD|]. split; [exact Htr|exact Hst].
Defined.

(** ** Write, then Delete *)

(** A path of names is clean. *)
Lemma Clean_names (p : string) : is_names p = true -> Clean p = p.
Proof.
  intros Hp.
  pose proof (is_names_not_empty p Hp) as Hne.
  apply String.eqb_neq in Hne.
  unfold Clean. rewrite Hne, (is_names_rooted p Hp).
  rewrite (clean_fold_names false _ (is_names_split p Hp)).
  rewrite app_nil_r, rev_involutive, join_sep_split, append_empty.
  by rewrite Hne.
Qed.

Lemma Join_collection_resource (c r : string) :
  is_names c = true -> is_name r = true ->
  Join [c; r] = c +:+ String "/"%char r
  /\ is_names (c +:+ String "/"%char r) = true
  /\ split (c +:+ String "/"%char r) = (split c ++ [r])%list.
Proof.
  intros Hc Hr.
  pose proof (is_names_not_empty c Hc) as Hne.
  apply String.eqb_neq in Hne.
  assert (Hsp : split (c +:+ String "/"%char r) = (split c ++ [r])%list).
  { by rewrite split_app, (is_name_split r). }
  assert (Hn : is_names (c +:+ String "/"%char r) = true).
  { unfold is_names. rewrite Hsp, forallb_app. cbn. rewrite Hr.
    unfold is_names in Hc. by rewrite Hc. }
  unfold Join. cbn [drop_empty]. rewrite Hne.
  change (join_sep [c; r]) with (c +:+ String "/"%char r).
  by rewrite Clean_names.
Qed.

(** [Delete] looks for the record where [Write] put it. *)
Lemma resolve_Delete_target (fs0 : os.FS) (d c r : string) :
  is_names c = true -> is_name r = true ->
  os.resolve fs0 (Join [d; Join [c; r]] +:+ ".json")
  = os.resolve fs0 (Join [Join [d; c]; r +:+ ".json"]).
Proof.
  intros Hc Hr.
  destruct (Join_collection_resource c r Hc Hr) as (-> & Hn & Hsp).
  rewrite (resolve_Join_suffix fs0 d _ ".json" (split c) r Hn Hsp) by done.
  by rewrite (resolve_fnlPath _ _ _ _ Hc Hr), (resolve_Join_names _ _ _ Hc).
Qed.

Section Write_Delete.

Variable V : Type.
Variable MarshalIndent : V -> result error string.

(** X7. After [Write c r v] without error, for a path of names [c] and a
    name [r]: when no [root/c/r] (without extension) exists, [Delete c r]
    returns no error and the record file [root/c/r.json] cannot be opened
    any more. *)
Theorem Write_then_Delete (d : Driver) (σ : State) (c r : string) (v : V)
    (d' : Driver) (σ' : State) :
  is_names c = true -> is_name r = true ->
  Write V MarshalIndent d σ c r v = (None, d', σ') ->
  os.Stat (fs σ') (Join [dir d; Join [c; r]])
  = Err (PathError "stat" (Join [dir d; Join [c; r]]) ENOENT) ->
  exists d'' σ'',
    Delete d' σ' c r = (None, d'', σ'')
    /\ os.ReadFile (fs σ'') (Join [Join [dir d; c]; r +:+ ".json"])
       = Err (PathError "open" (Join [Join [dir d; c]; r +:+ ".json"]) ENOENT).
Proof.
  intros Hc Hr HW Hst.
  destruct (Write_Ok_ReadFile _ _ _ _ _ _ _ _ _ HW) as (b & Hb & Hrd).
  pose proof (Write_dir _ _ _ _ _ _ _ _ _ _ HW) as Hdir.
  apply ReadFile_walk in Hrd as Hw. destruct Hw as [Hne Hw].
  assert (Hrd' : os.ReadFile (fs σ') (Join [dir d'; Join [c; r]] +:+ ".json")
                 = Ok (b +:+ String "010"%char "")).
  { apply ReadFile_walk. split.
    - apply append_eqb_empty. rewrite Hdir.
      destruct (Join_collection_resource c r Hc Hr) as (-> & Hn & _).
      by apply Join_names_not_empty.
    - by rewrite Hdir, resolve_Delete_target. }
  rewrite <- Hdir in Hst.
  destruct (Delete_file_steps d' σ' c r _ Hst Hrd')
    as (d'' & σ'' & HD & _ & Hgone & _).
  exists d'', σ''. split; [done|].
  apply ReadFile_walk in Hrd' as [Hne' _].
  unfold os.Stat, os.path_node in Hgone. rewrite Hne' in Hgone.
  unfold os.ReadFile, os.path_node. rewrite Hne.
  assert (Hcwd : os.cwd (fs σ'') = os.cwd (fs σ')).
  { unfold Delete in HD.
    destruct (getOrCreateMutex d' σ' c) as [[m d1] σ1] eqn:Hg.
    apply getOrCreateMutex_frame in Hg as (_ & Hfs & _).
    unfold stat, os_Stat, os_RemoveAll, os_Remove, os.RemoveAll, os.Remove
      in HD.
    rewrite <- Hfs.
    repeat (case_match; simplify_eq); done. }
  rewrite (resolve_cwd (fs σ')) in Hgone |- * by done.
  rewrite Hdir, resolve_Delete_target in Hgone by done.
  destruct (os.walk (os.nodes (fs σ'')) _) as [n|e]; [discriminate|].
  by injection Hgone as ->.
Qed.

End Write_Delete.

Lemma Write_then_Delete_witness :
  exists d'' σ'',
    Delete Example.d_john Example.st_john "users" "1_john" = (None, d'', σ'')
    /\ os.ReadFile (fs σ'')
         (Join [Join [dir Example.db; "users"]; "1_john" +:+ ".json"])
       = Err (PathError "open"
                (Join [Join [dir Example.db; "users"]; "1_john" +:+ ".json"])
                ENOENT).
Proof.
  apply (Write_then_Delete json.Number json.MarshalIndent Example.db
           Example.st_db "users" "1_john" "25").
  - reflexivity.
  - reflexivity.
  - vm_compute. reflexivity.
  - vm_compute. reflexivity.
Defined.

(** ** Read and ReadAll only look *)

Lemma stat_state (σ : State) (path : string) :
  exists calls,
    (stat σ path).2 = mkState (fs σ) (trace σ ++ calls)%list (allocated σ)
    /\ forallb reads_only calls = true.
Proof.
  unfold stat, os_Stat. destruct (os.Stat (fs σ) path) as [fi|err].
  - by exists [SysStat path].
  - destruct (IsNotExist err).
    + exists [SysStat path; SysStat (path +:+ ".json")].
      unfold sys. cbn [fs trace allocated forallb reads_only andb].
      by rewrite <- app_assoc.
    + by exists [SysStat path].
Qed.

Lemma ReadAll_loop_state (dirp : string) (files : list os.FileInfo) :
  forall (σ : State) (acc : list string),
    exists calls,
      (ReadAll_loop σ dirp files acc).2
      = mkState (fs σ) (trace σ ++ calls)%list (allocated σ)
      /\ forallb reads_only calls = true.
Proof.
  induction files as [|file files IH]; intros σ acc; cbn [ReadAll_loop].
  - exists []. destruct σ. cbn. by rewrite app_nil_r.
  - unfold ioutil_ReadFile.
    destruct (os.ReadFile (fs σ) (Join [dirp; os.Name file])) as [b|err].
    + destruct (IH (sys (SysReadFile (Join [dirp; os.Name file])) (fs σ) σ)
                  (acc ++ [b])%list) as (calls & -> & Hcalls).
      exists (SysReadFile (Join [dirp; os.Name file]) :: calls).
      unfold sys. cbn [fs trace allocated forallb reads_only andb].
      by rewrite <- ?app_assoc.
    + by exists [SysReadFile (Join [dirp; os.Name file])].
Qed.

(** The state after [Read] and after [ReadAll]. *)
Lemma reads_state (V : Type)
    (Unmarshal : string -> result error V) (d : Driver) (σ : State)
    (c r : string) :
  (exists calls,
     (Read V Unmarshal d σ c r).2
     = mkState (fs σ) (trace σ ++ calls)%list (allocated σ)
     /\ forallb reads_only calls = true)
  /\ (exists calls,
        (ReadAll d σ c).2
        = mkState (fs σ) (trace σ ++ calls)%list (allocated σ)
        /\ forallb reads_only calls = true).
Proof.
  assert (Hnil : σ = mkState (fs σ) (trace σ ++ [])%list (allocated σ)).
  { destruct σ. cbn. by rewrite app_nil_r. }
  split.
  - unfold Read.
    destruct (String.eqb c ""); [by exists []|].
    destruct (String.eqb r ""); [by exists []|].
    set (record := Join [dir d; c; r +:+ ".json"]).
    destruct (stat_state σ record) as (calls & Hst & Hcalls).
    destruct (stat σ record) as [[fi|err] σ1]; cbn [snd] in Hst; subst σ1.
    + unfold ioutil_ReadFile. cbn [fs trace allocated sys].
      exists (calls ++ [SysReadFile (record +:+ ".json")])%list.
      split; [|by rewrite forallb_app, Hcalls].
      destruct (os.ReadFile (fs σ) (record +:+ ".json"));
        unfold sys; cbn [fs trace allocated snd];
        by rewrite <- ?app_assoc.
    + by exists calls.
  - unfold ReadAll.
    destruct (String.eqb c ""); [by exists []|].
    set (dirp := Join [dir d; c]).
    destruct (stat_state σ dirp) as (calls & Hst & Hcalls).
    destruct (stat σ dirp) as [[fi|err] σ1]; cbn [snd] in Hst; subst σ1.
    + unfold ioutil_ReadDir. cbn [fs trace allocated sys].
      destruct (os.ReadDir (fs σ) dirp) as [files rderr].
      match goal with
      | |- context [ReadAll_loop ?s dirp files []] =>
          destruct (ReadAll_loop_state dirp files s [])
            as (calls' & -> & Hcalls')
      end.
      unfold sys. cbn [fs trace allocated].
      exists (calls ++ SysReadDir dirp :: calls')%list.
      split; [by rewrite <- !app_assoc|].
      rewrite forallb_app, Hcalls. cbn. exact Hcalls'.
    + by exists calls.
Qed.

(** X8. [Read] and [ReadAll] change neither the file system nor the
    allocation of mutexes (and they do not return a driver): the state after
    them is the state before with further calls recorded, each of them
    [Stat], [ReadDir] or [ReadFile]. *)
Theorem Read_ReadAll_read_only (V : Type)
    (Unmarshal : string -> result error V) (d : Driver) (σ : State)
    (c r : string) :
  (exists calls,
     (Read V Unmarshal d σ c r).2
     = mkState (fs σ) (trace σ ++ calls)%list (allocated σ)
     /\ forallb reads_only calls = true)
  /\ (exists calls,
        (ReadAll d σ c).2
        = mkState (fs σ) (trace σ ++ calls)%list (allocated σ)
        /\ forallb reads_only calls = true).
Proof. apply reads_state. Qed.

(** X10. When the existence check passes for [root/c] or for
    [root/c.json] but [root/c] is not a directory, [ReadAll c] returns no
    error and no record: the error of [ReadDir] is dropped. *)
Theorem ReadAll_unlistable (d : Driver) (σ : State) (c : string)
    (fi : os.FileInfo) :
  c <> "" ->
  (stat σ (Join [dir d; c])).1 = Ok fi ->
  os.path_node (fs σ) (Join [dir d; c]) <> Ok os.Dir ->
  exists σ', ReadAll d σ c = ([], None, σ').
Proof.
  intros Hc Hst Hnd. unfold ReadAll.
  apply String.eqb_neq in Hc. rewrite Hc.
  destruct (stat_state σ (Join [dir d; c])) as (calls & Hσ & _).
  destruct (stat σ (Join [dir d; c])) as [res σ1].
  cbn [fst snd] in Hst, Hσ. subst res σ1.
  unfold ioutil_ReadDir, os.ReadDir. cbn [fs].
  destruct (os.path_node (fs σ) (Join [dir d; c])) as [[data|]|e];
    [|done|]; cbn; eauto.
Qed.

Lemma ReadAll_unlistable_witness :
  exists σ',
    ReadAll Example2.d_ext Example2.st_ext "users/1_john.json"
    = ([], None, σ').
Proof.
  apply (ReadAll_unlistable Example2.d_ext Example2.st_ext
           "users/1_john.json"
           {| os.Name := "1_john.json.json"; os.Mode := os.ModeRegular |}).
  - discriminate.
  - vm_compute. reflexivity.
  - vm_compute. discriminate.
Defined.

(** ** No two collections share a mutex *)

Lemma registry_ok_allocated (d : Driver) (σ σ' : State) :
  registry_ok d σ -> allocated σ' = allocated σ -> registry_ok d σ'.
Proof. unfold registry_ok. by intros H ->. Qed.

Lemma getOrCreateMutex_ok (d : Driver) (σ : State) (c : string) :
  registry_ok d σ ->
  registry_ok (getOrCreateMutex d σ c).1.2 (getOrCreateMutex d σ c).2.
Proof.
  intros [Hlt Hinj]. unfold getOrCreateMutex.
  destruct (mutexes d !! c) as [m|] eqn:E;
    cbn [fst snd]; [done|].
  split; cbn [mutexes allocated].
  - intros c0 m0. destruct (decide (c = c0)) as [->|Hne].
    + rewrite lookup_insert_eq. intros [= <-]. lia.
    + rewrite lookup_insert_ne by done. intros H%Hlt. lia.
  - intros c1 c2 m0 H1 H2. rewrite lookup_insert in H1, H2.
    destruct (decide (c = c1)) as [E1|E1], (decide (c = c2)) as [E2|E2].
    + congruence.
    + injection H1 as <-. apply Hlt in H2. lia.
    + injection H2 as <-. apply Hlt in H1. lia.
    + by eapply Hinj.
Qed.

Lemma ReadAll_allocated (d : Driver) (σ : State) (c : string) :
  allocated (ReadAll d σ c).2 = allocated σ.
Proof.
  destruct (reads_state unit (fun _ => Ok tt) d σ c "")
    as [_ (calls & -> & _)]. done.
Qed.

Section Registry_ok.

Variable V : Type.
Variable MarshalIndent : V -> result error string.
Variable Unmarshal : string -> result error V.

Lemma Write_registry_ok (d : Driver) (σ : State) (c r : string) (v : V) :
  registry_ok d σ ->
  registry_ok (Write V MarshalIndent d σ c r v).1.2
    (Write V MarshalIndent d σ c r v).2.
Proof.
  intros Hok. unfold Write.
  destruct (String.eqb c ""); [done|]. destruct (String.eqb r ""); [done|].
  pose proof (getOrCreateMutex_ok d σ c Hok) as Hok1.
  destruct (getOrCreateMutex d σ c) as [[m d1] σ1]. cbn [fst snd] in Hok1.
  unfold os_MkdirAll, ioutil_WriteFile, os_Rename.
  repeat (case_match; simplify_eq; cbn [fst snd]);
    by eapply registry_ok_allocated.
Qed.

Lemma Delete_registry_ok (d : Driver) (σ : State) (c r : string) :
  registry_ok d σ ->
  registry_ok (Delete d σ c r).1.2 (Delete d σ c r).2.
Proof.
  intros Hok. unfold Delete.
  pose proof (getOrCreateMutex_ok d σ c Hok) as Hok1.
  destruct (getOrCreateMutex d σ c) as [[m d1] σ1]. cbn [fst snd] in Hok1.
  destruct (stat_state σ1 (Join [dir d1; Join [c; r]])) as (calls & Hst & _).
  destruct (stat σ1 (Join [dir d1; Join [c; r]])) as [res σ2].
  cbn [snd] in Hst. subst σ2.
  unfold os_RemoveAll, os_Remove.
  repeat (case_match; simplify_eq; cbn [fst snd]);
    by eapply registry_ok_allocated.
Qed.

Lemma run_registry_ok (op : Op V) (ds : Driver * State) :
  registry_ok ds.1 ds.2 ->
  registry_ok (run V MarshalIndent Unmarshal ds op).1
    (run V MarshalIndent Unmarshal ds op).2.
Proof.
  destruct ds as [d σ]. cbn [fst snd]. intros Hok.
  destruct op as [c r v|c r|c|c r]; cbn [run].
  - pose proof (Write_registry_ok d σ c r v Hok) as H.
    by destruct (Write V MarshalIndent d σ c r v) as [[? ?] ?].
  - destruct (reads_state V Unmarshal d σ c r)
      as [(calls & H & _) _].
    destruct (Read V Unmarshal d σ c r) as [res σ']. cbn [fst snd] in *.
    subst σ'. by eapply registry_ok_allocated.
  - pose proof (ReadAll_allocated d σ c) as H.
    destruct (ReadAll d σ c) as [[? ?] σ']. cbn [fst snd] in *.
    by eapply registry_ok_allocated.
  - pose proof (Delete_registry_ok d σ c r Hok) as H.
    by destruct (Delete d σ c r) as [[? ?] ?].
Qed.

Lemma run_all_registry_ok (ops : list (Op V)) :
  forall ds : Driver * State,
    registry_ok ds.1 ds.2 ->
    registry_ok (run_all V MarshalIndent Unmarshal ops ds).1
      (run_all V MarshalIndent Unmarshal ops ds).2.
Proof.
  unfold run_all. induction ops as [|op ops IH]; intros ds Hok; cbn.
  - done.
  - apply IH. by apply run_registry_ok.
Qed.

(** X11. On a store made by [New], after any operations: no mutex is
    registered for two collections, and every registered mutex is one that
    was allocated. *)
Theorem registry_ok_runs (σ0 : State) (dir0 : string) (ops : list (Op V)) :
  registry_ok
    (run_all V MarshalIndent Unmarshal ops
       ((New σ0 dir0).1.1, (New σ0 dir0).2)).1
    (run_all V MarshalIndent Unmarshal ops
       ((New σ0 dir0).1.1, (New σ0 dir0).2)).2.
Proof.
  apply run_all_registry_ok. cbn [fst snd].
  assert (Hd : mutexes (New σ0 dir0).1.1 = ∅).
  { unfold New. by repeat (case_match; cbn [fst snd]). }
  split; intros *; by rewrite Hd, lookup_empty.
Qed.

End Registry_ok.

(** ** What MkdirAll makes *)

Lemma mkdir_all_Ok_Dir (loc : list string) :
  forall (m m' : gmap (list string) os.node),
    os.mkdir_all m loc = (m', None) -> os.walk m' loc = Ok os.Dir.
Proof.
  induction loc as [|x parent IH]; intros m m' H; [done|].
  cbn [os.mkdir_all] in H.
  destruct (os.walk m (x :: parent)) as [[?|]|?] eqn:Ew.
  - discriminate.
  - by injection H as <-.
  - destruct (os.mkdir_all m parent) as [m1 [e1|]] eqn:E1; [discriminate|].
    apply IH in E1.
    destruct (os.mkdir m1 (x :: parent)) as [m2|e2] eqn:E2.
    + injection H as <-. apply mkdir_Ok in E2 as [_ ->].
      by apply walk_insert_here.
    + destruct (os.walk m1 (x :: parent)) as [[?|]|?] eqn:Ew1;
        try discriminate.
      by injection H as <-.
Qed.

(** [MkdirAll] changes nothing beside the location and its ancestors. *)
Lemma mkdir_all_local (loc : list string) :
  forall (m m' : gmap (list string) os.node) (e : option Errno),
    os.mkdir_all m loc = (m', e) ->
    forall q, ¬ q `suffix_of` loc -> m' !! q = m !! q.
Proof.
  induction loc as [|x parent IH]; intros m m' e H q Hq.
  - cbn in H. by injection H as <- _.
  - cbn [os.mkdir_all] in H.
    assert (Hqp : ¬ q `suffix_of` parent).
    { intros Hs. apply Hq. by apply suffix_cons_r. }
    destruct (os.walk m (x :: parent)) as [[?|]|?];
      try (by injection H as <- _).
    destruct (os.mkdir_all m parent) as [m1 [e1|]] eqn:E1.
    + injection H as <- _. by eapply IH.
    + rewrite <- (IH _ _ _ E1 q Hqp).
      destruct (os.mkdir m1 (x :: parent)) as [m2|e2] eqn:E2.
      * injection H as <- _. apply mkdir_Ok in E2 as [_ ->].
        apply lookup_insert_ne. by intros <-.
      * by destruct (os.walk m1 (x :: parent)) as [[?|]|?];
          injection H as <- _.
Qed.

Lemma MkdirAll_Ok_Dir (fs0 : os.FS) (path : string) (fs1 : os.FS) :
  os.MkdirAll fs0 path = (None, fs1) ->
  os.cwd fs1 = os.cwd fs0
  /\ String.eqb path "" = false
  /\ os.walk (os.nodes fs1) (os.resolve fs0 path) = Ok os.Dir
  /\ forall q, ¬ q `suffix_of` os.resolve fs0 path ->
               os.nodes fs1 !! q = os.nodes fs0 !! q.
Proof.
  unfold os.MkdirAll. destruct (String.eqb path ""); [discriminate|].
  destruct (os.mkdir_all _ _) as [m [e|]] eqn:E; [discriminate|].
  intros [= <-]. cbn [os.cwd os.nodes]. repeat split.
  - by eapply mkdir_all_Ok_Dir.
  - by eapply mkdir_all_local.
Qed.

Lemma MkdirAll_Err_kind (fs0 : os.FS) (path : string) (e : error)
    (fs1 : os.FS) :
  os.MkdirAll fs0 path = (Some e, fs1) ->
  exists errno, e = PathError "mkdir" path errno.
Proof.
  unfold os.MkdirAll. destruct (String.eqb path "").
  - intros [= <- _]. eauto.
  - destruct (os.mkdir_all _ _) as [m [errno|]]; [|discriminate].
    intros [= <- _]. eauto.
Qed.

(** ** New *)

(** X12. When [New] returns no error: the driver has the cleaned path as
    root and an empty registry, and the root exists. If it existed before,
    whatever it is, the file system is as it was; if not, it is a directory
    now. *)
Theorem New_store (σ : State) (dir0 : string) (d : Driver) (σ' : State) :
  New σ dir0 = (d, None, σ') ->
  dir d = Clean dir0 /\ mutexes d = ∅
  /\ exists fi,
       os.Stat (fs σ') (dir d) = Ok fi
       /\ (forall fi0, os.Stat (fs σ) (dir d) = Ok fi0 -> fs σ' = fs σ)
       /\ (forall e, os.Stat (fs σ) (dir d) = Err e ->
                     os.IsDir (os.Mode fi) = true).
Proof.
  unfold New, os_Stat, os_MkdirAll.
  destruct (os.Stat (fs σ) (Clean dir0)) as [fi0|e0] eqn:Est.
  - intros [= <- <-]. cbn [dir mutexes fs sys].
    split; [done|]. split; [done|]. exists fi0. by rewrite Est.
  - cbn [fs sys].
    destruct (os.MkdirAll (fs σ) (Clean dir0)) as [emk fs1] eqn:Emk.
    intros [= <- -> <-]. cbn [dir mutexes fs sys].
    split; [done|]. split; [done|].
    destruct (MkdirAll_Ok_Dir _ _ _ Emk) as (Hcwd & Hne & Hw & _).
    exists {| os.Name := os.base (os.resolve fs1 (Clean dir0));
              os.Mode := os.ModeDir |}.
    split; [|by rewrite Est].
    unfold os.Stat, os.path_node.
    by rewrite Hne, (resolve_cwd (fs σ) fs1), Hw.
Qed.

Lemma New_store_witness :
  dir Example.db = Clean "/db" /\ mutexes Example.db = ∅
  /\ exists fi,
       os.Stat (fs Example.st_db) (dir Example.db) = Ok fi
       /\ (forall fi0,
             os.Stat (fs (Example.empty [])) (dir Example.db) = Ok fi0 ->
             fs Example.st_db = fs (Example.empty []))
       /\ (forall e,
             os.Stat (fs (Example.empty [])) (dir Example.db) = Err e ->
             os.IsDir (os.Mode fi) = true).
Proof.
  apply (New_store (Example.empty []) "/db" Example.db Example.st_db).
  vm_compute. reflexivity.
Defined.

(** ** Write: the other failures *)

Lemma Rename_Err (fs0 : os.FS) (oldname newname : string) (e : error)
    (fs1 : os.FS) :
  os.Rename fs0 oldname newname = (Some e, fs1) ->
  fs1 = fs0 /\ exists errno, e = LinkError "rename" oldname newname errno.
Proof.
  unfold os.Rename. intros H.
  repeat (case_match; simplify_eq); eauto.
Qed.

Lemma WriteFile_Err_PathError (fs0 : os.FS) (name data : string) (e : error)
    (fs1 : os.FS) :
  os.WriteFile fs0 name data = (Some e, fs1) ->
  exists errno, e = PathError "open" name errno.
Proof.
  unfold os.WriteFile. intros H.
  repeat (case_match; simplify_eq); eauto.
Qed.

Section Write_failures.

Variable V : Type.
Variable MarshalIndent : V -> result error string.

(** X13. For non-empty [c] and [r]: when the collection directory cannot
    be made, [Write c r v] returns the error of [MkdirAll], an I/O error; no
    other call is made, and the regular files of the tree are the same
    before and after. *)
Theorem Write_mkdir_failure (d : Driver) (σ : State) (c r : string) (v : V)
    (e : error) (fs1 : os.FS) :
  c <> "" -> r <> "" ->
  os.MkdirAll (fs σ) (Join [dir d; c]) = (Some e, fs1) ->
  exists d' σ',
    Write V MarshalIndent d σ c r v = (Some e, d', σ')
    /\ kind_of e = Some IOError
    /\ trace σ' = (trace σ ++ [SysMkdirAll (Join [dir d; c])])%list
    /\ (forall loc data,
          os.nodes (fs σ') !! loc = Some (os.File data)
          <-> os.nodes (fs σ) !! loc = Some (os.File data)).
Proof.
  intros Hc Hr Hmk. unfold Write.
  apply String.eqb_neq in Hc, Hr. rewrite Hc, Hr.
  destruct (getOrCreateMutex d σ c) as [[m d1] σ1] eqn:Hg.
  apply getOrCreateMutex_frame in Hg as (Hdir & Hfs & Htr).
  unfold os_MkdirAll. rewrite Hdir, Hfs, Hmk.
  eexists _, _. split; [reflexivity|]. split.
  { by destruct (MkdirAll_Err_kind _ _ _ _ Hmk) as [errno ->]. }
  cbn [fs trace sys]. rewrite Htr. split; [done|].
  by eapply MkdirAll_files.
Qed.

(** X14. With an encoder whose errors are serialization errors: when
    [Write c r v] returns an error of [Rename], the record was encoded and
    the temporary file [root/c/r.json.tmp] is left behind, holding the
    encoding followed by a line feed. *)
Theorem Write_rename_failure (d : Driver) (σ : State) (c r : string) (v : V)
    (op oldname newname : string) (errno : Errno) (d' : Driver)
    (σ' : State) :
  (forall v' e', MarshalIndent v' = Err e' ->
                 kind_of e' = Some SerializationError) ->
  Write V MarshalIndent d σ c r v
  = (Some (LinkError op oldname newname errno), d', σ') ->
  exists b,
    MarshalIndent v = Ok b
    /\ oldname = Join [Join [dir d; c]; r +:+ ".json"] +:+ ".tmp"
    /\ newname = Join [Join [dir d; c]; r +:+ ".json"]
    /\ os.ReadFile (fs σ') oldname = Ok (b +:+ String "010"%char "").
Proof.
  intros HM HW.
  assert (Hc : c <> "").
  { intros ->. discriminate HW. }
  assert (Hr : r <> "").
  { intros ->. unfold Write in HW. apply String.eqb_neq in Hc.
    rewrite Hc in HW. discriminate HW. }
  destruct (Write_inv _ _ _ _ _ _ _ _ _ _ Hc Hr HW)
    as (emk & fs1 & Hmk & [(e & -> & [= <-] & _)|[(_ & e & He & [= <-] & _)|
         (-> & b & ewr & fs2 & Hb & Hwr & [(e & -> & [= <-] & _)|[-> Hre]])]]).
  - by destruct (MkdirAll_Err_kind _ _ _ _ Hmk) as [? ?].
  - by apply HM in He.
  - by destruct (WriteFile_Err_PathError _ _ _ _ _ Hwr) as [? ?].
  - exists b. split; [done|].
    destruct (Rename_Err _ _ _ _ _ Hre) as [Hfs (errno' & [= _ -> -> _])].
    split; [done|]. split; [done|]. rewrite Hfs.
    destruct (WriteFile_Ok_walk _ _ _ _ Hwr) as (Hcwd & Hw & _).
    pose proof (proj1 (WriteFile_Ok _ _ _ _ Hwr)) as Hne.
    apply ReadFile_walk. split; [done|].
    by rewrite (resolve_cwd fs1 fs2).
Qed.

End Write_failures.

Lemma Write_mkdir_failure_witness :
  exists d' σ',
    Example.Write Example.d_john Example.st_john "users/1_john.json" "x" "1"
    = (Some (PathError "mkdir" "/db/users/1_john.json" ENOTDIR), d', σ')
    /\ kind_of (PathError "mkdir" "/db/users/1_john.json" ENOTDIR)
       = Some IOError
    /\ trace σ'
       = (trace Example.st_john
          ++ [SysMkdirAll (Join [dir Example.d_john; "users/1_john.json"])])%list
    /\ (forall loc data,
          os.nodes (fs σ') !! loc = Some (os.File data)
          <-> os.nodes (fs Example.st_john) !! loc = Some (os.File data)).
Proof.
  apply (Write_mkdir_failure json.Number json.MarshalIndent Example.d_john
           Example.st_john "users/1_john.json" "x" "1"
           (PathError "mkdir" "/db/users/1_john.json" ENOTDIR)
           (fs Example.st_john)).
  - discriminate.
  - discriminate.
  - vm_compute. reflexivity.
Defined.

Lemma Write_rename_failure_witness :
  exists b,
    json.MarshalIndent "25" = Ok b
    /\ "/db/users/x.json.tmp"
       = Join [Join [dir Example.d_subdir; "users"]; "x" +:+ ".json"] +:+ ".tmp"
    /\ "/db/users/x.json"
       = Join [Join [dir Example.d_subdir; "users"]; "x" +:+ ".json"]
    /\ os.ReadFile
         (fs (Example.Write Example.d_subdir Example.st_subdir
                "users" "x" "25").2)
         "/db/users/x.json.tmp"
       = Ok (b +:+ String "010"%char "").
Proof.
  apply (Write_rename_failure json.Number json.MarshalIndent
           Example.d_subdir Example.st_subdir "users" "x" "25"
           "rename" "/db/users/x.json.tmp" "/db/users/x.json" EEXIST
           (Example.Write Example.d_subdir Example.st_subdir
              "users" "x" "25").1.2).
  - exact MarshalIndent_Err_kind.
  - vm_compute. reflexivity.
Defined.

(** ** When Write succeeds *)

Lemma append_ne_self (s t : string) : t <> "" -> s +:+ t <> s.
Proof.
  intros Ht. induction s as [|c s IH]; [done|].
  rewrite append_String. by intros [= H].
Qed.

Lemma suffix_same_length {A} (l k : list A) :
  l `suffix_of` k -> length l = length k -> l = k.
Proof.
  intros [p ->] Hlen. rewrite length_app in Hlen.
  destruct p; [done|]. cbn in Hlen. lia.
Qed.

(** A path or a name that the system takes: so is what it starts with. *)
Lemma has_NUL_append (a b : string) :
  os.has_NUL (a +:+ b) = os.has_NUL a || os.has_NUL b.
Proof.
  induction a as [|c a IH]; [done|].
  rewrite append_String. cbn. by rewrite IH, orb_assoc.
Qed.

Lemma length_append (a b : string) :
  String.length (a +:+ b) = String.length a + String.length b.
Proof.
  induction a as [|c a IH]; [done|].
  rewrite append_String. cbn. by rewrite IH.
Qed.

Lemma refused_append (a b : string) :
  os.refused (a +:+ b) = None -> os.refused a = None.
Proof.
  unfold os.refused. rewrite has_NUL_append, length_append.
  destruct (os.has_NUL a); [done|]. cbn [orb].
  destruct (os.has_NUL b); [done|].
  destruct (Nat.leb_spec os.PATH_MAX (String.length a + String.length b));
    [done|].
  destruct (Nat.leb_spec os.PATH_MAX (String.length a)); [lia|done].
Qed.

Lemma bad_elem_append (a b : string) :
  os.bad_elem (a +:+ b) = None -> os.bad_elem a = None.
Proof.
  unfold os.bad_elem. rewrite has_NUL_append, length_append.
  destruct (os.has_NUL a); [done|]. cbn [orb].
  destruct (os.has_NUL b); [done|].
  destruct (Nat.ltb_spec os.NAME_MAX (String.length a + String.length b));
    [done|].
  destruct (Nat.ltb_spec os.NAME_MAX (String.length a)); [lia|done].
Qed.

Section Write_success.

Variable V : Type.
Variable MarshalIndent : V -> result error string.

(** One successful step of [Write], for a path of names [c] and a name [r]:
    what it leaves at the collection directory and around it. *)
Lemma Write_names_step (d : Driver) (σ : State) (c r : string) (v : V)
    (b : string) (fs1 : os.FS) :
  is_names c = true -> is_name r = true ->
  MarshalIndent v = Ok b ->
  os.MkdirAll (fs σ) (Join [dir d; c]) = (None, fs1) ->
  os.refused (Join [Join [dir d; c]; r +:+ ".json"] +:+ ".tmp") = None ->
  os.bad_elem ((r +:+ ".json") +:+ ".tmp") = None ->
  os.nodes (fs σ)
    !! os.resolve (fs σ) (Join [Join [dir d; c]; r +:+ ".json"])
    <> Some os.Dir ->
  os.nodes (fs σ)
    !! os.resolve (fs σ) (Join [Join [dir d; c]; r +:+ ".json"] +:+ ".tmp")
    <> Some os.Dir ->
  exists d' σ',
    Write V MarshalIndent d σ c r v = (None, d', σ')
    /\ dir d' = dir d
    /\ os.cwd (fs σ') = os.cwd (fs σ)
    /\ os.walk (os.nodes (fs σ')) (os.resolve (fs σ) (Join [dir d; c]))
       = Ok os.Dir
    /\ os.nodes (fs σ')
         !! ((r +:+ ".json") :: os.resolve (fs σ) (Join [dir d; c]))
       = Some (os.File (b +:+ String "010"%char ""))
    /\ forall x,
         x <> r +:+ ".json" -> x <> (r +:+ ".json") +:+ ".tmp" ->
         os.nodes (fs σ') !! (x :: os.resolve (fs σ) (Join [dir d; c]))
         = os.nodes (fs σ) !! (x :: os.resolve (fs σ) (Join [dir d; c])).
Proof.
  intros Hc Hr Hb Hmk HvT HeT HF HT.
  assert (Hrj : is_name (r +:+ ".json") = true) by (by apply is_name_append).
  set (dirp := Join [dir d; c]) in *.
  set (fnlPath := Join [dirp; r +:+ ".json"]) in *.
  set (tempPath := fnlPath +:+ ".tmp") in *.
  set (data := b +:+ String "010"%char "").
  set (D := os.resolve (fs σ) dirp).
  set (rj := r +:+ ".json") in *.
  pose proof (refused_append _ _ HvT) as HvF.
  pose proof (bad_elem_append _ _ HeT) as HeF.
  assert (HlF : os.resolve (fs σ) fnlPath = rj :: D)
    by (by apply resolve_fnlPath).
  assert (HlT : os.resolve (fs σ) tempPath = (rj +:+ ".tmp") :: D)
    by (by apply resolve_tempPath).
  rewrite HlF in HF. rewrite HlT in HT.
  assert (HneF : String.eqb fnlPath "" = false).
  { apply Join_names_not_empty. by apply is_name_names. }
  assert (HneT : String.eqb tempPath "" = false)
    by (by apply append_eqb_empty).
  destruct (MkdirAll_Ok_Dir _ _ _ Hmk) as (Hcwd1 & _ & HwD & Hloc1).
  fold D in HwD, Hloc1.
  assert (HnD : forall x, ¬ (x :: D) `suffix_of` D).
  { intros x Hs%suffix_length. cbn in Hs. lia. }
  assert (HTF : (rj +:+ ".tmp") :: D <> rj :: D).
  { intros [= H]. by apply append_ne_self in H. }
  assert (Hsame : forall x y, x <> y -> ¬ (y :: D) `suffix_of` (x :: D)).
  { intros x y Hxy Hs. apply suffix_same_length in Hs; [|done].
    by injection Hs as ->. }
  (* the temporary file is written *)
  assert (Hwr : os.WriteFile fs1 tempPath data
                = (None, os.mkFS (os.cwd fs1)
                           (<[(rj +:+ ".tmp") :: D := os.File data]>
                              (os.nodes fs1)))).
  { unfold os.WriteFile.
    rewrite HneT, HvT, (resolve_cwd (fs σ) fs1), HlT by done.
    cbn [os.walk]. rewrite HwD, HeT, Hloc1 by apply HnD.
    destruct (os.nodes (fs σ) !! ((rj +:+ ".tmp") :: D)) as [[?|]|]; done. }
  set (m2 := <[(rj +:+ ".tmp") :: D := os.File data]> (os.nodes fs1)) in *.
  set (fs2 := os.mkFS (os.cwd fs1) m2) in *.
  assert (HwD2 : os.walk m2 D = Ok os.Dir).
  { unfold m2. by rewrite walk_insert_outside. }
  assert (Hold : os.path_node fs2 tempPath = Ok (os.File data)).
  { unfold os.path_node. rewrite HneT.
    rewrite (resolve_cwd (fs σ) fs2), HlT by (by rewrite <- Hcwd1).
    unfold fs2, m2. cbn [os.nodes]. by apply walk_insert_here. }
  assert (HF2 : m2 !! (rj :: D) = os.nodes (fs σ) !! (rj :: D)).
  { unfold m2. rewrite lookup_insert_ne by done. apply Hloc1, HnD. }
  (* and renamed *)
  assert (Hre : os.Rename fs2 tempPath fnlPath
                = (None, os.mkFS (os.cwd fs2)
                           (os.move m2 ((rj +:+ ".tmp") :: D) (rj :: D)))).
  { unfold os.Rename. rewrite HvT, HvF, Hold. unfold os.path_node.
    rewrite HneF.
    rewrite !(resolve_cwd (fs σ) fs2), HlF, HlT by (by rewrite <- Hcwd1).
    cbn [os.walk]. change (os.nodes fs2) with m2. rewrite HwD2, HF2.
    destruct (os.nodes (fs σ) !! (rj :: D)) as [[?|]|]; [|done|].
    - by destruct (decide _) as [Heq|_]; [destruct (HTF Heq)|].
    - destruct (decide _) as [Hs|_]; [|by rewrite HeF].
      apply suffix_same_length in Hs; done. }
  assert (Hnew : os.move m2 ((rj +:+ ".tmp") :: D) (rj :: D) !! (rj :: D)
                 = Some (os.File data)).
  { apply lookup_move_new.
    - unfold m2. apply lookup_insert_eq.
    - apply Hsame. intros H. by apply append_ne_self in H. }
  assert (HwD3 : os.walk (os.move m2 ((rj +:+ ".tmp") :: D) (rj :: D)) D
                 = Ok os.Dir).
  { rewrite walk_move_outside; [done| |]; apply HnD. }
  assert (Hframe : forall x, x <> rj -> x <> rj +:+ ".tmp" ->
            os.move m2 ((rj +:+ ".tmp") :: D) (rj :: D) !! (x :: D)
            = os.nodes (fs σ) !! (x :: D)).
  { intros x Hx1 Hx2.
    rewrite lookup_move_outside by (by apply Hsame).
    unfold m2. rewrite lookup_insert_ne by congruence.
    apply Hloc1, HnD. }
  unfold Write.
  pose proof (is_names_not_empty c Hc) as Hcne.
  destruct (is_name_kept r Hr) as [(_ & Hrne & _) _].
  apply String.eqb_neq in Hcne, Hrne. rewrite Hcne, Hrne.
  destruct (getOrCreateMutex d σ c) as [[m d1] σ1] eqn:Hg.
  apply getOrCreateMutex_frame in Hg as (Hdir & Hfs & Htr).
  unfold os_MkdirAll, ioutil_WriteFile, os_Rename. rewrite Hdir, Hfs.
  subst fs2 m2 data tempPath fnlPath rj dirp. cbv zeta.
  rewrite Hmk, Hb. cbn [fs sys].
  rewrite Hwr. cbn [fs sys]. rewrite Hre. cbn [fs sys].
  eexists _, _. split; [done|]. cbn [fs os.cwd os.nodes].
  split; [done|]. split; [done|]. split; [exact HwD3|].
  split; [exact Hnew|exact Hframe].
Qed.

(** X15. For a path of names [c] and a name [r]: when the record can be
    encoded, the collection directory is there or can be made, the path
    [root/c/r.json.tmp] is one the system takes (no NUL byte, fewer than
    [PATH_MAX] bytes) and its last element [r.json.tmp] a name an entry can
    have (no NUL byte, at most [NAME_MAX] bytes), and no directory is in the
    place of [root/c/r.json] or of [root/c/r.json.tmp], [Write c r v]
    returns no error. *)
Theorem Write_succeeds (d : Driver) (σ : State) (c r : string) (v : V)
    (b : string) (fs1 : os.FS) :
  is_names c = true -> is_name r = true ->
  MarshalIndent v = Ok b ->
  os.MkdirAll (fs σ) (Join [dir d; c]) = (None, fs1) ->
  os.refused (Join [Join [dir d; c]; r +:+ ".json"] +:+ ".tmp") = None ->
  os.bad_elem ((r +:+ ".json") +:+ ".tmp") = None ->
  os.nodes (fs σ)
    !! os.resolve (fs σ) (Join [Join [dir d; c]; r +:+ ".json"])
    <> Some os.Dir ->
  os.nodes (fs σ)
    !! os.resolve (fs σ) (Join [Join [dir d; c]; r +:+ ".json"] +:+ ".tmp")
    <> Some os.Dir ->
  exists d' σ', Write V MarshalIndent d σ c r v = (None, d', σ').
Proof.
  intros Hc Hr Hb Hmk HvT HeT HF HT.
  destruct (Write_names_step d σ c r v b fs1 Hc Hr Hb Hmk HvT HeT HF HT)
    as (d' & σ' & HW & _).
  by exists d', σ'.
Qed.

End Write_success.

Lemma Write_succeeds_witness :
  exists d' σ',
    Example.Write Example.d_john Example.st_john "users" "2_jane" "30"
    = (None, d', σ').
Proof.
  apply (Write_succeeds json.Number json.MarshalIndent Example.d_john
           Example.st_john "users" "2_jane" "30" "30" (fs Example.st_john)).
  - reflexivity.
  - reflexivity.
  - reflexivity.
  - vm_compute. reflexivity.
  - vm_compute. reflexivity.
  - vm_compute. reflexivity.
  - vm_compute. discriminate.
  - vm_compute. discriminate.
Defined.

(** ** The temporary file of Write *)

Section Write_temp.

Variable V : Type.
Variable MarshalIndent : V -> result error string.

(** X9. After [Write c r v] without error, for a path of names [c] and a
    name [r], the temporary file [root/c/r.json.tmp] is gone: the existence
    check of it fails with the error of a missing file. *)
Theorem Write_removes_temp (d : Driver) (σ : State) (c r : string) (v : V)
    (d' : Driver) (σ' : State) :
  is_names c = true -> is_name r = true ->
  Write V MarshalIndent d σ c r v = (None, d', σ') ->
  os.Stat (fs σ') (Join [Join [dir d; c]; r +:+ ".json"] +:+ ".tmp")
  = Err (PathError "stat"
           (Join [Join [dir d; c]; r +:+ ".json"] +:+ ".tmp") ENOENT).
Proof.
  intros Hc Hr HW.
  pose proof (is_names_not_empty c Hc) as Hcne.
  destruct (is_name_kept r Hr) as [(_ & Hrne & _) _].
  destruct (Write_inv _ _ _ _ _ _ _ _ _ _ Hcne Hrne HW)
    as (emk & fs1 & Hmk & [(e & _ & [=] & _)|[(_ & e & _ & [=] & _)|
         (-> & b & ewr & fs2 & Hb & Hwr & [(e & _ & [=] & _)|[-> Hre]])]]).
  set (fnlPath := Join [Join [dir d; c]; r +:+ ".json"]) in *.
  destruct (WriteFile_Ok_walk _ _ _ _ Hwr) as (Hcwd2 & Hw2 & _).
  pose proof (proj1 (WriteFile_Ok _ _ _ _ Hwr)) as Hne.
  assert (Hold : os.path_node fs2 (fnlPath +:+ ".tmp")
                 = Ok (os.File (b +:+ String "010"%char ""))).
  { unfold os.path_node. rewrite Hne.
    by rewrite (resolve_cwd fs1 fs2) by done. }
  destruct (Rename_File_Ok_walk _ _ _ _ _ Hold Hre)
    as (_ & Hcwd3 & _ & _ & Hgone).
  unfold os.Stat, os.path_node. rewrite Hne.
  rewrite (resolve_cwd fs2 (fs σ')) by done. rewrite Hgone; [done|].
  unfold fnlPath. rewrite resolve_fnlPath, resolve_tempPath by done.
  intros [= H]. symmetry in H. by apply append_ne_self in H.
Qed.

End Write_temp.

Lemma Write_removes_temp_witness :
  os.Stat (fs Example.st_john)
    (Join [Join [dir Example.db; "users"]; "1_john" +:+ ".json"] +:+ ".tmp")
  = Err (PathError "stat"
           (Join [Join [dir Example.db; "users"]; "1_john" +:+ ".json"]
            +:+ ".tmp") ENOENT).
Proof.
  apply (Write_removes_temp json.Number json.MarshalIndent Example.db
           Example.st_db "users" "1_john" "25" Example.d_john Example.st_john).
  - reflexivity.
  - reflexivity.
  - vm_compute. reflexivity.
Defined.

(** ** Texts as lists of characters *)

Lemma chars_append (a b : string) :
  list_ascii_of_string (a +:+ b)
  = (list_ascii_of_string a ++ list_ascii_of_string b)%list.
Proof.
  induction a as [|c a IH]; [done|]. rewrite append_String. cbn.
  by rewrite IH.
Qed.

Lemma chars_inj (a b : string) :
  list_ascii_of_string a = list_ascii_of_string b -> a = b.
Proof.
  intros H. apply (f_equal string_of_list_ascii) in H.
  by rewrite !string_of_list_ascii_of_string in H.
Qed.

Lemma append_inv_r (a b s : string) : a +:+ s = b +:+ s -> a = b.
Proof.
  intros H. apply chars_inj. apply (f_equal list_ascii_of_string) in H.
  rewrite !chars_append in H. by apply app_inv_tail in H.
Qed.

(** A final path is never a temporary path. *)
Lemma json_ne_tmp (a b : string) :
  a +:+ ".json" <> (b +:+ ".json") +:+ ".tmp".
Proof.
  intros H. apply (f_equal list_ascii_of_string) in H.
  rewrite !chars_append in H. apply (f_equal (@rev ascii)) in H.
  rewrite !rev_app_distr in H. cbn in H. discriminate H.
Qed.

Lemma split_inj (a b : string) : split a = split b -> a = b.
Proof.
  intros H. by rewrite <- (join_sep_split a), <- (join_sep_split b), H.
Qed.

(** ** Writes to different resources *)

Section Two_writes.

Variable V : Type.
Variable MarshalIndent : V -> result error string.

(** X16. For paths of names [c1], [c2] and names [r1], [r2] that differ in
    the collection or in the resource: after [Write c1 r1 v1] without
    error, whatever a following [Write c2 r2 v2] returns, the file
    [root/c1/r1.json] still holds the encoding of [v1], followed by a line
    feed. *)
Theorem Write_other_resource (d : Driver) (σ : State) (c1 r1 c2 r2 : string)
    (v1 v2 : V) (d1 : Driver) (σ1 : State) (err : option error)
    (d2 : Driver) (σ2 : State) :
  is_names c1 = true -> is_name r1 = true ->
  is_names c2 = true -> is_name r2 = true ->
  c1 <> c2 \/ r1 <> r2 ->
  Write V MarshalIndent d σ c1 r1 v1 = (None, d1, σ1) ->
  Write V MarshalIndent d1 σ1 c2 r2 v2 = (err, d2, σ2) ->
  exists b1,
    MarshalIndent v1 = Ok b1
    /\ os.ReadFile (fs σ2) (Join [Join [dir d; c1]; r1 +:+ ".json"])
       = Ok (b1 +:+ String "010"%char "").
Proof.
  intros Hc1 Hr1 Hc2 Hr2 Hne HW1 HW2.
  destruct (Write_Ok_ReadFile _ _ _ _ _ _ _ _ _ HW1) as (b1 & Hb1 & Hrd).
  exists b1. split; [done|].
  pose proof (Write_dir _ _ _ _ _ _ _ _ _ _ HW1) as Hdir.
  eapply (Write_frame_ReadFile _ _ _ _ _ _ _ _ _ _ _ _ HW2); [done| |];
    rewrite Hdir.
  - rewrite !resolve_fnlPath, !resolve_Join_names by done.
    intros [= Hr Hc]. apply append_inv_r in Hr.
    apply app_inv_tail in Hc.
    apply (f_equal (@rev string)) in Hc. rewrite !rev_involutive in Hc.
    apply split_inj in Hc. by destruct Hne.
  - rewrite resolve_fnlPath, resolve_tempPath by done.
    intros [= Hr _]. by apply json_ne_tmp in Hr.
Qed.

End Two_writes.

Lemma Write_other_resource_witness :
  exists b1,
    json.MarshalIndent "25" = Ok b1
    /\ os.ReadFile (fs Example2.st_jane)
         (Join [Join [dir Example.db; "users"]; "1_john" +:+ ".json"])
       = Ok (b1 +:+ String "010"%char "").
Proof.
  apply (Write_other_resource json.Number json.MarshalIndent Example.db
           Example.st_db "users" "1_john" "users" "2_jane" "25" "30"
           Example.d_john Example.st_john None Example2.d_jane
           Example2.st_jane).
  - reflexivity.
  - reflexivity.
  - reflexivity.
  - reflexivity.
  - right. discriminate.
  - vm_compute. reflexivity.
  - vm_compute. reflexivity.
Defined.

(** ** The resource names of main *)

Lemma no_underscore_string_of_uint (u : Decimal.uint) :
  no_underscore (DecimalString.NilEmpty.string_of_uint u) = true.
Proof. induction u; cbn; done. Qed.

Lemma string_of_uint_inj (u u' : Decimal.uint) :
  DecimalString.NilEmpty.string_of_uint u
  = DecimalString.NilEmpty.string_of_uint u' -> u = u'.
Proof.
  intros H. apply (f_equal DecimalString.NilEmpty.uint_of_string) in H.
  rewrite !DecimalString.NilEmpty.usu in H. by injection H.
Qed.

(** The text before the first underscore is determined. *)
Lemma underscore_split (s1 : string) :
  forall s2 t1 t2 : string,
    no_underscore s1 = true -> no_underscore s2 = true ->
    s1 +:+ String "_"%char t1 = s2 +:+ String "_"%char t2 ->
    s1 = s2 /\ t1 = t2.
Proof.
  induction s1 as [|c s1 IH]; intros [|c' s2] t1 t2 H1 H2 H;
    rewrite ?append_String, ?append_empty in H.
  - by injection H.
  - injection H as <- _. discriminate H2.
  - injection H as -> _. discriminate H1.
  - injection H as <- H. cbn in H1, H2.
    apply andb_true_iff in H1 as [_ H1], H2 as [_ H2].
    destruct (IH _ _ _ H1 H2 H) as [-> ->]. done.
Qed.

(** X17. The resource name that [main] makes from the index and the name
    of an employee determines both: two employees get the same resource
    name only at the same index and with the same name, so employees with
    the same name are written to different files. *)
Theorem uniqueID_inj (i j : nat) (name name' : string) :
  uniqueID i name = uniqueID j name' <-> i = j /\ name = name'.
Proof.
  split; [|by intros [-> ->]].
  unfold uniqueID, Itoa. intros H.
  apply underscore_split in H as [Hi Hn];
    try apply no_underscore_string_of_uint.
  split; [|done].
  apply string_of_uint_inj, DecimalNat.Unsigned.to_uint_inj in Hi. lia.
Qed.

(** ** Delete of a collection below a collection *)

(** X18. For a path of names [c] and a name [r] such that [root/c/r] is a
    directory: [Delete c r] checks and removes [root/c/r] and returns no
    error; afterwards nothing is left at or below the location of that
    directory, every other location is as before, and [root/c/r] does not
    exist. *)
Theorem Delete_directory (d : Driver) (σ : State) (c r : string)
    (fi : os.FileInfo) :
  is_names c = true -> is_name r = true ->
  os.Stat (fs σ) (Join [dir d; Join [c; r]]) = Ok fi ->
  os.IsDir (os.Mode fi) = true ->
  let target := Join [dir d; Join [c; r]] in
  let loc := os.resolve (fs σ) target in
  exists d' σ',
    Delete d σ c r = (None, d', σ')
    /\ trace σ' = (trace σ ++ [SysStat target; SysRemoveAll target])%list
    /\ (forall q, loc `suffix_of` q -> os.nodes (fs σ') !! q = None)
    /\ (forall q, ¬ loc `suffix_of` q ->
                  os.nodes (fs σ') !! q = os.nodes (fs σ) !! q)
    /\ os.Stat (fs σ') target = Err (PathError "stat" target ENOENT).
Proof.
  intros Hc Hr Hst Hdir target loc.
  destruct (Join_collection_resource c r Hc Hr) as (Hj & Hn & Hsp).
  destruct (Stat_IsDir _ _ _ Hst Hdir) as [Hne Hwalk].
  fold target in Hst, Hne, Hwalk. fold loc in Hwalk.
  assert (Hloc : exists parent, loc = r :: parent).
  { exists (rev (split c) ++ os.resolve (fs σ) (dir d))%list.
    unfold loc, target. rewrite Hj, (resolve_Join_names _ _ _ Hn), Hsp.
    by rewrite rev_app_distr. }
  destruct Hloc as (parent & Hloc).
  assert (Hdot : os.endsWithDot target = false).
  { unfold target. rewrite Hj. by apply endsWithDot_Join_names. }
  unfold Delete.
  destruct (getOrCreateMutex d σ c) as [[m d1] σ1] eqn:Hg.
  apply getOrCreateMutex_frame in Hg as (Hd & Hfs & Htr).
  rewrite Hd. fold target.
  unfold stat, os_Stat. rewrite Hfs, Hst, Hdir.
  unfold os_RemoveAll, os.RemoveAll. cbn [fs sys].
  rewrite Hne, Hdot. fold loc. rewrite Hwalk, Hloc. rewrite <- Hloc.
  eexists _, _. split; [reflexivity|]. cbn [fs trace sys os.nodes].
  split; [by rewrite Htr, <- app_assoc|].
  split; [apply prune_below|]. split; [apply prune_outside|].
  unfold os.Stat, os.path_node. rewrite Hne, resolve_mkFS.
  cbn [os.nodes]. fold loc. rewrite Hloc in Hwalk |- *.
  by rewrite (walk_prune_root _ _ _ _ Hwalk).
Qed.

Lemma Delete_directory_witness :
  exists d' σ',
    Delete Example.d_subdir Example.st_subdir "users" "x.json" = (None, d', σ')
    /\ trace σ'
       = (trace Example.st_subdir
          ++ [SysStat "/db/users/x.json"; SysRemoveAll "/db/users/x.json"])%list
    /\ os.nodes (fs σ') !! ["y.json"; "x.json"; "users"; "db"] = None
    /\ os.Stat (fs σ') "/db/users/x.json"
       = Err (PathError "stat" "/db/users/x.json" ENOENT).
Proof.
  destruct (Delete_directory Example.d_subdir Example.st_subdir "users"
              "x.json" {| os.Name := "x.json"; os.Mode := os.ModeDir |})
    as (d' & σ' & HD & Htr & Hbelow & _ & Hgone).
  - reflexivity.
  - reflexivity.
  - vm_compute. reflexivity.
  - reflexivity.
  - exists d', σ'. split; [exact HD|]. split; [exact Htr|]. split.
    + apply Hbelow. exists ["y.json"]. vm_compute. reflexivity.
    + exact Hgone.
Defined.

(** ** The loop of main *)

Lemma no_separator_string_of_uint (u : Decimal.uint) :
  no_separator (DecimalString.NilEmpty.string_of_uint u) = true.
Proof. induction u; cbn; done. Qed.

Lemma is_name_uniqueID (i : nat) (name : string) :
  no_separator name = true -> is_name (uniqueID i name) = true.
Proof.
  intros Hn. unfold uniqueID, Itoa.
  change ("_" +:+ name) with (String "_"%char name).
  generalize (Nat.to_uint (i + 1)). intros u.
  unfold is_name. rewrite !andb_true_iff. split.
  - destruct u; rewrite ?append_String, ?append_empty; done.
  - apply no_separator_append; [apply no_separator_string_of_uint|done].
Qed.

Lemma uniqueID_index (i j : nat) (name name' : string) :
  uniqueID i name = uniqueID j name' -> i = j.
Proof.
  unfold uniqueID, Itoa. intros H.
  apply underscore_split in H as [Hi _];
    try apply no_underscore_string_of_uint.
  apply string_of_uint_inj, DecimalNat.Unsigned.to_uint_inj in Hi. lia.
Qed.

Lemma uniqueID_json_ne (i j : nat) (name name' : string) :
  i <> j ->
  uniqueID i name +:+ ".json" <> uniqueID j name' +:+ ".json"
  /\ uniqueID i name +:+ ".json" <> (uniqueID j name' +:+ ".json") +:+ ".tmp"
  /\ (uniqueID i name +:+ ".json") +:+ ".tmp" <> uniqueID j name' +:+ ".json"
  /\ (uniqueID i name +:+ ".json") +:+ ".tmp"
     <> (uniqueID j name' +:+ ".json") +:+ ".tmp".
Proof.
  intros Hij. repeat split.
  - intros H%append_inv_r%uniqueID_index. done.
  - apply json_ne_tmp.
  - intros H. symmetry in H. by apply json_ne_tmp in H.
  - intros H%append_inv_r%append_inv_r%uniqueID_index. done.
Qed.

Lemma User_eta (u : main.User) :
  {| main.Name := main.Name u;
     main.Age := main.Age u;
     main.Contact := main.Contact u;
     main.Company := main.Company u;
     main.Address_ := main.Address_ u |} = u.
Proof. by destruct u. Qed.

Lemma MkdirAll_Dir (fs0 : os.FS) (path : string) :
  String.eqb path "" = false ->
  os.walk (os.nodes fs0) (os.resolve fs0 path) = Ok os.Dir ->
  os.MkdirAll fs0 path = (None, fs0).
Proof.
  intros Hne Hw. unfold os.MkdirAll. rewrite Hne.
  assert (os.mkdir_all (os.nodes fs0) (os.resolve fs0 path)
          = (os.nodes fs0, None)) as ->.
  { destruct (os.resolve fs0 path); cbn [os.mkdir_all]; by rewrite Hw. }
  by destruct fs0.
Qed.

Section Main_loop.

Variable MarshalIndent : main.User -> result error string.

(** What the loop of [main] leaves in the directory of the collection. *)
Lemma write_employees_inv (l : list main.User) :
  forall (i : nat) (d : Driver) (σ : State) (d' : Driver) (σ' : State),
    (forall u, u ∈ l ->
       no_separator (main.Name u) = true
       /\ exists b, MarshalIndent u = Ok b) ->
    (exists fs1, os.MkdirAll (fs σ) (Join [dir d; "users"]) = (None, fs1)) ->
    (forall k u, l !! k = Some u ->
       os.refused
         (Join [Join [dir d; "users"];
                uniqueID (i + k) (main.Name u) +:+ ".json"] +:+ ".tmp") = None
       /\ os.bad_elem ((uniqueID (i + k) (main.Name u) +:+ ".json") +:+ ".tmp")
          = None) ->
    (forall k u, l !! k = Some u ->
       os.nodes (fs σ)
         !! ((uniqueID (i + k) (main.Name u) +:+ ".json")
             :: os.resolve (fs σ) (Join [dir d; "users"])) <> Some os.Dir
       /\ os.nodes (fs σ)
            !! (((uniqueID (i + k) (main.Name u) +:+ ".json") +:+ ".tmp")
                :: os.resolve (fs σ) (Join [dir d; "users"]))
          <> Some os.Dir) ->
    main.write_employees MarshalIndent d σ i l = (d', σ') ->
    dir d' = dir d
    /\ os.cwd (fs σ') = os.cwd (fs σ)
    /\ (l <> []
        \/ os.walk (os.nodes (fs σ)) (os.resolve (fs σ) (Join [dir d; "users"]))
           = Ok os.Dir ->
        os.walk (os.nodes (fs σ')) (os.resolve (fs σ) (Join [dir d; "users"]))
        = Ok os.Dir)
    /\ (forall x,
          (forall k u, l !! k = Some u ->
             x <> uniqueID (i + k) (main.Name u) +:+ ".json"
             /\ x <> (uniqueID (i + k) (main.Name u) +:+ ".json") +:+ ".tmp") ->
          os.nodes (fs σ') !! (x :: os.resolve (fs σ) (Join [dir d; "users"]))
          = os.nodes (fs σ) !! (x :: os.resolve (fs σ) (Join [dir d; "users"])))
    /\ (forall k u, l !! k = Some u ->
          exists b,
            MarshalIndent u = Ok b
            /\ os.nodes (fs σ')
                 !! ((uniqueID (i + k) (main.Name u) +:+ ".json")
                     :: os.resolve (fs σ) (Join [dir d; "users"]))
               = Some (os.File (b +:+ String "010"%char ""))).
Proof.
  induction l as [|u rest IH]; intros i d σ d' σ' Hall Hmk Hval Hfree H.
  { injection H as <- <-. repeat split; try done.
    by intros [?|?]. }
  cbn [main.write_employees] in H. cbv zeta in H. rewrite User_eta in H.
  destruct Hmk as [fs1 Hmk].
  destruct (Hall u) as [Hn [b Hb]]; [by left|].
  pose proof (is_name_uniqueID i _ Hn) as Hr.
  assert (Hc : is_names "users" = true) by reflexivity.
  destruct (Hval 0 u eq_refl) as [HvT HeT]. rewrite Nat.add_0_r in HvT, HeT.
  destruct (Hfree 0 u eq_refl) as [HF HT]. rewrite Nat.add_0_r in HF, HT.
  set (D := os.resolve (fs σ) (Join [dir d; "users"])) in *.
  destruct (Write_names_step main.User MarshalIndent d σ "users"
              (uniqueID i (main.Name u)) u b fs1 Hc Hr Hb Hmk HvT HeT)
    as (d1 & σ1 & HW & Hdir1 & Hcwd1 & HwD1 & Hfile1 & Hframe1).
  { by rewrite resolve_fnlPath. }
  { by rewrite resolve_tempPath. }
  fold D in HwD1, Hfile1, Hframe1. rewrite HW in H.
  assert (HD1 : os.resolve (fs σ1) (Join [dir d1; "users"]) = D).
  { by rewrite Hdir1, (resolve_cwd (fs σ)). }
  destruct (IH (S i) d1 σ1 d' σ') as (Hdir & Hcwd & HwD & Hframe & Hst);
    [| | | |done|].
  { intros u' Hu'. apply Hall. by right. }
  { exists (fs σ1). apply MkdirAll_Dir; [by apply Join_names_not_empty|].
    by rewrite HD1. }
  { intros k u' Hk. rewrite Hdir1.
    replace (S i + k) with (i + S k) by lia. by apply (Hval (S k)). }
  { intros k u' Hk. rewrite HD1.
    destruct (uniqueID_json_ne (S i + k) i (main.Name u') (main.Name u))
      as (N1 & N2 & N3 & N4); [lia|].
    rewrite !Hframe1 by done.
    replace (S i + k) with (i + S k) by lia. by apply (Hfree (S k)). }
  rewrite HD1 in HwD, Hframe, Hst.
  split; [congruence|]. split; [congruence|].
  split; [intros _; apply HwD; by right|]. split.
  - intros x Hx. rewrite Hframe.
    + destruct (Hx 0 u eq_refl) as [X1 X2]. rewrite Nat.add_0_r in X1, X2.
      by apply Hframe1.
    + intros k u' Hk. replace (S i + k) with (i + S k) by lia.
      by apply (Hx (S k)).
  - intros [|k] u' Hk.
    + injection Hk as <-. exists b. split; [done|]. rewrite Nat.add_0_r.
      rewrite Hframe; [done|]. intros k u' Hk.
      destruct (uniqueID_json_ne i (S i + k) (main.Name u) (main.Name u'))
        as (N1 & N2 & _); [lia|done].
    + replace (i + S k) with (S i + k) by lia. by apply Hst.
Qed.

(** The files that the loop of [main] leaves. *)
Lemma write_employees_files (l : list main.User) (i : nat) (d : Driver)
    (σ : State) (d' : Driver) (σ' : State) :
  (forall u, u ∈ l ->
     no_separator (main.Name u) = true /\ exists b, MarshalIndent u = Ok b) ->
  (exists fs1, os.MkdirAll (fs σ) (Join [dir d; "users"]) = (None, fs1)) ->
  (forall k u, l !! k = Some u ->
     os.refused
       (Join [Join [dir d; "users"];
              uniqueID (i + k) (main.Name u) +:+ ".json"] +:+ ".tmp") = None
     /\ os.bad_elem ((uniqueID (i + k) (main.Name u) +:+ ".json") +:+ ".tmp")
        = None) ->
  (forall k u, l !! k = Some u ->
     os.nodes (fs σ)
       !! os.resolve (fs σ)
            (Join [Join [dir d; "users"];
                   uniqueID (i + k) (main.Name u) +:+ ".json"])
     <> Some os.Dir
     /\ os.nodes (fs σ)
          !! os.resolve (fs σ)
               (Join [Join [dir d; "users"];
                      uniqueID (i + k) (main.Name u) +:+ ".json"] +:+ ".tmp")
        <> Some os.Dir) ->
  main.write_employees MarshalIndent d σ i l = (d', σ') ->
  dir d' = dir d
  /\ os.cwd (fs σ') = os.cwd (fs σ)
  /\ forall k u, l !! k = Some u ->
       exists b,
         MarshalIndent u = Ok b
         /\ os.ReadFile (fs σ')
              (Join [Join [dir d; "users"];
                     uniqueID (i + k) (main.Name u) +:+ ".json"])
            = Ok (b +:+ String "010"%char "").
Proof.
  intros Hall Hmk Hval Hfree HL.
  assert (Hc : is_names "users" = true) by reflexivity.
  assert (Hname : forall k u, l !! k = Some u ->
            is_name (uniqueID (i + k) (main.Name u)) = true).
  { intros k' u' Hk'. apply is_name_uniqueID, Hall.
    by eapply list_elem_of_lookup_2. }
  destruct (write_employees_inv l i d σ d' σ' Hall Hmk Hval) as
    (Hdir & Hcwd & HwD & _ & Hst); [|done|].
  { intros k' u' Hk'. destruct (Hfree k' u' Hk') as [HF HT].
    rewrite resolve_fnlPath in HF by auto.
    rewrite resolve_tempPath in HT by auto. done. }
  split; [done|]. split; [done|]. intros k u Hk.
  destruct (Hst k u Hk) as (b & Hb & Hfile). exists b. split; [done|].
  apply ReadFile_walk. split.
  { apply Join_names_not_empty, is_name_names, is_name_append; eauto. }
  rewrite (resolve_cwd (fs σ)), resolve_fnlPath by eauto.
  cbn [os.walk]. rewrite HwD, Hfile; [done|]. left. intros ->. done.
Qed.

(** X19. The loop of [main] over any employees, started at index [i]: when
    the names hold no separator and every employee can be encoded, the
    directory [root/users] is there or can be made, every temporary path
    [root/users/<index+1>_<name>.json.tmp] is one the system takes (no NUL
    byte, fewer than [PATH_MAX] bytes) and its last element a name an entry
    can have (no NUL byte, at most [NAME_MAX] bytes), and no directory is
    in the place of a file the loop writes, then after the loop the file of
    every employee holds that employee's encoding and a line feed. No
    employee overwrites another one, also with the same name. *)
Theorem write_employees_stores (l : list main.User) (i : nat) (d : Driver)
    (σ : State) :
  (forall u, u ∈ l ->
     no_separator (main.Name u) = true /\ exists b, MarshalIndent u = Ok b) ->
  (exists fs1, os.MkdirAll (fs σ) (Join [dir d; "users"]) = (None, fs1)) ->
  (forall k u, l !! k = Some u ->
     os.refused
       (Join [Join [dir d; "users"];
              uniqueID (i + k) (main.Name u) +:+ ".json"] +:+ ".tmp") = None
     /\ os.bad_elem ((uniqueID (i + k) (main.Name u) +:+ ".json") +:+ ".tmp")
        = None) ->
  (forall k u, l !! k = Some u ->
     os.nodes (fs σ)
       !! os.resolve (fs σ)
            (Join [Join [dir d; "users"];
                   uniqueID (i + k) (main.Name u) +:+ ".json"])
     <> Some os.Dir
     /\ os.nodes (fs σ)
          !! os.resolve (fs σ)
               (Join [Join [dir d; "users"];
                      uniqueID (i + k) (main.Name u) +:+ ".json"] +:+ ".tmp")
        <> Some os.Dir) ->
  forall k u, l !! k = Some u ->
    exists b,
      MarshalIndent u = Ok b
      /\ os.ReadFile (fs (main.write_employees MarshalIndent d σ i l).2)
           (Join [Join [dir d; "users"];
                  uniqueID (i + k) (main.Name u) +:+ ".json"])
         = Ok (b +:+ String "010"%char "").
Proof.
  intros Hall Hmk Hval Hfree.
  destruct (main.write_employees MarshalIndent d σ i l) as [d' σ'] eqn:HL.
  by destruct (write_employees_files l i d σ d' σ' Hall Hmk Hval Hfree HL)
    as (_ & _ & Hfiles).
Qed.

(** X20. After the loop of [main], under the conditions of X19: when
    [ReadAll] of the collection [users] returns no error, the encoding of
    every employee, followed by a line feed, is among the records. *)
Theorem write_employees_then_ReadAll (l : list main.User) (i : nat)
    (d : Driver) (σ : State) (d' : Driver) (σ' σ'' : State)
    (records : list string) :
  (forall u, u ∈ l ->
     no_separator (main.Name u) = true /\ exists b, MarshalIndent u = Ok b) ->
  (exists fs1, os.MkdirAll (fs σ) (Join [dir d; "users"]) = (None, fs1)) ->
  (forall k u, l !! k = Some u ->
     os.refused
       (Join [Join [dir d; "users"];
              uniqueID (i + k) (main.Name u) +:+ ".json"] +:+ ".tmp") = None
     /\ os.bad_elem ((uniqueID (i + k) (main.Name u) +:+ ".json") +:+ ".tmp")
        = None) ->
  (forall k u, l !! k = Some u ->
     os.nodes (fs σ)
       !! os.resolve (fs σ)
            (Join [Join [dir d; "users"];
                   uniqueID (i + k) (main.Name u) +:+ ".json"])
     <> Some os.Dir
     /\ os.nodes (fs σ)
          !! os.resolve (fs σ)
               (Join [Join [dir d; "users"];
                      uniqueID (i + k) (main.Name u) +:+ ".json"] +:+ ".tmp")
        <> Some os.Dir) ->
  main.write_employees MarshalIndent d σ i l = (d', σ') ->
  ReadAll d' σ' "users" = (records, None, σ'') ->
  forall u, u ∈ l ->
    exists b,
      MarshalIndent u = Ok b /\ (b +:+ String "010"%char "") ∈ records.
Proof.
  intros Hall Hmk Hval Hfree HL HRA u Hu.
  assert (Hc : is_names "users" = true) by reflexivity.
  destruct (write_employees_files l i d σ d' σ' Hall Hmk Hval Hfree HL)
    as (Hdir & Hcwd & Hfiles).
  apply list_elem_of_lookup_1 in Hu as [k Hk].
  assert (Hr : is_name (uniqueID (i + k) (main.Name u)) = true).
  { apply is_name_uniqueID, Hall. by eapply list_elem_of_lookup_2. }
  destruct (Hfiles k u Hk) as (b & Hb & Hrd). exists b. split; [done|].
  set (dirp := Join [dir d; "users"]) in *.
  apply ReadFile_walk in Hrd as Hw. destruct Hw as [_ Hw].
  unfold dirp in Hw. rewrite (resolve_fnlPath _ _ _ _ Hc Hr) in Hw.
  fold dirp in Hw. apply walk_lookup in Hw as [HwD Hlk].
  assert (HpD : os.path_node (fs σ') dirp = Ok os.Dir).
  { unfold os.path_node. unfold dirp at 1.
    by rewrite (Join_names_not_empty _ _ Hc). }
  unfold ReadAll in HRA. cbn [String.eqb] in HRA.
  rewrite Hdir in HRA. fold dirp in HRA.
  unfold stat, os_Stat, os.Stat in HRA. rewrite HpD in HRA.
  unfold ioutil_ReadDir in HRA. cbn [fs sys] in HRA.
  destruct (os.ReadDir (fs σ') dirp) as [files rderr] eqn:Hfiles'.
  apply ReadAll_loop_None in HRA as (contents & -> & Hfa).
  cbn [fs sys app] in Hfa.
  pose proof (elem_of_ReadDir _ _ _ _ HpD Hlk) as Hin.
  rewrite Hfiles' in Hin. cbn [fst] in Hin.
  destruct (Forall2_elem_of _ _ _ _ Hfa Hin) as (data & Hdata & Hreads).
  unfold reads in Hreads. cbn [os.Name] in Hreads.
  rewrite Hrd in Hreads. by injection Hreads as <-.
Qed.

(** X21. [main], started in a working directory that exists: when every
    employee can be encoded, the directory [users] is there or can be made,
    and no directory is in the place of a file of an employee, then at the
    end the file [users/<index+1>_<name>.json] of each of the employees
    holds that employee's encoding and a line feed. *)
Theorem main_stores_employees (σ : State) :
  os.walk (os.nodes (fs σ)) (os.cwd (fs σ)) = Ok os.Dir ->
  (forall u, u ∈ main.employees -> exists b, MarshalIndent u = Ok b) ->
  (exists fs1, os.MkdirAll (fs σ) (Join ["."; "users"]) = (None, fs1)) ->
  (forall k u, main.employees !! k = Some u ->
     os.nodes (fs σ)
       !! os.resolve (fs σ)
            (Join [Join ["."; "users"]; uniqueID k (main.Name u) +:+ ".json"])
     <> Some os.Dir
     /\ os.nodes (fs σ)
          !! os.resolve (fs σ)
               (Join [Join ["."; "users"];
                      uniqueID k (main.Name u) +:+ ".json"] +:+ ".tmp")
        <> Some os.Dir) ->
  forall k u, main.employees !! k = Some u ->
    exists b,
      MarshalIndent u = Ok b
      /\ os.ReadFile (fs (main.main MarshalIndent σ).2)
           (Join [Join ["."; "users"]; uniqueID k (main.Name u) +:+ ".json"])
         = Ok (b +:+ String "010"%char "").
Proof.
  intros Hcwd Hall Hmk Hfree.
  unfold main.main, New, os_Stat, os.Stat, os.path_node.
  change (filepath.Clean "./") with ".".
  change (String.eqb "." "") with false. cbv iota.
  change (os.resolve (fs σ) ".") with (os.cwd (fs σ)). rewrite Hcwd.
  set (db := {| mutexes := ∅; dir := "." |}).
  set (σ0 := sys (SysStat ".") (fs σ) σ).
  destruct (main.write_employees MarshalIndent db σ0 0 main.employees)
    as [d' σ'] eqn:HL.
  destruct (write_employees_files main.employees 0 db σ0 d' σ')
    as (_ & _ & Hfiles); [|done| |done|done|].
  { intros u Hu. split; [|by apply Hall].
    repeat (apply elem_of_cons in Hu as [->|Hu]; [reflexivity|]).
    by apply elem_of_nil in Hu. }
  { intros [|[|[|[|[|[|[|k]]]]]]] u [= <-]; vm_compute; done. }
  destruct (reads_state main.User (fun _ => Err (JSONError "")) d' σ' "users" "")
    as [_ (calls & Hst & _)].
  destruct (ReadAll d' σ' "users") as [[records err] σ''].
  cbn [snd] in Hst |- *. subst σ''. exact Hfiles.
Qed.

End Main_loop.

Lemma write_employees_stores_witness :
  exists b,
    Example2.encode_age Example2.jane = Ok b
    /\ os.ReadFile (fs Example2.st_main)
         (Join [Join [dir Example2.d_home; "users"];
                uniqueID (0 + 5) (main.Name Example2.jane) +:+ ".json"])
       = Ok (b +:+ String "010"%char "").
Proof.
  apply (write_employees_stores Example2.encode_age main.employees 0
           Example2.d_home Example2.st_home).
  - intros u Hu.
    repeat (apply elem_of_cons in Hu as [->|Hu];
            [split; [reflexivity|eexists; reflexivity]|]).
    by apply elem_of_nil in Hu.
  - eexists. vm_compute. reflexivity.
  - intros [|[|[|[|[|[|[|k]]]]]]] u [= <-]; vm_compute; split; reflexivity.
  - intros [|[|[|[|[|[|[|k]]]]]]] u [= <-]; vm_compute; split; discriminate.
  - reflexivity.
Defined.

Lemma write_employees_then_ReadAll_witness :
  exists b,
    Example2.encode_age Example2.jane = Ok b
    /\ (b +:+ String "010"%char "")
       ∈ (ReadAll Example2.d_main Example2.st_main "users").1.1.
Proof.
  apply (write_employees_then_ReadAll Example2.encode_age main.employees 0
           Example2.d_home Example2.st_home Example2.d_main Example2.st_main
           (ReadAll Example2.d_main Example2.st_main "users").2).
  - intros u Hu.
    repeat (apply elem_of_cons in Hu as [->|Hu];
            [split; [reflexivity|eexists; reflexivity]|]).
    by apply elem_of_nil in Hu.
  - eexists. vm_compute. reflexivity.
  - intros [|[|[|[|[|[|[|k]]]]]]] u [= <-]; vm_compute; split; reflexivity.
  - intros [|[|[|[|[|[|[|k]]]]]]] u [= <-]; vm_compute; split; discriminate.
  - vm_compute. reflexivity.
  - vm_compute. reflexivity.
  - do 5 right. left.
Defined.

Lemma main_stores_employees_witness :
  exists b,
    Example2.encode_age Example2.jane = Ok b
    /\ os.ReadFile (fs (main.main Example2.encode_age Example2.st_home).2)
         (Join [Join ["."; "users"];
                uniqueID 5 (main.Name Example2.jane) +:+ ".json"])
       = Ok (b +:+ String "010"%char "").
Proof.
  apply (main_stores_employees Example2.encode_age Example2.st_home).
  - vm_compute. reflexivity.
  - intros u Hu.
    repeat (apply elem_of_cons in Hu as [->|Hu]; [eexists; reflexivity|]).
    by apply elem_of_nil in Hu.
  - eexists. vm_compute. reflexivity.
  - intros [|[|[|[|[|[|[|k]]]]]]] u [= <-]; vm_compute; split; discriminate.
  - reflexivity.
Defined.
